(** * KRA tabs widget: a shallow embedding of [kra_tabs.js]

  The development follows the canonical widget (the variant driven through
  the host record's nested object graph): the creation dialog
  [AddKraDialog], and the [KraTabs] component with its mode getter, its
  derived views and its mutation handlers.

  Conventions.
  - JavaScript numbers that hold Odoo float fields ([score], [weightage])
    are IEEE 754 doubles ([float]) and are added as JavaScript adds them;
    tab indices and the integer field [sequence] are integers ([Z]); a
    missing field is [None].
  - JavaScript strings are sequences of code units below 256 ([string]).
  - A row of the host record is an object; rows carry an object identity
    ([nat]) so that [delete(row)] and [row.update(..)] act on the object the
    handler was given, wherever it is stored.
  - An [async] handler is a function from the widget at the call to the
    widget at completion, together with the trace of calls it made to its
    collaborators and the way it completed (normally or by rejecting).  The
    outcome of every awaited Accessor call is an input of the handler. *)

From Stdlib Require Import ZArith List String Ascii Bool Lia Floats.
Import ListNotations.
Open Scope string_scope.
Open Scope list_scope.
Open Scope Z_scope.
#[local] Set Warnings "-inexact-float".

(* ------------------------------------------------------------------ *)
(** ** JavaScript helpers *)

Module Js.

(** [x || 0] on an optional integer: [undefined], [false] and [0] are falsy. *)
Definition or0 (x : option Z) : Z :=
  match x with Some z => z | None => 0 end.

(** The falsy doubles: [0], [-0] and [NaN]. *)
Definition falsy_num (x : float) : bool :=
  (PrimFloat.eqb x 0%float || PrimFloat.is_nan x)%bool.

(** [x || 0] on an optional double. *)
Definition num_or0 (x : option float) : float :=
  match x with
  | Some f => if falsy_num f then 0%float else f
  | None => 0%float
  end.

(** Truthiness of an optional boolean field. *)
Definition truthy_bool (x : option bool) : bool :=
  match x with Some b => b | None => false end.

(** Truthiness of an optional string: missing and the empty string are falsy. *)
Definition truthy_str (x : option string) : bool :=
  match x with
  | Some s => negb (String.eqb s "")
  | None => false
  end.

(** White space code units removed by [String.prototype.trim]:
    TAB, LF, VT, FF, CR, SPACE and NBSP. *)
Definition is_ws (c : ascii) : bool :=
  let n := nat_of_ascii c in
  (Nat.eqb n 9 || Nat.eqb n 10 || Nat.eqb n 11 || Nat.eqb n 12
   || Nat.eqb n 13 || Nat.eqb n 32 || Nat.eqb n 160)%bool.

Fixpoint drop_ws (l : list ascii) : list ascii :=
  match l with
  | [] => []
  | c :: r => if is_ws c then drop_ws r else l
  end.

(** [s.trim()] *)
Definition trim (s : string) : string :=
  string_of_list_ascii
    (rev (drop_ws (rev (drop_ws (list_ascii_of_string s))))).

(** [arr.includes(x)] on an array of strings. *)
Definition includes (arr : list string) (x : string) : bool :=
  existsb (String.eqb x) arr.

(** [arr[i]] for an integer index: [undefined] outside of [0 .. length-1]. *)
Definition index {A : Type} (arr : list A) (i : Z) : option A :=
  if i <? 0 then None else nth_error arr (Z.to_nat i).

(** [arr.length] *)
Definition length {A : Type} (arr : list A) : Z := Z.of_nat (List.length arr).

End Js.

(* ------------------------------------------------------------------ *)
(** ** The creation dialog *)

Module AddKraDialog.

(** [static props]: [close] and [onConfirm] are callbacks, observed through
    the trace; [existingNames] is optional. *)
Record Props := { existingNames : option (list string) }.

(** [useState({ kraName: "", error: "" })] *)
Record State := { kraName : string; error : string }.

Definition setup : State := {| kraName := ""; error := "" |}.

Inductive call :=
| CallOnConfirm (name : string)   (* this.props.onConfirm(name) *)
| CallClose.                      (* this.props.close() *)

Definition set_error (msg : string) (s : State) : State :=
  {| kraName := kraName s; error := msg |}.

(** [onConfirm()] *)
Definition onConfirm (p : Props) (s : State) : State * list call :=
  let name := Js.trim (kraName s) in
  if String.eqb name "" then
    (set_error "KRA name is required" s, [])
  else if match existingNames p with
          | Some names => Js.includes names name
          | None => false
          end then
    (set_error "A KRA with this name already exists" s, [])
  else
    (s, [CallOnConfirm name; CallClose]).

(** [onKeydown(ev)] with [ev.key] *)
Definition onKeydown (key : string) (p : Props) (s : State) : State * list call :=
  if String.eqb key "Enter" then onConfirm p s else (s, []).

(** [onNameChange(ev)] with [ev.target.value] *)
Definition onNameChange (value : string) (s : State) : State :=
  {| kraName := value; error := "" |}.

End AddKraDialog.

(* ------------------------------------------------------------------ *)
(** ** Rows of the host record *)

(** A KPI row: [row.data] with the fields the widget reads or writes. *)
Module Kpi.

(** A many2one value [[id, display_name]]. *)
Record m2o := { m2o_id : Z; display_name : string }.

Record Data := {
  name : option string;
  description : option string;
  criteria : option string;
  weightage : option float;
  score : option float;
  is_selected : option bool;
  is_clone : option bool;
  template_kpi_id : option m2o;   (* [false] when unset *)
  target : option string;
  planning_remarks : option string
}.

(** [oid] is the identity of the row object, [isNew] the host's flag of a row
    that was never saved. *)
Record Row := { oid : nat; isNew : bool; data : Data }.

(** The object literal of a create command [[0, 0, {...}]]; a key that the
    literal leaves out is [None]. *)
Record Vals := {
  v_name : option string;
  v_description : option string;
  v_criteria : option string;
  v_weightage : option float;
  v_score : option float;
  v_template_kpi_id : option Z;   (* a bare id, or [false] *)
  v_is_selected : option bool;
  v_is_clone : option bool;
  v_target : option string;
  v_planning_remarks : option string
}.

(** The value written by [row.update({[field]: value})]. *)
Inductive fieldval :=
| FNum (x : float)
| FStr (s : string)
| FBool (b : bool).

Definition set_is_selected (b : bool) (d : Data) : Data :=
  {| name := name d; description := description d; criteria := criteria d;
     weightage := weightage d; score := score d;
     is_selected := Some b; is_clone := is_clone d;
     template_kpi_id := template_kpi_id d; target := target d;
     planning_remarks := planning_remarks d |}.

Definition with_data (d : Data) (r : Row) : Row :=
  {| oid := oid r; isNew := isNew r; data := d |}.

End Kpi.

(** A KRA row: [row.data] holds [name], [sequence] and the nested [kpi_ids]
    collection (its [records]). *)
Module Kra.

Record Data := {
  name : option string;
  sequence : option Z;
  kpi_ids : list Kpi.Row
}.

Record Row := { oid : nat; isNew : bool; data : Data }.

(** The object literal [{ name: kraName, sequence: maxSequence + 10 }]. *)
Record Vals := { v_name : string; v_sequence : Z }.

Definition with_kpi_ids (l : list Kpi.Row) (r : Row) : Row :=
  {| oid := oid r; isNew := isNew r;
     data := {| name := name (data r); sequence := sequence (data r);
                kpi_ids := l |} |}.

End Kra.

(* ------------------------------------------------------------------ *)
(** ** The Record Accessor *)

Module Accessor.

(** The calls the widget makes on the host record and its rows. *)
Inductive call :=
| RecordUpdate (field : string) (vals : Kra.Vals)
    (* props.record.update({ [field]: [[0, 0, vals]] }) *)
| KraUpdate (kra : nat) (vals : Kpi.Vals)
    (* kra.update({ kpi_ids: [[0, 0, vals]] }) *)
| KraListDelete (kra : nat)
    (* props.record.data[name].delete(kra) *)
| KpiListDelete (kra : nat) (kpi : nat)
    (* kra.data.kpi_ids.delete(kpi) *)
| KpiUpdate (kpi : nat) (field : string) (value : Kpi.fieldval).
    (* kpi.update({ [field]: value }) *)

(** How an awaited call settles. *)
Inductive outcome :=
| Resolved
| Rejected (err : string).

Definition kpi_oids (k : Kra.Row) : list nat :=
  map Kpi.oid (Kra.kpi_ids (Kra.data k)).

(** An identity no object of the collection has. *)
Definition fresh (kras : list Kra.Row) : nat :=
  S (list_max (map Kra.oid kras ++ flat_map kpi_oids kras)).

(** Modelled from the spec: the host's construction of a KRA row from a
    create command is not part of the widget.  The row is unsaved, holds the
    values of the command and an empty KPI collection. *)
Definition new_kra (id : nat) (v : Kra.Vals) : Kra.Row :=
  {| Kra.oid := id; Kra.isNew := true;
     Kra.data := {| Kra.name := Some (Kra.v_name v);
                    Kra.sequence := Some (Kra.v_sequence v);
                    Kra.kpi_ids := [] |} |}.

(** Modelled from the spec: the host's construction of a KPI row from a
    create command is not part of the widget.  The row is unsaved and holds
    the values of the command; [is_selected] defaults to true; the display
    name of the many2one, which the host looks up, is left empty. *)
Definition new_kpi (id : nat) (v : Kpi.Vals) : Kpi.Row :=
  {| Kpi.oid := id; Kpi.isNew := true;
     Kpi.data :=
       {| Kpi.name := Kpi.v_name v;
          Kpi.description := Kpi.v_description v;
          Kpi.criteria := Kpi.v_criteria v;
          Kpi.weightage := Kpi.v_weightage v;
          Kpi.score := Kpi.v_score v;
          Kpi.is_selected :=
            Some (match Kpi.v_is_selected v with Some b => b | None => true end);
          Kpi.is_clone := Kpi.v_is_clone v;
          Kpi.template_kpi_id :=
            option_map (fun i => {| Kpi.m2o_id := i; Kpi.display_name := "" |})
                       (Kpi.v_template_kpi_id v);
          Kpi.target := Kpi.v_target v;
          Kpi.planning_remarks := Kpi.v_planning_remarks v |} |}.

(** Modelled from the spec: the host's write of one field of a row is not
    part of the widget.  A value of the field's type is stored; any other
    write leaves the data as it is. *)
Definition write_field (field : string) (value : Kpi.fieldval) (d : Kpi.Data)
  : Kpi.Data :=
  let upd (nm : option string) (ds : option string) (cr : option string)
          (wg : option float) (sc : option float) (sel : option bool)
          (cl : option bool) (tg : option string) (pr : option string) :=
    {| Kpi.name := nm; Kpi.description := ds; Kpi.criteria := cr;
       Kpi.weightage := wg; Kpi.score := sc; Kpi.is_selected := sel;
       Kpi.is_clone := cl; Kpi.template_kpi_id := Kpi.template_kpi_id d;
       Kpi.target := tg; Kpi.planning_remarks := pr |} in
  let nm := Kpi.name d in let ds := Kpi.description d in
  let cr := Kpi.criteria d in let wg := Kpi.weightage d in
  let sc := Kpi.score d in let sel := Kpi.is_selected d in
  let cl := Kpi.is_clone d in let tg := Kpi.target d in
  let pr := Kpi.planning_remarks d in
  match value with
  | Kpi.FStr s =>
      if String.eqb field "name" then upd (Some s) ds cr wg sc sel cl tg pr
      else if String.eqb field "description" then upd nm (Some s) cr wg sc sel cl tg pr
      else if String.eqb field "criteria" then upd nm ds (Some s) wg sc sel cl tg pr
      else if String.eqb field "target" then upd nm ds cr wg sc sel cl (Some s) pr
      else if String.eqb field "planning_remarks" then upd nm ds cr wg sc sel cl tg (Some s)
      else d
  | Kpi.FNum z =>
      if String.eqb field "weightage" then upd nm ds cr (Some z) sc sel cl tg pr
      else if String.eqb field "score" then upd nm ds cr wg (Some z) sel cl tg pr
      else d
  | Kpi.FBool b =>
      if String.eqb field "is_selected" then Kpi.set_is_selected b d
      else if String.eqb field "is_clone" then upd nm ds cr wg sc sel (Some b) tg pr
      else d
  end.

(** The rows of one KPI collection after [row.update] on the object [kpi]. *)
Definition update_kpi (kpi : nat) (field : string) (value : Kpi.fieldval)
  (l : list Kpi.Row) : list Kpi.Row :=
  map (fun r => if Nat.eqb (Kpi.oid r) kpi
                then Kpi.with_data (write_field field value (Kpi.data r)) r
                else r) l.

(** The rows of one collection after [list.delete] of the object [kpi]. *)
Definition delete_kpi (kpi : nat) (l : list Kpi.Row) : list Kpi.Row :=
  filter (fun r => negb (Nat.eqb (Kpi.oid r) kpi)) l.

(** Apply [f] to the KPI collection of the KRA object [kra]. *)
Definition on_kra (kra : nat) (f : list Kpi.Row -> list Kpi.Row)
  (kras : list Kra.Row) : list Kra.Row :=
  map (fun k => if Nat.eqb (Kra.oid k) kra
                then Kra.with_kpi_ids (f (Kra.kpi_ids (Kra.data k))) k
                else k) kras.

(** Modelled from the spec: the host's record store is not part of the
    widget.  A resolved call has the effect the spec gives it: a create
    command appends a row to the collection it addresses, [delete] removes
    the row object it is given, [update] of a row writes the field. *)
Definition perform (c : call) (kras : list Kra.Row) : list Kra.Row :=
  match c with
  | RecordUpdate _ vals => kras ++ [new_kra (fresh kras) vals]
  | KraUpdate kra vals =>
      on_kra kra (fun l => l ++ [new_kpi (fresh kras) vals]) kras
  | KraListDelete kra =>
      filter (fun k => negb (Nat.eqb (Kra.oid k) kra)) kras
  | KpiListDelete kra kpi => on_kra kra (delete_kpi kpi) kras
  | KpiUpdate kpi field value =>
      map (fun k => Kra.with_kpi_ids
                      (update_kpi kpi field value (Kra.kpi_ids (Kra.data k))) k)
          kras
  end.

End Accessor.

(* ------------------------------------------------------------------ *)
(** ** The KraTabs component *)

(** The widget's [options] object, [{ mode: ... }]. *)
Module Options.
Record t := { mode : option string }.
End Options.

(** An entry of [record.activeFields]. *)
Module ActiveField.
Record t := { options : option Options.t }.
End ActiveField.

Module KraTabs.

Import Accessor.

(** [props.record]: the model's name, the declared fields and [record.data].
    [records] is [data[name]?.records] for the [name] of the props that hold
    the record; [data_others] holds [data[n].records] for the other field
    names [n]. *)
Record HostRecord := {
  resModel : string;
  activeFields : option (list (string * ActiveField.t));
  records : option (list Kra.Row);
  data_others : list (string * list Kra.Row)
}.

(** [static props] *)
Record Props := {
  record : HostRecord;
  readonly : bool;
  name : string;
  options : option Options.t
}.

(** [useState({ activeTabIndex: 0, isDeleting: false, showRestorePanel: false })] *)
Record State := {
  activeTabIndex : Z;
  isDeleting : bool;
  showRestorePanel : bool
}.

Record Widget := { props : Props; state : State }.

Definition setup (p : Props) : Widget :=
  {| props := p;
     state := {| activeTabIndex := 0; isDeleting := false;
                 showRestorePanel := false |} |}.

(** *** Assignments to fields of [this.state] and to the record's rows *)

Definition set_activeTabIndex (i : Z) (w : Widget) : Widget :=
  {| props := props w;
     state := {| activeTabIndex := i; isDeleting := isDeleting (state w);
                 showRestorePanel := showRestorePanel (state w) |} |}.

Definition set_isDeleting (b : bool) (w : Widget) : Widget :=
  {| props := props w;
     state := {| activeTabIndex := activeTabIndex (state w); isDeleting := b;
                 showRestorePanel := showRestorePanel (state w) |} |}.

Definition set_showRestorePanel (b : bool) (w : Widget) : Widget :=
  {| props := props w;
     state := {| activeTabIndex := activeTabIndex (state w);
                 isDeleting := isDeleting (state w);
                 showRestorePanel := b |} |}.

Definition set_records (l : list Kra.Row) (w : Widget) : Widget :=
  {| props := {| record := {| resModel := resModel (record (props w));
                              activeFields := activeFields (record (props w));
                              records := Some l;
                              data_others := data_others (record (props w)) |};
                 readonly := readonly (props w);
                 name := name (props w);
                 options := options (props w) |};
     state := state w |}.

(** *** Getters *)

(** [obj[key]] on [record.activeFields]. *)
Fixpoint lookup (key : string) (l : list (string * ActiveField.t))
  : option ActiveField.t :=
  match l with
  | [] => None
  | (k, v) :: r => if String.eqb k key then Some v else lookup key r
  end.

(** [options && options.mode], as the value that is returned when truthy. *)
Definition truthy_mode (o : option Options.t) : option string :=
  match o with
  | Some opts =>
      if Js.truthy_str (Options.mode opts) then Options.mode opts else None
  | None => None
  end.

(** [get mode()] *)
Definition mode (w : Widget) : string :=
  if String.eqb (resModel (record (props w))) "appraisal.template" then
    "template"
  else
    match truthy_mode (options (props w)) with
    | Some m => m
    | None =>
        match
          match activeFields (record (props w)) with
          | Some fields =>
              match lookup (name (props w)) fields with
              | Some field => truthy_mode (ActiveField.options field)
              | None => None
              end
          | None => None
          end
        with
        | Some m => m
        | None => "employee"
        end
    end.

Definition isTemplateMode (w : Widget) : bool := String.eqb (mode w) "template".
Definition isEmployeeMode (w : Widget) : bool := String.eqb (mode w) "employee".
Definition isSupervisorMode (w : Widget) : bool := String.eqb (mode w) "supervisor".

(** [obj[key]] on the other fields of [record.data]. *)
Fixpoint lookup_rows (key : string) (l : list (string * list Kra.Row))
  : option (list Kra.Row) :=
  match l with
  | [] => None
  | (k, v) :: r => if String.eqb k key then Some v else lookup_rows key r
  end.

(** [p.record.data[field]?.records] *)
Definition data_records (field : string) (p : Props) : option (list Kra.Row) :=
  if String.eqb field (name p) then records (record p)
  else lookup_rows field (data_others (record p)).

(** [get kraRecords()] *)
Definition kraRecords (w : Widget) : list Kra.Row :=
  match records (record (props w)) with
  | Some l => l
  | None => []
  end.

(** [get hasKras()] *)
Definition hasKras (w : Widget) : bool := Js.length (kraRecords w) >? 0.

(** [get activeKRA()]: [null] is [None]. *)
Definition activeKRA (w : Widget) : option Kra.Row :=
  Js.index (kraRecords w) (activeTabIndex (state w)).

(** [get activeKPIs()] *)
Definition activeKPIs (w : Widget) : list Kpi.Row :=
  match activeKRA w with
  | Some kra => Kra.kpi_ids (Kra.data kra)
  | None => []
  end.

(** [get activeDeselectedKPIs()] *)
Definition activeDeselectedKPIs (w : Widget) : list Kpi.Row :=
  filter (fun kpi => negb (Js.truthy_bool (Kpi.is_selected (Kpi.data kpi))))
         (activeKPIs w).

(** [get activeTotalScore()] *)
Definition activeTotalScore (w : Widget) : float :=
  if isTemplateMode w then
    fold_left (fun sum kpi =>
                 PrimFloat.add sum (Js.num_or0 (Kpi.score (Kpi.data kpi))))
              (activeKPIs w) 0%float
  else
    fold_left (fun sum kpi =>
                 PrimFloat.add sum (Js.num_or0 (Kpi.weightage (Kpi.data kpi))))
              (filter (fun kpi => Js.truthy_bool (Kpi.is_selected (Kpi.data kpi)))
                      (activeKPIs w))
              0%float.

(** [isActiveTab(index)] *)
Definition isActiveTab (index : Z) (w : Widget) : bool :=
  activeTabIndex (state w) =? index.

(** *** Handlers: results, awaiting, try / catch / finally *)

Inductive event :=
| Call (c : Accessor.call)
| DialogAdd (existingNames : list string)
    (* this.dialog.add(AddKraDialog, { existingNames, onConfirm }) *)
| ConsoleError (msg : string) (err : string).

Inductive completion :=
| Normal
| Throws (err : string).

Record result := {
  widget : Widget;
  trace : list event;
  completes : completion
}.

(** [return;] *)
Definition done (w : Widget) : result :=
  {| widget := w; trace := []; completes := Normal |}.

(** [await call]: a resolved call has acted on the record; a rejected one
    has not, and throws at the [await]. *)
Definition await (c : Accessor.call) (o : outcome) (w : Widget) : result :=
  match o with
  | Resolved =>
      {| widget := set_records (perform c (kraRecords w)) w;
         trace := [Call c]; completes := Normal |}
  | Rejected err =>
      {| widget := w; trace := [Call c]; completes := Throws err |}
  end.

(** [r; k]: the statements after [r] run when [r] completes normally. *)
Definition and_then (r : result) (k : Widget -> result) : result :=
  match completes r with
  | Normal =>
      let r' := k (widget r) in
      {| widget := widget r'; trace := trace r ++ trace r';
         completes := completes r' |}
  | Throws _ => r
  end.

(** [try { r } catch (error) { console.error(msg, error); }] *)
Definition catch_log (msg : string) (r : result) : result :=
  match completes r with
  | Normal => r
  | Throws err =>
      {| widget := widget r; trace := trace r ++ [ConsoleError msg err];
         completes := Normal |}
  end.

(** [try { r } finally { f }] for an assignment [f]. *)
Definition finally (f : Widget -> Widget) (r : result) : result :=
  {| widget := f (widget r); trace := trace r; completes := completes r |}.

(** *** Lifecycle *)

(** [nextProps.record.data[this.props.name]?.records?.length || 0]: the
    next record is read under the name the widget holds at that moment. *)
Definition nextKraCount (nextProps : Props) (w : Widget) : Z :=
  match data_records (name (props w)) nextProps with
  | Some l => Js.length l
  | None => 0
  end.

(** The callback given to [onWillUpdateProps]. *)
Definition onWillUpdateProps (nextProps : Props) (w : Widget) : Widget :=
  let nextKraCount := nextKraCount nextProps w in
  if (activeTabIndex (state w) >=? nextKraCount) && (nextKraCount >? 0) then
    set_activeTabIndex (nextKraCount - 1) w
  else if nextKraCount =? 0 then
    set_activeTabIndex 0 w
  else w.

(** Prop replacement: the callback runs, then the component holds the next
    props. *)
Definition updateProps (nextProps : Props) (w : Widget) : Widget :=
  {| props := nextProps; state := state (onWillUpdateProps nextProps w) |}.

(** *** Handlers *)

(** [kraRecords.map(kra => kra.data.name).filter(Boolean)] *)
Definition existingNames (w : Widget) : list string :=
  flat_map (fun x => match x with Some s => [s] | None => [] end)
           (filter Js.truthy_str
                   (map (fun kra => Kra.name (Kra.data kra)) (kraRecords w))).

(** [async onAddKRA()] *)
Definition onAddKRA (w : Widget) : result :=
  if readonly (props w) then done w
  else if negb (isTemplateMode w) then done w
  else {| widget := w; trace := [DialogAdd (existingNames w)];
          completes := Normal |}.

(** [async createKRA(kraName)] *)
Definition createKRA (kraName : string) (o : outcome) (w : Widget) : result :=
  let sequence0 := fun k => Js.or0 (Kra.sequence (Kra.data k)) in
  let maxSequence :=
    match kraRecords w with
    | k :: ks => fold_left Z.max (map sequence0 ks) (sequence0 k)
                                      (* Math.max(...) of a non-empty array *)
    | [] => 0
    end in
  and_then
    (await (RecordUpdate (name (props w))
              {| Kra.v_name := kraName; Kra.v_sequence := maxSequence + 10 |})
           o w)
    (fun w1 => done (set_activeTabIndex (Js.length (kraRecords w1) - 1) w1)).

(** [async onDuplicateKPI(kpiRecord)] *)
Definition onDuplicateKPI (kpiRecord : Kpi.Row) (o : outcome) (w : Widget)
  : result :=
  if readonly (props w) then done w
  else
    match activeKRA w with
    | None => done w
    | Some kra =>
        await
          (KraUpdate (Kra.oid kra)
             {| Kpi.v_name := Kpi.name (Kpi.data kpiRecord);
                Kpi.v_description := Kpi.description (Kpi.data kpiRecord);
                Kpi.v_criteria := Kpi.criteria (Kpi.data kpiRecord);
                Kpi.v_weightage := Some 0%float;
                Kpi.v_score := None;
                Kpi.v_template_kpi_id :=
                  match Kpi.template_kpi_id (Kpi.data kpiRecord) with
                  | Some m => Some (Kpi.m2o_id m)
                  | None => None
                  end;
                Kpi.v_is_selected := Some true;
                Kpi.v_is_clone := Some true;
                Kpi.v_target := Some "";
                Kpi.v_planning_remarks := Some "" |})
          o w
    end.

(** [async onDeleteKRA()] *)
Definition onDeleteKRA (o : outcome) (w : Widget) : result :=
  if readonly (props w) then done w
  else
    match activeKRA w with
    | None => done w
    | Some kra =>
        if isDeleting (state w) then done w
        else if negb (isTemplateMode w) then done w
        else
          finally (set_isDeleting false)
            (catch_log "Error deleting KRA:"
               (and_then
                  (await (KraListDelete (Kra.oid kra)) o (set_isDeleting true w))
                  (fun w1 =>
                     let newLength := Js.length (kraRecords w1) in
                     if (activeTabIndex (state w1) >=? newLength)
                        && (newLength >? 0) then
                       done (set_activeTabIndex (newLength - 1) w1)
                     else if newLength =? 0 then
                       done (set_activeTabIndex 0 w1)
                     else done w1)))
    end.

(** [setActiveTab(index)] *)
Definition setActiveTab (index : Z) (w : Widget) : Widget :=
  set_activeTabIndex index w.

(** [async onAddKPI()] *)
Definition onAddKPI (o : outcome) (w : Widget) : result :=
  if readonly (props w) then done w
  else
    match activeKRA w with
    | None => done w
    | Some kra =>
        if negb (isTemplateMode w) then done w
        else
          await
            (KraUpdate (Kra.oid kra)
               {| Kpi.v_name := Some "";
                  Kpi.v_description := Some "";
                  Kpi.v_criteria := Some "";
                  Kpi.v_weightage := None;
                  Kpi.v_score := Some 0%float;
                  Kpi.v_template_kpi_id := None;
                  Kpi.v_is_selected := None;
                  Kpi.v_is_clone := None;
                  Kpi.v_target := None;
                  Kpi.v_planning_remarks := None |})
            o w
    end.

(** [async onDeleteKPI(kpiRecord)] *)
Definition onDeleteKPI (kpiRecord : Kpi.Row) (o : outcome) (w : Widget)
  : result :=
  if readonly (props w) then done w
  else
    match activeKRA w with
    | None => done w
    | Some kra =>
        if isDeleting (state w) then done w
        else if isSupervisorMode w then done w
        else
          let w1 := set_isDeleting true w in
          finally (set_isDeleting false)
            (catch_log "Error deleting KPI:"
               (if isTemplateMode w1 then
                  await (KpiListDelete (Kra.oid kra) (Kpi.oid kpiRecord)) o w1
                else if isEmployeeMode w1 then
                  if Kpi.isNew kpiRecord
                     || Js.truthy_bool (Kpi.is_clone (Kpi.data kpiRecord)) then
                    await (KpiListDelete (Kra.oid kra) (Kpi.oid kpiRecord)) o w1
                  else
                    await (KpiUpdate (Kpi.oid kpiRecord) "is_selected"
                                     (Kpi.FBool false)) o w1
                else done w1))
    end.

(** [async onRestoreKPI(kpiRecord)] *)
Definition onRestoreKPI (kpiRecord : Kpi.Row) (o : outcome) (w : Widget)
  : result :=
  if readonly (props w) then done w
  else await (KpiUpdate (Kpi.oid kpiRecord) "is_selected" (Kpi.FBool true)) o w.

(** [onToggleRestorePanel()] *)
Definition onToggleRestorePanel (w : Widget) : Widget :=
  set_showRestorePanel (negb (showRestorePanel (state w))) w.

(** [async onKPIFieldChange(kpiRecord, fieldName, event)] with
    [event.target.value]; [parseFloat] is the host's. *)
Definition onKPIFieldChange (parseFloat : string -> float)
  (kpiRecord : Kpi.Row) (fieldName : string) (value : string)
  (o : outcome) (w : Widget) : result :=
  if readonly (props w) then done w
  else
    let value' :=
      if String.eqb fieldName "score" || String.eqb fieldName "weightage"
      then Kpi.FNum (Js.num_or0 (Some (parseFloat value)))
      else Kpi.FStr value in
    await (KpiUpdate (Kpi.oid kpiRecord) fieldName value') o w.

(** [async onKPICheckboxChange(kpiRecord, event)] with [event.target.checked] *)
Definition onKPICheckboxChange (kpiRecord : Kpi.Row) (checked : bool)
  (o : outcome) (w : Widget) : result :=
  if readonly (props w) then done w
  else await (KpiUpdate (Kpi.oid kpiRecord) "is_selected" (Kpi.FBool checked)) o w.

End KraTabs.

(* ------------------------------------------------------------------ *)
(** ** Vocabulary of the statements and sample data *)

Module Spec.

Import KraTabs.

(** The sum of a list of doubles, added from the left starting at 0. *)
Definition sum (l : list float) : float := fold_left PrimFloat.add l 0%float.

(** A row takes part in the totals: [is_selected = true]. *)
Definition selected (kpi : Kpi.Row) : bool :=
  match Kpi.is_selected (Kpi.data kpi) with
  | Some true => true
  | _ => false
  end.

(** The tab index [i] is valid for a collection of [n] rows. *)
Definition valid_index (i n : Z) : Prop :=
  (0 < n -> 0 <= i < n) /\ (n = 0 -> i = 0).

(** Every code unit of [s] is white space. *)
Definition all_ws (s : string) : Prop :=
  Forall (fun c => Js.is_ws c = true) (list_ascii_of_string s).

(** A KPI row with the given identity, weightage, score and flags. *)
Definition kpi (id : nat) (new : bool) (w sc : float) (sel clone : bool) : Kpi.Row :=
  {| Kpi.oid := id; Kpi.isNew := new;
     Kpi.data := {| Kpi.name := Some "Calls"; Kpi.description := Some "per week";
                    Kpi.criteria := Some "count"; Kpi.weightage := Some w;
                    Kpi.score := Some sc; Kpi.is_selected := Some sel;
                    Kpi.is_clone := Some clone;
                    Kpi.template_kpi_id :=
                      Some {| Kpi.m2o_id := 7; Kpi.display_name := "Calls" |};
                    Kpi.target := Some "10"; Kpi.planning_remarks := None |} |}.

Definition kra (id : nat) (nm : string) (sq : Z) (l : list Kpi.Row) : Kra.Row :=
  {| Kra.oid := id; Kra.isNew := false;
     Kra.data := {| Kra.name := Some nm; Kra.sequence := Some sq;
                    Kra.kpi_ids := l |} |}.

(** Props on the model [model] with the given option mode and rows. *)
Definition props_of (model : string) (m : option string) (ro : bool)
  (rows : list Kra.Row) : Props :=
  {| record := {| resModel := model; activeFields := None;
                  records := Some rows; data_others := [] |};
     readonly := ro; name := "kra_ids";
     options := Some {| Options.mode := m |} |}.

Definition widget_of (model : string) (m : option string) (ro : bool)
  (rows : list Kra.Row) (st : State) : Widget :=
  {| props := props_of model m ro rows; state := st |}.

(** The index after reconciliation of the index [i] against [n] rows. *)
Definition reconciled (i n i' : Z) : Prop :=
  (n <= i -> 0 < n -> i' = n - 1)
  /\ (n = 0 -> i' = 0)
  /\ (i < n -> 0 < n -> i' = i).

Definition idle (i : Z) : State :=
  {| activeTabIndex := i; isDeleting := false; showRestorePanel := false |}.

Definition busy (i : Z) : State :=
  {| activeTabIndex := i; isDeleting := true; showRestorePanel := false |}.

(** One KRA "Sales" with an inherited KPI and a clone. *)
Definition sales : Kra.Row :=
  kra 1 "Sales" 10 [kpi 2 false 5 4 true false; kpi 3 false 3 2 false true].

Definition three_kras : list Kra.Row :=
  [kra 1 "Sales" 10 []; kra 4 "Ops" 20 []; kra 5 "People" 30 []].

Definition template_widget : Widget :=
  widget_of "appraisal.template" None false [sales] (idle 0).

Definition employee_widget : Widget :=
  widget_of "hr.appraisal" None false [sales] (idle 0).

Definition supervisor_widget : Widget :=
  widget_of "hr.appraisal" (Some "supervisor") false [sales] (idle 0).

Definition readonly_widget : Widget :=
  widget_of "appraisal.template" None true [sales] (idle 0).

Definition busy_widget : Widget :=
  widget_of "appraisal.template" None false [sales] (busy 0).

(** Props under another field name: [data.other_ids] has one KRA,
    [data.kra_ids] has three. *)
Definition renamed_props : Props :=
  {| record := {| resModel := "appraisal.template"; activeFields := None;
                  records := Some [sales];
                  data_others := [("kra_ids", three_kras)] |};
     readonly := false; name := "other_ids";
     options := Some {| Options.mode := None |} |}.

(** Rows with fractional weightages and scores. *)
Definition fractions : Kra.Row :=
  kra 1 "Sales" 10
    [kpi 2 false 0.1 0.1 true false; kpi 3 false 0.2 0.2 true false;
     kpi 5 false 0.3 0.3 true false].

End Spec.

(* ------------------------------------------------------------------ *)
(** ** Registration, the add-KRA flow and sessions of handler calls *)

Module Registration.

(** [extractProps: ({ options }, dynamicInfo) => ({ options: options || {} })] *)
Definition extractProps (options : option Options.t) : option Options.t :=
  Some (match options with
        | Some o => o
        | None => {| Options.mode := None |}
        end).

End Registration.

Module Session.

Import Accessor KraTabs.

(** What the confirmation of an open dialog does to the widget.  The dialog
    was given [existingNames] when [onAddKRA] opened it and keeps that list;
    the user types [typed] and confirms; the [onConfirm] prop given to the
    dialog is [async (kraName) => { await this.createKRA(kraName); }], which
    runs on the widget as it is at that moment. *)
Definition confirmKRA (existingNames : list string) (typed : string)
  (o : outcome) (w : Widget) : result :=
  match snd (AddKraDialog.onConfirm
               {| AddKraDialog.existingNames := Some existingNames |}
               (AddKraDialog.onNameChange typed AddKraDialog.setup))
  with
  | AddKraDialog.CallOnConfirm kraName :: _ => createKRA kraName o w
  | _ => done w
  end.

(** A mounted widget together with the dialogs it has opened and that are
    still open, each with the [existingNames] it was opened with. *)
Record t := { component : Widget; dialogs : list (list string) }.

Definition start (w : Widget) : t := {| component := w; dialogs := [] |}.

Definition with_component (w : Widget) (s : t) : t :=
  {| component := w; dialogs := dialogs s |}.

(** [l] without its [n]-th element. *)
Definition remove_nth {A : Type} (n : nat) (l : list A) : list A :=
  firstn n l ++ skipn (S n) l.

(** What can happen to a mounted widget: a call of one of its handlers, with
    the outcome of the Accessor call it awaits, a submission of one of its
    open dialogs, or a replacement of its props. *)
Inductive action :=
| SelectTab (index : Z)
| ReplaceProps (nextProps : Props)
| OpenDialog
| Submit (dialog : nat) (typed : string) (o : outcome)
| DuplicateKPI (kpiRecord : Kpi.Row) (o : outcome)
| DeleteKRA (o : outcome)
| AddKPI (o : outcome)
| DeleteKPI (kpiRecord : Kpi.Row) (o : outcome)
| RestoreKPI (kpiRecord : Kpi.Row) (o : outcome)
| ToggleRestorePanel
| FieldChange (parseFloat : string -> float) (kpiRecord : Kpi.Row)
              (fieldName value : string) (o : outcome)
| CheckboxChange (kpiRecord : Kpi.Row) (checked : bool) (o : outcome).

(** The widget and its open dialogs after one action.  [OpenDialog] is
    [onAddKRA]; a submission that the dialog rejects leaves the dialog open,
    one that it accepts runs [createKRA] and closes the dialog. *)
Definition run (a : action) (s : t) : t :=
  let w := component s in
  match a with
  | SelectTab index => with_component (setActiveTab index w) s
  | ReplaceProps nextProps => with_component (updateProps nextProps w) s
  | OpenDialog =>
      match trace (onAddKRA w) with
      | DialogAdd names :: _ =>
          {| component := widget (onAddKRA w); dialogs := dialogs s ++ [names] |}
      | _ => with_component (widget (onAddKRA w)) s
      end
  | Submit dialog typed o =>
      match nth_error (dialogs s) dialog with
      | Some names =>
          match snd (AddKraDialog.onConfirm
                       {| AddKraDialog.existingNames := Some names |}
                       (AddKraDialog.onNameChange typed AddKraDialog.setup))
          with
          | AddKraDialog.CallOnConfirm _ :: _ =>
              {| component := widget (confirmKRA names typed o w);
                 dialogs := remove_nth dialog (dialogs s) |}
          | _ => s
          end
      | None => s
      end
  | DuplicateKPI kpiRecord o => with_component (widget (onDuplicateKPI kpiRecord o w)) s
  | DeleteKRA o => with_component (widget (onDeleteKRA o w)) s
  | AddKPI o => with_component (widget (onAddKPI o w)) s
  | DeleteKPI kpiRecord o => with_component (widget (onDeleteKPI kpiRecord o w)) s
  | RestoreKPI kpiRecord o => with_component (widget (onRestoreKPI kpiRecord o w)) s
  | ToggleRestorePanel => with_component (onToggleRestorePanel w) s
  | FieldChange parseFloat kpiRecord fieldName value o =>
      with_component
        (widget (onKPIFieldChange parseFloat kpiRecord fieldName value o w)) s
  | CheckboxChange kpiRecord checked o =>
      with_component (widget (onKPICheckboxChange kpiRecord checked o w)) s
  end.

(** The widget and its dialogs after a sequence of actions, first to last. *)
Definition run_all (acts : list action) (s : t) : t :=
  fold_left (fun s' a => run a s') acts s.

(** Every tab selection of the sequence is a click on a tab that exists at
    that moment, and every replacement of the props keeps the field name. *)
Fixpoint admissible (acts : list action) (s : t) : Prop :=
  match acts with
  | [] => True
  | a :: rest =>
      match a with
      | SelectTab index => 0 <= index < Js.length (kraRecords (component s))
      | ReplaceProps nextProps => name nextProps = name (props (component s))
      | _ => True
      end
      /\ admissible rest (run a s)
  end.

(** No action of the sequence replaces the props. *)
Definition same_props (acts : list action) : Prop :=
  Forall (fun a => match a with ReplaceProps _ => False | _ => True end) acts.



(** The KPI rows of all KRAs. *)
Definition all_kpis (kras : list Kra.Row) : list Kpi.Row :=
  flat_map (fun kra => Kra.kpi_ids (Kra.data kra)) kras.

(** An identity denotes one object: every row of the record with the
    identity of [k] is [k]. *)
Definition one_object (k : Kpi.Row) (kras : list Kra.Row) : Prop :=
  forall r, In r (all_kpis kras) -> Kpi.oid r = Kpi.oid k -> r = k.

(** The non-empty names of a list of KRAs, as [existingNames] collects them. *)
Definition names_of (kras : list Kra.Row) : list string :=
  flat_map (fun x => match x with Some s => [s] | None => [] end)
           (filter Js.truthy_str (map (fun kra => Kra.name (Kra.data kra)) kras)).

(** What a KRA is to the tab bar: its identity, name and sequence. *)
Definition tab_of (kra : Kra.Row) : nat * option string * option Z :=
  (Kra.oid kra, Kra.name (Kra.data kra), Kra.sequence (Kra.data kra)).

(** [w'] has the tabs, the selection, the busy flag and the props other than
    the rows of [w]. *)
Definition same_tabs (w w' : Widget) : Prop :=
  map tab_of (kraRecords w') = map tab_of (kraRecords w)
  /\ activeTabIndex (state w') = activeTabIndex (state w)
  /\ isDeleting (state w') = isDeleting (state w)
  /\ readonly (props w') = readonly (props w)
  /\ mode w' = mode w.

(** The stored tab index is valid for the collection of the widget. *)
Definition index_ok (w : Widget) : Prop :=
  Spec.valid_index (activeTabIndex (state w)) (Js.length (kraRecords w)).

(** The rows that a total sums, by mode: all rows in template mode, the
    rows with [is_selected = true] otherwise. *)
Definition summed (template : bool) (l : list Kpi.Row) : list Kpi.Row :=
  if template then l else filter Spec.selected l.

(** What a row adds to a total, by mode: its [score] in template mode, its
    [weightage] otherwise. *)
Definition addend (template : bool) (kpi : Kpi.Row) : float :=
  if template then Js.num_or0 (Kpi.score (Kpi.data kpi))
  else Js.num_or0 (Kpi.weightage (Kpi.data kpi)).

(** The total of a list of rows in a mode. *)
Definition total_of (template : bool) (l : list Kpi.Row) : float :=
  Spec.sum (map (addend template) (summed template l)).

(** The row has the identity of [k]. *)
Definition is_row (k r : Kpi.Row) : bool := Nat.eqb (Kpi.oid r) (Kpi.oid k).

(** The double is [-0]. *)
Definition neg_zero (x : float) : Prop := Prim2SF x = S754_zero true.

(** A second KRA, for the samples. *)
Definition ops : Kra.Row := Spec.kra 4 "Ops" 20 [Spec.kpi 6 false 2 1 true false].

Definition two_tabs (model : string) (i : Z) : Widget :=
  Spec.widget_of model None false [Spec.sales; ops] (Spec.idle i).

End Session.

(* ------------------------------------------------------------------ *)
(** ** The variant of the widget that talks to the ORM service

    [components/kra_tabs/kra_tabs.js].  The widget keeps its own lists of
    KRAs and KPIs, read with [searchRead], and a flag [isDestroyed] set when
    it is unmounted.  Every [await] hands control to the environment: the
    environment settles the call and may unmount the widget meanwhile.  The
    environment is a sequence of replies, one per [await]. *)

Module OrmKraTabs.

(** A value of a field of a record read from the server. *)
Inductive jsval :=
| VNum (z : Z)
| VStr (s : string)
| VFalse.

(** [a === b] *)
Definition strict_eq (a b : jsval) : bool :=
  match a, b with
  | VNum x, VNum y => x =? y
  | VStr x, VStr y => String.eqb x y
  | VFalse, VFalse => true
  | _, _ => false
  end.

(** A KRA as [searchRead] returns it, with the fields the widget asks for. *)
Record KraRec := {
  id : Z;
  name : string;
  sequence : Z;
  kpi_count : Z;
  total_score : Z
}.

(** A KPI as [searchRead] returns it: a plain object, which [onKpiChange]
    assigns to by field name. *)
Definition KpiObj := list (string * jsval).

(** [obj[key]] *)
Fixpoint get (key : string) (obj : KpiObj) : option jsval :=
  match obj with
  | [] => None
  | (k, v) :: r => if String.eqb k key then Some v else get key r
  end.

(** [obj[key] = v]: an existing property is overwritten, a new one is added. *)
Fixpoint put (key : string) (v : jsval) (obj : KpiObj) : KpiObj :=
  match obj with
  | [] => [(key, v)]
  | (k, x) :: r => if String.eqb k key then (k, v) :: r else (k, x) :: put key v r
  end.

(** [k.id === kpiId] *)
Definition has_id (kpiId : jsval) (k : KpiObj) : bool :=
  match get "id" k with
  | Some v => strict_eq v kpiId
  | None => false
  end.

(** [props]: the identity of the [record] object, [record.data.id],
    [record.data.kra_ids?.records?.length] and [readonly]. *)
Record Props := {
  record : nat;
  data_id : option Z;
  kra_ids_length : option Z;
  readonly : bool
}.

(** [useState({ kras: [], activeKraId: null, activeKraKpis: [] })] *)
Record State := {
  kras : list KraRec;
  activeKraId : option Z;
  activeKraKpis : list KpiObj
}.

Record Widget := { props : Props; isDestroyed : bool; state : State }.

(** Truthiness of an id: [null], [undefined], [false] and 0 are falsy. *)
Definition truthy (x : option Z) : bool :=
  match x with
  | Some z => negb (z =? 0)
  | None => false
  end.

(** The calls on the ORM service, and [console.error]. *)
Inductive event :=
| SearchReadKra (templateId : option Z)
    (* orm.searchRead("appraisal.kra", [["template_id", "=", templateId]], ...) *)
| SearchReadKpi (kraId : option Z)
    (* orm.searchRead("appraisal.kpi", [["kra_id", "=", kraId]], ...) *)
| WriteTemplate (templateId : option Z) (active_kra_id : option Z)
    (* orm.write("appraisal.template", [id], { active_kra_id: kraId }) *)
| WriteKpi (kpiId : jsval) (field : string) (value : jsval)
    (* orm.write("appraisal.kpi", [kpiId], { [field]: newValue }) *)
| CreateKpi (kra_id : option Z)
    (* orm.create("appraisal.kpi", [{ kra_id, name: "New KPI", ... }]) *)
| UnlinkKpi (kpiId : jsval)
    (* orm.unlink("appraisal.kpi", [kpiId]) *)
| ConsoleError (msg : string) (err : string).

(** What the environment does at one [await]: whether the widget is
    unmounted while the call is pending, whether the call rejects, and the
    rows a [searchRead] resolves to. *)
Record reply := {
  unmounts : bool;
  rejects : option string;
  kra_rows : list KraRec;
  kpi_rows : list KpiObj
}.

(** The widget, the number of awaits so far and the calls so far. *)
Record world := { widget : Widget; awaited : nat; trace : list event }.

(** A computation returns a value or throws. *)
Definition M (A : Type) : Type := world -> (A + string) * world.

Definition ret {A : Type} (a : A) : M A := fun s => (inl a, s).

Definition bind {A B : Type} (m : M A) (k : A -> M B) : M B :=
  fun s =>
    match m s with
    | (inl a, s') => k a s'
    | (inr err, s') => (inr err, s')
    end.

Definition throw {A : Type} (err : string) : M A := fun s => (inr err, s).

(** [try { m } catch (err) { h err }] *)
Definition try_catch {A : Type} (m : M A) (h : string -> M A) : M A :=
  fun s =>
    match m s with
    | (inl a, s') => (inl a, s')
    | (inr err, s') => h err s'
    end.

Definition this : M Widget := fun s => (inl (widget s), s).

Definition assign (f : Widget -> Widget) : M unit :=
  fun s => (inl tt, {| widget := f (widget s); awaited := awaited s;
                       trace := trace s |}).

Definition log (e : event) : M unit :=
  fun s => (inl tt, {| widget := widget s; awaited := awaited s;
                       trace := trace s ++ [e] |}).

Definition set_isDestroyed (b : bool) (w : Widget) : Widget :=
  {| props := props w; isDestroyed := b; state := state w |}.

Definition set_kras (l : list KraRec) (w : Widget) : Widget :=
  {| props := props w; isDestroyed := isDestroyed w;
     state := {| kras := l; activeKraId := activeKraId (state w);
                 activeKraKpis := activeKraKpis (state w) |} |}.

Definition set_activeKraId (x : option Z) (w : Widget) : Widget :=
  {| props := props w; isDestroyed := isDestroyed w;
     state := {| kras := kras (state w); activeKraId := x;
                 activeKraKpis := activeKraKpis (state w) |} |}.

Definition set_activeKraKpis (l : list KpiObj) (w : Widget) : Widget :=
  {| props := props w; isDestroyed := isDestroyed w;
     state := {| kras := kras (state w); activeKraId := activeKraId (state w);
                 activeKraKpis := l |} |}.

(** [arr.find(p)] followed by an assignment to the object found: the first
    element that satisfies [p] is the one that changes. *)
Fixpoint update_first (p : KpiObj -> bool) (f : KpiObj -> KpiObj)
  (l : list KpiObj) : list KpiObj :=
  match l with
  | [] => []
  | k :: r => if p k then f k :: r else k :: update_first p f r
  end.

Section Component.

(** The environment: the reply to the [n]-th await. *)
Variable env : nat -> reply.

Notation "x <- m ;; k" := (bind m (fun x => k))
  (at level 61, m at next level, right associativity).
Notation "m ;;; k" := (bind m (fun _ => k))
  (at level 61, right associativity).

(** [await orm.call(...)]: the call is made; while it is pending the
    environment may unmount the widget ([onWillUnmount] sets [isDestroyed]);
    then the call resolves or rejects. *)
Definition await (c : event) : M reply :=
  fun s =>
    let r := env (awaited s) in
    let w := if unmounts r then set_isDestroyed true (widget s) else widget s in
    let s' := {| widget := w; awaited := S (awaited s);
                 trace := trace s ++ [c] |} in
    match rejects r with
    | Some err => (inr err, s')
    | None => (inl r, s')
    end.

(** [async loadKpisForKra(kraId)] *)
Definition loadKpisForKra (kraId : option Z) : M unit :=
  w <- this ;;
  if negb (truthy kraId) || isDestroyed w then
    assign (set_activeKraKpis [])
  else
    r <- await (SearchReadKpi kraId) ;;
    w' <- this ;;
    if isDestroyed w' then ret tt
    else assign (set_activeKraKpis (kpi_rows r)).

(** [async setActiveKra(kraId)] *)
Definition setActiveKra (kraId : option Z) : M unit :=
  w <- this ;;
  if isDestroyed w then ret tt
  else
    assign (set_activeKraId kraId) ;;;
    loadKpisForKra kraId ;;;
    w' <- this ;;
    if truthy (data_id (props w')) then
      _ <- await (WriteTemplate (data_id (props w')) kraId) ;; ret tt
    else ret tt.

(** [async loadKras()] *)
Definition loadKras : M unit :=
  w <- this ;;
  let templateId := data_id (props w) in
  if negb (truthy templateId) then
    assign (set_kras []) ;;;
    assign (set_activeKraId None) ;;;
    assign (set_activeKraKpis [])
  else
    r <- await (SearchReadKra templateId) ;;
    w1 <- this ;;
    if isDestroyed w1 then ret tt
    else
      let rows := kra_rows r in
      assign (set_kras rows) ;;;
      w2 <- this ;;
      let activeStillExists :=
        existsb (fun k => match activeKraId (state w2) with
                          | Some a => id k =? a
                          | None => false
                          end) rows in
      match rows with
      | k0 :: _ =>
          if negb activeStillExists then setActiveKra (Some (id k0))
          else if truthy (activeKraId (state w2))
               then loadKpisForKra (activeKraId (state w2))
               else ret tt
      | [] =>
          if negb activeStillExists then
            assign (set_activeKraId None) ;;;
            assign (set_activeKraKpis [])
          else if truthy (activeKraId (state w2))
               then loadKpisForKra (activeKraId (state w2))
               else ret tt
      end.

(** [async safeLoadKras()] *)
Definition safeLoadKras : M unit :=
  w <- this ;;
  if isDestroyed w then ret tt else loadKras.

(** [onWillStart] *)
Definition onWillStart : M unit := safeLoadKras.

(** The callback given to [onWillUpdateProps]. *)
Definition onWillUpdateProps (nextProps : Props) : M unit :=
  w <- this ;;
  if isDestroyed w then ret tt
  else
    let currentKraCount := Js.or0 (kra_ids_length (props w)) in
    let nextKraCount := Js.or0 (kra_ids_length nextProps) in
    if negb (currentKraCount =? nextKraCount)
       || negb (Nat.eqb (record nextProps) (record (props w)))
    then safeLoadKras
    else ret tt.

(** [onWillUnmount] *)
Definition onWillUnmount : M unit := assign (set_isDestroyed true).

(** [async onKpiChange(kpiId, field, value)]; [Number] is the host's, with
    [None] for NaN. *)
Definition onKpiChange (Number : string -> option Z)
  (kpiId : jsval) (field : string) (value : string) : M unit :=
  w <- this ;;
  if negb (existsb (has_id kpiId) (activeKraKpis (state w))) then ret tt
  else
    let newValue :=
      if String.eqb field "score" then VNum (Js.or0 (Number value))
      else VStr value in
    assign (fun w0 =>
              set_activeKraKpis
                (update_first (has_id kpiId) (put field newValue)
                              (activeKraKpis (state w0))) w0) ;;;
    try_catch
      (_ <- await (WriteKpi kpiId field newValue) ;; ret tt)
      (fun err =>
         w' <- this ;;
         loadKpisForKra (activeKraId (state w')) ;;;
         throw err).

(** [async addKpi()] *)
Definition addKpi : M unit :=
  w <- this ;;
  if readonly (props w) || negb (truthy (activeKraId (state w)))
     || isDestroyed w then ret tt
  else
    try_catch
      (_ <- await (CreateKpi (activeKraId (state w))) ;;
       safeLoadKras)
      (fun err => log (ConsoleError "Failed to add KPI:" err)).

(** [async deleteKpi(kpiId)] *)
Definition deleteKpi (kpiId : jsval) : M unit :=
  w <- this ;;
  if readonly (props w) || isDestroyed w then ret tt
  else
    _ <- await (UnlinkKpi kpiId) ;;
    safeLoadKras.

End Component.

(** [isActiveKra(kraId)] *)
Definition isActiveKra (kraId : option Z) (w : Widget) : bool :=
  match activeKraId (state w), kraId with
  | Some a, Some b => a =? b
  | None, None => true
  | _, _ => false
  end.

(** [hasKras()] *)
Definition hasKras (w : Widget) : bool :=
  negb (Nat.eqb (List.length (kras (state w))) 0).

(** [getActiveKra()] *)
Definition getActiveKra (w : Widget) : option KraRec :=
  find (fun k => match activeKraId (state w) with
                 | Some a => id k =? a
                 | None => false
                 end) (kras (state w)).

(** [setup()] *)
Definition setup (p : Props) : Widget :=
  {| props := p; isDestroyed := false;
     state := {| kras := []; activeKraId := None; activeKraKpis := [] |} |}.

Definition start (w : Widget) : world :=
  {| widget := w; awaited := 0; trace := [] |}.

(** The active id names a KRA of the list, or there is neither. *)
Definition active_ok (w : Widget) : Prop :=
  match activeKraId (state w) with
  | Some a => exists k, In k (kras (state w)) /\ id k = a
  | None => kras (state w) = []
  end.

(** Sample data. *)
Definition kra_a : KraRec :=
  {| id := 11; name := "Sales"; sequence := 10; kpi_count := 1; total_score := 4 |}.
Definition kra_b : KraRec :=
  {| id := 12; name := "Ops"; sequence := 20; kpi_count := 0; total_score := 0 |}.
Definition kpi_x : KpiObj :=
  [("id", VNum 21); ("name", VStr "Calls"); ("description", VFalse);
   ("score", VNum 4); ("criteria", VStr "count")].
Definition template_props : Props :=
  {| record := 1; data_id := Some 5; kra_ids_length := Some 2; readonly := false |}.
Definition good_reply : reply :=
  {| unmounts := false; rejects := None; kra_rows := [kra_a; kra_b];
     kpi_rows := [kpi_x] |}.
Definition failing_reply : reply :=
  {| unmounts := false; rejects := Some "server"; kra_rows := [];
     kpi_rows := [] |}.
Definition unmounting_reply : reply :=
  {| unmounts := true; rejects := None; kra_rows := [kra_a; kra_b];
     kpi_rows := [kpi_x] |}.
Definition loaded : Widget :=
  {| props := template_props; isDestroyed := false;
     state := {| kras := [kra_a; kra_b]; activeKraId := Some 11;
                 activeKraKpis := [kpi_x] |} |}.

End OrmKraTabs.

(* ------------------------------------------------------------------ *)
(** ** Properties of the helpers *)

Import KraTabs Spec.

Lemma includes_In (names : list string) (x : string) :
  Js.includes names x = true <-> In x names.
Proof.
  unfold Js.includes. rewrite existsb_exists. split.
  - intros [y [Hy He]]. apply String.eqb_eq in He. now subst.
  - intros H. exists x. split; [assumption | apply String.eqb_refl].
Qed.

Lemma drop_ws_all (l : list ascii) :
  Forall (fun c => Js.is_ws c = true) l -> Js.drop_ws l = [].
Proof.
  induction 1 as [| c r Hc _ IH]; simpl; [reflexivity |].
  now rewrite Hc.
Qed.

Lemma trim_all_ws (s : string) : all_ws s -> Js.trim s = "".
Proof.
  intros H. unfold Js.trim. now rewrite (drop_ws_all _ H).
Qed.

Lemma fold_left_add_map {A : Type} (f : A -> float) (l : list A) (a : float) :
  fold_left (fun sum x => PrimFloat.add sum (f x)) l a
  = fold_left PrimFloat.add (map f l) a.
Proof.
  revert a. induction l as [| x l IH]; intros a; simpl; [reflexivity | apply IH].
Qed.

Lemma truthy_selected (k : Kpi.Row) :
  Js.truthy_bool (Kpi.is_selected (Kpi.data k)) = selected k.
Proof.
  unfold selected. destruct (Kpi.is_selected (Kpi.data k)) as [[|]|]; reflexivity.
Qed.

(* ------------------------------------------------------------------ *)
(** ** The creation dialog *)

(** C7. A submission whose trimmed name is empty (in particular an empty or
    all-white-space input), or is one of the names of the caller's exclusion
    list, leaves a non-empty error message and calls neither the confirmation
    callback nor [close]; every other submission calls the confirmation
    callback once, with the trimmed name, and then [close], and nothing else. *)
Theorem C7_dialog_onConfirm (p : AddKraDialog.Props) (s : AddKraDialog.State) :
  let name := Js.trim (AddKraDialog.kraName s) in
  let rejected :=
    name = "" \/
    (exists names, AddKraDialog.existingNames p = Some names /\ In name names) in
  let r := AddKraDialog.onConfirm p s in
  (rejected ->
     AddKraDialog.error (fst r) <> "" /\ snd r = []
     /\ AddKraDialog.kraName (fst r) = AddKraDialog.kraName s)
  /\ (all_ws (AddKraDialog.kraName s) -> rejected)
  /\ (~ rejected ->
      r = (s, [AddKraDialog.CallOnConfirm name; AddKraDialog.CallClose])).
Proof.
  intros name rejected r. subst r rejected. unfold AddKraDialog.onConfirm.
  fold name. destruct (String.eqb_spec name "") as [He | Hne].
  - split; [| split].
    + intros _. simpl. repeat split. discriminate.
    + intros _. now left.
    + intros H. exfalso. apply H. now left.
  - assert (Hws : all_ws (AddKraDialog.kraName s) -> False).
    { intros H. apply trim_all_ws in H. contradiction. }
    destruct (AddKraDialog.existingNames p) as [names |] eqn:Hex.
    + destruct (Js.includes names name) eqn:Hin.
      * split; [| split].
        -- intros _. simpl. repeat split. discriminate.
        -- intros H. now destruct (Hws H).
        -- intros H. exfalso. apply H. right. exists names.
           split; [reflexivity | now apply includes_In].
      * assert (Hrej : ~ (name = "" \/
                 (exists names0, Some names = Some names0 /\ In name names0))).
        { intros [H | [names' [Heq Hn]]]; [contradiction |].
          inversion Heq; subst names'. apply includes_In in Hn. congruence. }
        split; [| split].
        -- intros H. now destruct (Hrej H).
        -- intros H. now destruct (Hws H).
        -- reflexivity.
    + assert (Hrej : ~ (name = "" \/
               (exists names0, @None (list string) = Some names0 /\ In name names0))).
      { intros [H | [names' [Heq Hn]]]; [contradiction | discriminate]. }
      split; [| split].
      * intros H. now destruct (Hrej H).
      * intros H. now destruct (Hws H).
      * reflexivity.
Qed.

Lemma C7_dialog_onConfirm_witness :
  let p := {| AddKraDialog.existingNames := Some ["Sales"] |} in
  (~ (Js.trim "  Ops " = "" \/
      (exists names, Some ["Sales"] = Some names /\ In (Js.trim "  Ops ") names)))
  /\ AddKraDialog.onConfirm p
       {| AddKraDialog.kraName := "  Ops "; AddKraDialog.error := "" |}
     = ({| AddKraDialog.kraName := "  Ops "; AddKraDialog.error := "" |},
        [AddKraDialog.CallOnConfirm "Ops"; AddKraDialog.CallClose])
  /\ AddKraDialog.error
       (fst (AddKraDialog.onConfirm p
               {| AddKraDialog.kraName := " Sales"; AddKraDialog.error := "" |}))
     <> ""
  /\ snd (AddKraDialog.onConfirm p
            {| AddKraDialog.kraName := "   "; AddKraDialog.error := "" |}) = [].
Proof.
  intros p.
  assert (Hok : ~ (Js.trim "  Ops " = "" \/
      (exists names, Some ["Sales"] = Some names /\ In (Js.trim "  Ops ") names))).
  { intros [H | [names [Heq Hin]]].
    - vm_compute in H. discriminate.
    - inversion Heq; subst names. vm_compute in Hin.
      destruct Hin as [H | []]. discriminate. }
  split; [exact Hok |]. split; [| split].
  - exact (proj2 (proj2 (C7_dialog_onConfirm p
             {| AddKraDialog.kraName := "  Ops "; AddKraDialog.error := "" |}))
             Hok).
  - refine (proj1 (proj1 (C7_dialog_onConfirm p
             {| AddKraDialog.kraName := " Sales"; AddKraDialog.error := "" |}) _)).
    right. exists ["Sales"]. split; [reflexivity |]. vm_compute. now left.
  - refine (proj1 (proj2 (proj1 (C7_dialog_onConfirm p
             {| AddKraDialog.kraName := "   "; AddKraDialog.error := "" |}) _))).
    left. vm_compute. reflexivity.
Defined.

(* ------------------------------------------------------------------ *)
(** ** The mode getter *)

(** C3. On the template model the mode is ['template'], whatever the options
    say.  On any other model the mode is the one the widget's own options
    supply (a non-empty [mode]); failing that, the one the options declared
    on the field supply; failing that, ['employee'].  The mode is a function
    of the props alone: the widget's state has no part in it. *)
Theorem C3_mode_resolution (p : Props) (s : State) :
  let w := {| props := p; state := s |} in
  let field_options :=
    match activeFields (record p) with
    | Some fields =>
        match lookup (name p) fields with
        | Some field => ActiveField.options field
        | None => None
        end
    | None => None
    end in
  (resModel (record p) = "appraisal.template" -> mode w = "template")
  /\ (resModel (record p) <> "appraisal.template" ->
      (forall opts m,
          options p = Some opts -> Options.mode opts = Some m -> m <> "" ->
          mode w = m)
      /\ (truthy_mode (options p) = None ->
          (forall opts m,
              field_options = Some opts -> Options.mode opts = Some m ->
              m <> "" -> mode w = m)
          /\ (truthy_mode field_options = None -> mode w = "employee")))
  /\ (forall s', mode {| props := p; state := s' |} = mode w).
Proof.
  intros w field_options. subst w. unfold mode. cbn [props state].
  fold field_options.
  destruct (String.eqb_spec (resModel (record p)) "appraisal.template")
    as [He | Hne].
  - split; [reflexivity |]. split; [contradiction | reflexivity].
  - split; [contradiction |]. split; [| reflexivity].
    intros _. split.
    + intros opts m Ho Hm Hnz. rewrite Ho. unfold truthy_mode, Js.truthy_str.
      rewrite Hm. apply String.eqb_neq in Hnz. now rewrite Hnz.
    + intros Hnone. rewrite Hnone.
      assert (Hfo : match activeFields (record p) with
                    | Some fields =>
                        match lookup (name p) fields with
                        | Some field => truthy_mode (ActiveField.options field)
                        | None => None
                        end
                    | None => None
                    end = truthy_mode field_options).
      { subst field_options. destruct (activeFields (record p)) as [fields |];
          [| reflexivity].
        destruct (lookup (name p) fields); reflexivity. }
      rewrite Hfo. split.
      * intros opts m Ho Hm Hnz. rewrite Ho. unfold truthy_mode, Js.truthy_str.
        rewrite Hm. apply String.eqb_neq in Hnz. now rewrite Hnz.
      * intros Hf. now rewrite Hf.
Qed.

Lemma C3_mode_resolution_witness :
  mode template_widget = "template"
  /\ mode supervisor_widget = "supervisor"
  /\ mode employee_widget = "employee".
Proof.
  split; [| split].
  - exact (proj1 (C3_mode_resolution (props template_widget) (idle 0)) eq_refl).
  - refine (proj1 (proj1 (proj2 (C3_mode_resolution (props supervisor_widget)
                                   (idle 0))) _)
                  {| Options.mode := Some "supervisor" |} "supervisor"
                  eq_refl eq_refl _).
    + simpl. discriminate.
    + discriminate.
  - refine (proj2 (proj2 (proj1 (proj2 (C3_mode_resolution
                                          (props employee_widget) (idle 0))) _)
                         eq_refl) eq_refl).
    simpl. discriminate.
Defined.

(* ------------------------------------------------------------------ *)
(** ** The score aggregator *)

(** C5. In template mode the total of the active KRA is the sum of [score]
    over all its KPIs, selected or not; in employee and in supervisor mode it
    is the sum of [weightage] over the KPIs with [is_selected = true]; a
    missing [score] or [weightage] counts as 0.  The sum is the one
    JavaScript computes: the doubles are added from left to right, starting
    from 0. *)
Theorem C5_activeTotalScore (w : Widget) :
  (mode w = "template" ->
   activeTotalScore w
   = sum (map (fun kpi => Js.num_or0 (Kpi.score (Kpi.data kpi))) (activeKPIs w)))
  /\ (mode w = "employee" \/ mode w = "supervisor" ->
      activeTotalScore w
      = sum (map (fun kpi => Js.num_or0 (Kpi.weightage (Kpi.data kpi)))
                 (filter selected (activeKPIs w)))).
Proof.
  unfold activeTotalScore, isTemplateMode, sum. split.
  - intros Hm. rewrite Hm. simpl. apply fold_left_add_map.
  - intros Hm.
    assert (Hne : String.eqb (mode w) "template" = false)
      by (destruct Hm as [-> | ->]; reflexivity).
    rewrite Hne, fold_left_add_map. do 2 f_equal.
    apply filter_ext. intros k. apply truthy_selected.
Qed.

Lemma C5_activeTotalScore_witness :
  activeTotalScore template_widget = 6%float
  /\ activeTotalScore employee_widget = 5%float
  /\ activeTotalScore supervisor_widget = 5%float.
Proof.
  split; [| split].
  - rewrite (proj1 (C5_activeTotalScore template_widget) eq_refl). reflexivity.
  - rewrite (proj2 (C5_activeTotalScore employee_widget) (or_introl eq_refl)).
    reflexivity.
  - rewrite (proj2 (C5_activeTotalScore supervisor_widget) (or_intror eq_refl)).
    reflexivity.
Defined.

(** The total is the double that JavaScript computes: the weightages 0.1,
    0.2 and 0.3 add up to 0.6000000000000001, in either mode. *)
Example activeTotalScore_of_fractions :
  activeTotalScore
    (widget_of "appraisal.template" None false [fractions] (idle 0))
  = 0.6000000000000001%float
  /\ activeTotalScore
       (widget_of "hr.appraisal" None false [fractions] (idle 0))
     = 0.6000000000000001%float
  /\ 0.6000000000000001%float <> 0.6%float.
Proof.
  split; [vm_compute; reflexivity |]. split; [vm_compute; reflexivity |].
  intros H. apply (f_equal Prim2SF) in H. vm_compute in H. discriminate.
Qed.

(** Above 2^53 a double cannot hold every integer: adding 1 to 2^53 gives
    2^53. *)
Example sum_beyond_exact_integers :
  sum [9007199254740992%float; 1%float] = 9007199254740992%float.
Proof. reflexivity. Qed.

(* ------------------------------------------------------------------ *)
(** ** Indexing and the Accessor's effect on the collections *)

Lemma length_nonneg {A : Type} (l : list A) : 0 <= Js.length l.
Proof. unfold Js.length. lia. Qed.

Lemma length_app_one {A : Type} (l : list A) (x : A) :
  Js.length (l ++ [x]) = Js.length l + 1.
Proof. unfold Js.length. rewrite length_app. simpl. lia. Qed.

Lemma index_in_range {A : Type} (l : list A) (i : Z) (x : A) :
  Js.index l i = Some x -> 0 <= i < Js.length l.
Proof.
  unfold Js.index, Js.length. destruct (Z.ltb_spec i 0) as [Hneg | Hpos];
    [discriminate |].
  intros H. assert (Hn : nth_error l (Z.to_nat i) <> None) by congruence.
  apply nth_error_Some in Hn. lia.
Qed.

Lemma index_out_of_range {A : Type} (l : list A) (i : Z) :
  i < 0 \/ Js.length l <= i -> Js.index l i = None.
Proof.
  unfold Js.index, Js.length. intros H.
  destruct (Z.ltb_spec i 0) as [Hneg | Hpos]; [reflexivity |].
  apply nth_error_None. lia.
Qed.

Lemma index_map {A B : Type} (f : A -> B) (l : list A) (i : Z) :
  Js.index (map f l) i = option_map f (Js.index l i).
Proof.
  unfold Js.index. destruct (i <? 0); [reflexivity |]. apply nth_error_map.
Qed.

Lemma index_last {A : Type} (l : list A) (x : A) :
  Js.index (l ++ [x]) (Js.length (l ++ [x]) - 1) = Some x.
Proof.
  rewrite length_app_one. unfold Js.index, Js.length.
  destruct (Z.ltb_spec (Z.of_nat (List.length l) + 1 - 1) 0) as [H | H]; [lia |].
  replace (Z.to_nat (Z.of_nat (List.length l) + 1 - 1)) with (List.length l) by lia.
  rewrite nth_error_app2 by lia. now rewrite Nat.sub_diag.
Qed.

Lemma index_In {A : Type} (l : list A) (i : Z) (x : A) :
  Js.index l i = Some x -> In x l.
Proof.
  unfold Js.index. destruct (i <? 0); [discriminate |]. apply nth_error_In.
Qed.

Lemma index_on_kra (kras : list Kra.Row) (i : Z) (kra : Kra.Row)
  (f : list Kpi.Row -> list Kpi.Row) :
  Js.index kras i = Some kra ->
  Js.index (Accessor.on_kra (Kra.oid kra) f kras) i
  = Some (Kra.with_kpi_ids (f (Kra.kpi_ids (Kra.data kra))) kra).
Proof.
  intros H. unfold Accessor.on_kra. rewrite index_map, H. simpl.
  now rewrite Nat.eqb_refl.
Qed.

Lemma fold_left_max_spec (l : list Z) (a : Z) :
  In (fold_left Z.max l a) (a :: l)
  /\ Forall (fun x => x <= fold_left Z.max l a) (a :: l).
Proof.
  revert a. induction l as [| x l IH]; intros a.
  - simpl. split; [now left |]. constructor; [lia | constructor].
  - simpl fold_left. destruct (IH (Z.max a x)) as [Hin Hall]. split.
    + destruct Hin as [Heq | Hin].
      * rewrite <- Heq. destruct (Z.max_spec a x) as [[_ ->] | [_ ->]].
        -- right. now left.
        -- now left.
      * right. now right.
    + inversion Hall as [| y ys Hy Hys]; subst.
      constructor; [lia |]. constructor; [lia | assumption].
Qed.

(* ------------------------------------------------------------------ *)
(** ** Creating a KRA *)

(** C4. When the Accessor resolves, [createKRA] appends one row to the KRA
    collection; the row has the given name and the sequence [m + 10], where
    [m] is 0 for an empty collection and otherwise the greatest of the rows'
    sequences, a missing sequence counting as 0; afterwards the active tab
    index is the index of the new row, the last of the collection. *)
Theorem C4_createKRA_appends (kraName : string) (w : Widget) :
  let r := createKRA kraName Accessor.Resolved w in
  let seqs := map (fun k => Js.or0 (Kra.sequence (Kra.data k))) (kraRecords w) in
  exists (row : Kra.Row) (m : Z),
    kraRecords (widget r) = kraRecords w ++ [row]
    /\ Kra.name (Kra.data row) = Some kraName
    /\ Kra.sequence (Kra.data row) = Some (m + 10)
    /\ (seqs = [] -> m = 0)
    /\ (seqs <> [] -> In m seqs /\ Forall (fun x => x <= m) seqs)
    /\ activeTabIndex (state (widget r)) = Js.length (kraRecords (widget r)) - 1
    /\ activeKRA (widget r) = Some row
    /\ completes r = Normal.
Proof.
  intros r seqs. subst r seqs. unfold createKRA.
  set (sequence0 := fun k => Js.or0 (Kra.sequence (Kra.data k))).
  set (m := match kraRecords w with
            | k :: ks => fold_left Z.max (map sequence0 ks) (sequence0 k)
            | [] => 0
            end).
  exists (Accessor.new_kra (Accessor.fresh (kraRecords w))
            {| Kra.v_name := kraName; Kra.v_sequence := m + 10 |}), m.
  unfold and_then, await, activeKRA. cbn.
  split; [reflexivity |]. split; [reflexivity |]. split; [reflexivity |].
  split; [| split; [| split; [| split]]].
  - subst m. destruct (kraRecords w); [reflexivity | discriminate].
  - subst m. destruct (kraRecords w) as [| k ks]; [intros H; now destruct H |].
    intros _. apply (fold_left_max_spec (map sequence0 ks) (sequence0 k)).
  - reflexivity.
  - apply index_last.
  - reflexivity.
Qed.

Lemma C4_createKRA_appends_witness :
  exists row : Kra.Row,
    kraRecords (widget (createKRA "Ops" Accessor.Resolved template_widget))
    = [sales; row]
    /\ Kra.sequence (Kra.data row) = Some 20
    /\ activeKRA (widget (createKRA "Ops" Accessor.Resolved template_widget))
       = Some row.
Proof.
  destruct (C4_createKRA_appends "Ops" template_widget)
    as (row & m & Hrows & _ & Hseq & _ & Hmax & _ & Hact & _).
  exists row. split; [exact Hrows |]. split; [| exact Hact].
  rewrite Hseq. destruct Hmax as [Hin _]; [discriminate |].
  simpl in Hin. destruct Hin as [<- | []]. reflexivity.
Defined.

(** The scenario of the specification: from the single KRA "Sales" with
    sequence 10, creating "Ops" gives the sequences 10 and 20 and makes "Ops"
    the active KRA. *)
Example createKRA_scenario :
  let w' := widget (createKRA "Ops" Accessor.Resolved template_widget) in
  map (fun k => Kra.sequence (Kra.data k)) (kraRecords w') = [Some 10; Some 20]
  /\ option_map (fun k => Kra.name (Kra.data k)) (activeKRA w') = Some (Some "Ops")
  /\ activeTabIndex (state w') = 1.
Proof. repeat split. Qed.

(* ------------------------------------------------------------------ *)
(** ** Duplicating and deleting a KPI *)

Lemma activeKPIs_at (w : Widget) (k : Kra.Row) :
  Js.index (kraRecords w) (activeTabIndex (state w)) = Some k ->
  activeKPIs w = Kra.kpi_ids (Kra.data k).
Proof. unfold activeKPIs, activeKRA. now intros ->. Qed.

Lemma delete_kpi_gone (id : nat) (l : list Kpi.Row) :
  Forall (fun k => Kpi.oid k <> id) (Accessor.delete_kpi id l).
Proof.
  apply Forall_forall. intros k Hk. apply filter_In in Hk.
  destruct Hk as [_ Hk]. apply negb_true_iff, Nat.eqb_neq in Hk. exact Hk.
Qed.

(** C6. When the widget is not read-only, a KRA is active and the Accessor
    resolves, [onDuplicateKPI] appends one row to the active KRA's KPIs; the
    row has the source's [name], [description] and [criteria], [weightage] 0,
    [is_selected] and [is_clone] true, empty [target] and
    [planning_remarks], and the id of the source's [template_kpi_id] when the
    source has one, and none ([false]) otherwise. *)
Theorem C6_onDuplicateKPI_row (source : Kpi.Row) (w : Widget) (kra : Kra.Row) :
  readonly (props w) = false ->
  activeKRA w = Some kra ->
  let r := onDuplicateKPI source Accessor.Resolved w in
  exists row : Kpi.Row,
    activeKPIs (widget r) = Kra.kpi_ids (Kra.data kra) ++ [row]
    /\ Kpi.name (Kpi.data row) = Kpi.name (Kpi.data source)
    /\ Kpi.description (Kpi.data row) = Kpi.description (Kpi.data source)
    /\ Kpi.criteria (Kpi.data row) = Kpi.criteria (Kpi.data source)
    /\ Kpi.weightage (Kpi.data row) = Some 0%float
    /\ Kpi.is_selected (Kpi.data row) = Some true
    /\ Kpi.is_clone (Kpi.data row) = Some true
    /\ Kpi.target (Kpi.data row) = Some ""
    /\ Kpi.planning_remarks (Kpi.data row) = Some ""
    /\ option_map Kpi.m2o_id (Kpi.template_kpi_id (Kpi.data row))
       = option_map Kpi.m2o_id (Kpi.template_kpi_id (Kpi.data source))
    /\ completes r = Normal.
Proof.
  intros Hro Hact r. subst r. unfold onDuplicateKPI. rewrite Hro, Hact.
  unfold await.
  match goal with
  | |- context [Accessor.KraUpdate _ ?v] =>
      exists (Accessor.new_kpi (Accessor.fresh (kraRecords w)) v)
  end.
  split.
  - erewrite activeKPIs_at.
    2:{ cbn. apply index_on_kra. exact Hact. }
    reflexivity.
  - cbn. repeat split.
    destruct (Kpi.template_kpi_id (Kpi.data source)); reflexivity.
Qed.

Lemma C6_onDuplicateKPI_row_witness :
  exists row : Kpi.Row,
    activeKPIs (widget (onDuplicateKPI (kpi 2 false 5 4 true false)
                          Accessor.Resolved employee_widget))
    = [kpi 2 false 5 4 true false; kpi 3 false 3 2 false true; row]
    /\ Kpi.weightage (Kpi.data row) = Some 0%float
    /\ Kpi.is_clone (Kpi.data row) = Some true
    /\ option_map Kpi.m2o_id (Kpi.template_kpi_id (Kpi.data row)) = Some 7.
Proof.
  destruct (C6_onDuplicateKPI_row (kpi 2 false 5 4 true false) employee_widget
              sales eq_refl eq_refl)
    as (row & Hrows & _ & _ & _ & Hw & _ & Hc & _ & _ & Ht & _).
  exists row. repeat split; assumption.
Defined.

(** C1. Take a widget that is not read-only, has an active KRA and is not
    deleting, and let the Accessor resolve.  In template mode [onDeleteKPI]
    removes the row from the active KRA's KPIs.  In employee mode it removes
    the row when the row is unsaved or has [is_clone] true; otherwise every
    row stays in place and the row has [is_selected] false.  In supervisor
    mode [onDeleteKPI] does nothing, whatever the widget and the Accessor. *)
Theorem C1_onDeleteKPI_policy (kpiRecord : Kpi.Row) (w : Widget) (kra : Kra.Row) :
  let ready :=
    readonly (props w) = false /\ activeKRA w = Some kra
    /\ isDeleting (state w) = false in
  let after := activeKPIs (widget (onDeleteKPI kpiRecord Accessor.Resolved w)) in
  let removed :=
    after = filter (fun k => negb (Nat.eqb (Kpi.oid k) (Kpi.oid kpiRecord)))
                   (Kra.kpi_ids (Kra.data kra))
    /\ Forall (fun k => Kpi.oid k <> Kpi.oid kpiRecord) after in
  let deselected (k : Kpi.Row) :=
    Kpi.with_data (Kpi.set_is_selected false (Kpi.data k)) k in
  (ready -> mode w = "template" -> removed)
  /\ (ready -> mode w = "employee" ->
      Kpi.isNew kpiRecord = true
      \/ Kpi.is_clone (Kpi.data kpiRecord) = Some true ->
      removed)
  /\ (ready -> mode w = "employee" ->
      Kpi.isNew kpiRecord = false ->
      Kpi.is_clone (Kpi.data kpiRecord) <> Some true ->
      after = map (fun k => if Nat.eqb (Kpi.oid k) (Kpi.oid kpiRecord)
                            then deselected k else k)
                  (Kra.kpi_ids (Kra.data kra))
      /\ (In kpiRecord (Kra.kpi_ids (Kra.data kra)) ->
          In (deselected kpiRecord) after))
  /\ (mode w = "supervisor" ->
      forall o, onDeleteKPI kpiRecord o w = done w).
Proof.
  intros ready after removed deselected.
  assert (Hdel : readonly (props w) = false -> activeKRA w = Some kra ->
                 isDeleting (state w) = false ->
                 activeKPIs
                   (widget (finally (set_isDeleting false)
                      (catch_log "Error deleting KPI:"
                         (await (Accessor.KpiListDelete (Kra.oid kra)
                                   (Kpi.oid kpiRecord))
                                Accessor.Resolved (set_isDeleting true w)))))
                 = filter (fun k => negb (Nat.eqb (Kpi.oid k) (Kpi.oid kpiRecord)))
                          (Kra.kpi_ids (Kra.data kra))).
  { intros Hro Hact Hd. erewrite activeKPIs_at.
    2:{ cbn. apply index_on_kra. exact Hact. }
    reflexivity. }
  assert (Hgone : forall l, l = filter (fun k => negb (Nat.eqb (Kpi.oid k)
                                                          (Kpi.oid kpiRecord)))
                                       (Kra.kpi_ids (Kra.data kra)) ->
                  Forall (fun k => Kpi.oid k <> Kpi.oid kpiRecord) l).
  { intros l ->. apply delete_kpi_gone. }
  split; [| split; [| split]].
  - intros (Hro & Hact & Hd) Hm. subst removed after.
    unfold onDeleteKPI. rewrite Hro, Hact, Hd.
    unfold isSupervisorMode, isTemplateMode.
    change (mode (set_isDeleting true w)) with (mode w). rewrite Hm.
    cbn [String.eqb Ascii.eqb Bool.eqb].
    split; [now apply Hdel | apply Hgone; now apply Hdel].
  - intros (Hro & Hact & Hd) Hm Hnew. subst removed after.
    unfold onDeleteKPI. rewrite Hro, Hact, Hd.
    unfold isSupervisorMode, isTemplateMode, isEmployeeMode.
    change (mode (set_isDeleting true w)) with (mode w). rewrite Hm.
    cbn [String.eqb Ascii.eqb Bool.eqb].
    assert (Hc : Kpi.isNew kpiRecord
                 || Js.truthy_bool (Kpi.is_clone (Kpi.data kpiRecord)) = true).
    { destruct Hnew as [-> | ->]; [reflexivity | apply orb_true_r]. }
    rewrite Hc. split; [now apply Hdel | apply Hgone; now apply Hdel].
  - intros (Hro & Hact & Hd) Hm Hnew Hclone. subst after.
    unfold onDeleteKPI. rewrite Hro, Hact, Hd.
    unfold isSupervisorMode, isTemplateMode, isEmployeeMode.
    change (mode (set_isDeleting true w)) with (mode w). rewrite Hm.
    cbn [String.eqb Ascii.eqb Bool.eqb].
    assert (Hc : Kpi.isNew kpiRecord
                 || Js.truthy_bool (Kpi.is_clone (Kpi.data kpiRecord)) = false).
    { rewrite Hnew. simpl.
      destruct (Kpi.is_clone (Kpi.data kpiRecord)) as [[|] |];
        [now destruct Hclone | reflexivity | reflexivity]. }
    rewrite Hc.
    assert (Hafter :
      activeKPIs
        (widget (finally (set_isDeleting false)
           (catch_log "Error deleting KPI:"
              (await (Accessor.KpiUpdate (Kpi.oid kpiRecord) "is_selected"
                        (Kpi.FBool false))
                     Accessor.Resolved (set_isDeleting true w)))))
      = map (fun k => if Nat.eqb (Kpi.oid k) (Kpi.oid kpiRecord)
                      then deselected k else k)
            (Kra.kpi_ids (Kra.data kra))).
    { erewrite activeKPIs_at.
      2:{ cbn. rewrite index_map.
          change (kraRecords (set_isDeleting true w)) with (kraRecords w).
          unfold activeKRA in Hact. rewrite Hact. reflexivity. }
      reflexivity. }
    split; [exact Hafter |].
    intros Hin. rewrite Hafter.
    apply in_map_iff. exists kpiRecord. now rewrite Nat.eqb_refl.
  - intros Hm o. unfold onDeleteKPI, isSupervisorMode. rewrite Hm.
    cbn [String.eqb Ascii.eqb Bool.eqb].
    destruct (readonly (props w)); [reflexivity |].
    destruct (activeKRA w); [| reflexivity].
    destruct (isDeleting (state w)); reflexivity.
Qed.

Lemma C1_onDeleteKPI_policy_witness :
  activeKPIs (widget (onDeleteKPI (kpi 2 false 5 4 true false)
                        Accessor.Resolved template_widget))
  = [kpi 3 false 3 2 false true]
  /\ activeKPIs (widget (onDeleteKPI (kpi 3 false 3 2 false true)
                           Accessor.Resolved employee_widget))
     = [kpi 2 false 5 4 true false]
  /\ In (kpi 2 false 5 4 false false)
        (activeKPIs (widget (onDeleteKPI (kpi 2 false 5 4 true false)
                               Accessor.Resolved employee_widget)))
  /\ onDeleteKPI (kpi 2 false 5 4 true false) Accessor.Resolved supervisor_widget
     = done supervisor_widget.
Proof.
  assert (Hready : forall w, readonly (props w) = false ->
                     activeKRA w = Some sales -> isDeleting (state w) = false ->
                     readonly (props w) = false /\ activeKRA w = Some sales
                     /\ isDeleting (state w) = false) by (intros; auto).
  split; [| split; [| split]].
  - exact (proj1 (proj1 (C1_onDeleteKPI_policy (kpi 2 false 5 4 true false)
                           template_widget sales)
                        (Hready template_widget eq_refl eq_refl eq_refl)
                        eq_refl)).
  - exact (proj1 (proj1 (proj2 (C1_onDeleteKPI_policy
                                  (kpi 3 false 3 2 false true)
                                  employee_widget sales))
                        (Hready employee_widget eq_refl eq_refl eq_refl)
                        eq_refl (or_intror eq_refl))).
  - refine (proj2 (proj1 (proj2 (proj2 (C1_onDeleteKPI_policy
                                          (kpi 2 false 5 4 true false)
                                          employee_widget sales)))
                         (Hready employee_widget eq_refl eq_refl eq_refl)
                         eq_refl eq_refl _) _).
    + discriminate.
    + simpl. now left.
  - exact (proj2 (proj2 (proj2 (C1_onDeleteKPI_policy
                                  (kpi 2 false 5 4 true false)
                                  supervisor_widget sales)))
                 eq_refl Accessor.Resolved).
Defined.

(* ------------------------------------------------------------------ *)
(** ** Tab selection *)

Lemma reconcile_cases (i n : Z) :
  0 <= n ->
  let i' := if (i >=? n) && (n >? 0) then n - 1
            else if n =? 0 then 0 else i in
  reconciled i n i' /\ (0 <= i -> valid_index i' n).
Proof.
  intros Hn i'. subst i'. unfold reconciled, valid_index.
  destruct (Z.geb_spec i n) as [Hge | Hlt];
    destruct (Z.gtb_spec n 0) as [Hpos | Hnpos]; simpl;
    destruct (Z.eqb_spec n 0) as [Hz | Hnz]; repeat split; intros; lia.
Qed.

Lemma onWillUpdateProps_index (nextProps : Props) (w : Widget) :
  let n := nextKraCount nextProps w in
  let i := activeTabIndex (state w) in
  activeTabIndex (state (updateProps nextProps w))
  = if (i >=? n) && (n >? 0) then n - 1 else if n =? 0 then 0 else i.
Proof.
  intros n i. subst i. unfold updateProps, onWillUpdateProps. fold n.
  cbn [props state]. destruct (_ && _); [reflexivity |].
  destruct (_ =? 0); reflexivity.
Qed.

Lemma nextKraCount_nonneg (nextProps : Props) (w : Widget) :
  0 <= nextKraCount nextProps w.
Proof.
  unfold nextKraCount. destruct (data_records _ _); [apply length_nonneg | lia].
Qed.

Lemma nextKraCount_same_name (nextProps : Props) (w : Widget) :
  name nextProps = name (props w) ->
  nextKraCount nextProps w = Js.length (kraRecords (updateProps nextProps w)).
Proof.
  intros Hn. unfold nextKraCount, data_records, kraRecords, updateProps.
  cbn [props]. rewrite <- Hn, String.eqb_refl.
  destruct (records (record nextProps)); reflexivity.
Qed.

(** The claim C2 as it is written fails for a negative stored index:
    [setActiveTab(-1)] stores -1, and replacing the props by a record with
    three KRAs leaves the index at -1.  It also fails when the replacement
    changes the name of the field: the index is reconciled against the rows
    that the next record holds under the old name (three), and stays 2 on a
    widget that then shows the rows under the new name (one). *)
Lemma C2_counterexample :
  (let w := setActiveTab (-1) (setup (props_of "appraisal.template" None false [sales])) in
   let w' := updateProps (props_of "appraisal.template" None false three_kras) w in
   Js.length (kraRecords w') = 3
   /\ activeTabIndex (state w') = -1
   /\ ~ valid_index (activeTabIndex (state w')) (Js.length (kraRecords w')))
  /\ (let w := widget_of "appraisal.template" None false three_kras (idle 2) in
      let w' := updateProps renamed_props w in
      valid_index (activeTabIndex (state w)) (Js.length (kraRecords w))
      /\ Js.length (kraRecords w') = 1
      /\ activeTabIndex (state w') = 2
      /\ ~ valid_index (activeTabIndex (state w')) (Js.length (kraRecords w'))).
Proof.
  split.
  - cbn. repeat split. intros [H _]. cbn in H. lia.
  - cbn. split; [| split; [| split]]; try reflexivity.
    + unfold valid_index. cbn. lia.
    + intros [H _]. cbn in H. lia.
Qed.

(** C2, amended. Prop replacement reconciles the stored index [i] against
    the number [n] of rows that the next record holds under the name the
    widget has before the replacement: [n - 1] when [i >= n] and [n > 0],
    0 when [n = 0], and [i] otherwise.  When the replacement keeps the name
    of the field, [n] is the size of the next collection, and when moreover
    [i] is not negative the index after is valid for the next collection.
    A KRA deletion that gets past its guards leaves an index that is valid
    for the collection it leaves, whether the Accessor resolves or rejects,
    and when the Accessor resolves the index is reconciled the same way. *)
Theorem C2_index_after_mutation (w : Widget) :
  (forall nextProps,
      let w' := updateProps nextProps w in
      let n := nextKraCount nextProps w in
      reconciled (activeTabIndex (state w)) n (activeTabIndex (state w'))
      /\ (name nextProps = name (props w) ->
          n = Js.length (kraRecords w')
          /\ (0 <= activeTabIndex (state w) ->
              valid_index (activeTabIndex (state w')) (Js.length (kraRecords w')))))
  /\ (forall o,
         let r := onDeleteKRA o w in
         let n := Js.length (kraRecords (widget r)) in
         trace r <> [] ->
         valid_index (activeTabIndex (state (widget r))) n
         /\ (o = Accessor.Resolved ->
             reconciled (activeTabIndex (state w)) n
                        (activeTabIndex (state (widget r))))).
Proof.
  split.
  - intros nextProps w' n. subst w'. rewrite onWillUpdateProps_index. fold n.
    pose proof (reconcile_cases (activeTabIndex (state w)) n
                  (nextKraCount_nonneg nextProps w)) as [Hrec Hval].
    split; [exact Hrec |]. intros Hname.
    pose proof (nextKraCount_same_name nextProps w Hname) as Hn. fold n in Hn.
    split; [exact Hn |]. intros Hi. rewrite <- Hn. now apply Hval.
  - intros o r n. subst r n. unfold onDeleteKRA.
    destruct (readonly (props w)); [intros H; now destruct H |].
    destruct (activeKRA w) as [kra |] eqn:Hact; [| intros H; now destruct H].
    destruct (isDeleting (state w)); [intros H; now destruct H |].
    destruct (isTemplateMode w); simpl negb; cbv iota;
      [| intros H; now destruct H].
    intros _. apply index_in_range in Hact. destruct o as [| err].
    + unfold finally, catch_log, and_then, await.
      cbn [completes widget trace].
      set (l := Accessor.perform (Accessor.KraListDelete (Kra.oid kra))
                                 (kraRecords (set_isDeleting true w))).
      change (kraRecords (set_records l (set_isDeleting true w))) with l.
      change (activeTabIndex (state (set_records l (set_isDeleting true w))))
        with (activeTabIndex (state w)).
      pose proof (reconcile_cases (activeTabIndex (state w)) (Js.length l)
                    (length_nonneg l)) as [Hrec Hval].
      specialize (Hval (proj1 Hact)).
      destruct ((activeTabIndex (state w) >=? Js.length l)
                && (Js.length l >? 0));
        [| destruct (Js.length l =? 0)]; cbn in *; auto.
    + unfold finally, catch_log, and_then, await.
      cbn [completes widget trace].
      change (kraRecords (set_isDeleting false (set_isDeleting true w)))
        with (kraRecords w).
      change (activeTabIndex
                (state (set_isDeleting false (set_isDeleting true w))))
        with (activeTabIndex (state w)).
      split; [| discriminate]. unfold valid_index. lia.
Qed.

Lemma C2_index_after_mutation_witness :
  valid_index
    (activeTabIndex
       (state (updateProps (props_of "appraisal.template" None false [sales])
                 (widget_of "appraisal.template" None false three_kras (idle 2)))))
    1
  /\ valid_index
       (activeTabIndex (state (widget (onDeleteKRA Accessor.Resolved template_widget))))
       0.
Proof.
  split.
  - refine (proj2 (proj2 (proj1 (C2_index_after_mutation
                                   (widget_of "appraisal.template" None false
                                      three_kras (idle 2)))
                                (props_of "appraisal.template" None false [sales]))
                         eq_refl) _).
    simpl. lia.
  - refine (proj1 (proj2 (C2_index_after_mutation template_widget)
                         Accessor.Resolved _)).
    discriminate.
Defined.

(** The scenario of the specification: deleting the only KRA while it is
    active resets the index to 0 and leaves no KRA. *)
Example delete_last_KRA_scenario :
  let w' := widget (onDeleteKRA Accessor.Resolved template_widget) in
  activeTabIndex (state w') = 0 /\ hasKras w' = false
  /\ isDeleting (state w') = false.
Proof. repeat split. Qed.

(* ------------------------------------------------------------------ *)
(** ** Guards of the handlers *)

Lemma set_isDeleting_roundtrip (w : Widget) :
  isDeleting (state w) = false ->
  set_isDeleting false (set_isDeleting true w) = w.
Proof.
  destruct w as [p [i d s]]. simpl. intros ->. reflexivity.
Qed.

Lemma completes_catch_log (msg : string) (r : result) :
  completes (catch_log msg r) = Normal.
Proof.
  unfold catch_log. destruct (completes r) eqn:H; [exact H | reflexivity].
Qed.

(** The claim C8 as it is written fails for [onDuplicateKPI], which has no
    mode test: in employee mode it calls the Accessor and the active KRA
    gains a row. *)
Lemma C8_counterexample :
  mode employee_widget <> "template"
  /\ readonly (props employee_widget) = false
  /\ trace (onDuplicateKPI (kpi 2 false 5 4 true false) Accessor.Resolved
              employee_widget) <> []
  /\ List.length (activeKPIs (widget (onDuplicateKPI (kpi 2 false 5 4 true false)
                                        Accessor.Resolved employee_widget)))
     = 3%nat
  /\ onDuplicateKPI (kpi 2 false 5 4 true false) Accessor.Resolved employee_widget
     <> done employee_widget.
Proof.
  repeat split; try discriminate.
Qed.

(** C8, amended. On a read-only widget every handler that writes to the
    record (add KRA, duplicate KPI, delete KRA, add KPI, delete KPI, restore
    KPI, field change, checkbox change) returns at once: the widget is
    unchanged and no call is made.  When the mode is not ['template'] the
    same holds for add KRA, delete KRA and add KPI. *)
Theorem C8_readonly_and_mode_guards (w : Widget) :
  (readonly (props w) = true ->
   onAddKRA w = done w
   /\ forall (k : Kpi.Row) (o : Accessor.outcome),
       onDuplicateKPI k o w = done w
       /\ onDeleteKRA o w = done w
       /\ onAddKPI o w = done w
       /\ onDeleteKPI k o w = done w
       /\ onRestoreKPI k o w = done w
       /\ (forall parseFloat field value,
              onKPIFieldChange parseFloat k field value o w = done w)
       /\ (forall checked, onKPICheckboxChange k checked o w = done w))
  /\ (mode w <> "template" ->
      onAddKRA w = done w
      /\ forall o : Accessor.outcome,
          onDeleteKRA o w = done w /\ onAddKPI o w = done w).
Proof.
  split.
  - intros Hro.
    unfold onAddKRA, onDuplicateKPI, onDeleteKRA, onAddKPI, onDeleteKPI,
      onRestoreKPI, onKPIFieldChange, onKPICheckboxChange.
    rewrite Hro. repeat split.
  - intros Hm. apply String.eqb_neq in Hm.
    unfold onAddKRA, onDeleteKRA, onAddKPI, isTemplateMode. rewrite Hm.
    simpl negb. cbv iota. split.
    + now destruct (readonly (props w)).
    + intros o. split.
      * destruct (readonly (props w)); [reflexivity |].
        destruct (activeKRA w); [| reflexivity].
        now destruct (isDeleting (state w)).
      * destruct (readonly (props w)); [reflexivity |].
        now destruct (activeKRA w).
Qed.

Lemma C8_readonly_and_mode_guards_witness :
  onDeleteKPI (kpi 2 false 5 4 true false) Accessor.Resolved readonly_widget
  = done readonly_widget
  /\ onAddKPI Accessor.Resolved employee_widget = done employee_widget.
Proof.
  split.
  - exact (proj1 (proj2 (proj2 (proj2
             (proj2 (proj1 (C8_readonly_and_mode_guards readonly_widget) eq_refl)
                    (kpi 2 false 5 4 true false) Accessor.Resolved))))).
  - refine (proj2 (proj2 (proj2 (C8_readonly_and_mode_guards employee_widget) _)
                         Accessor.Resolved)).
    discriminate.
Defined.

(* ------------------------------------------------------------------ *)
(** ** The busy flag of the deletions *)

(** C9. While [isDeleting] is true, [onDeleteKRA] and [onDeleteKPI] do
    nothing.  Neither handler ever throws.  When the Accessor rejects a call
    they made, the error is logged with [console.error] and the widget is as
    it was before.  From a widget that is not deleting, both handlers end
    with [isDeleting] false, whether the Accessor resolves or rejects. *)
Theorem C9_deletion_busy_flag (kpiRecord : Kpi.Row) (w : Widget) :
  (isDeleting (state w) = true ->
   forall o, onDeleteKRA o w = done w /\ onDeleteKPI kpiRecord o w = done w)
  /\ (forall o, completes (onDeleteKRA o w) = Normal
                /\ completes (onDeleteKPI kpiRecord o w) = Normal)
  /\ (forall err,
         (trace (onDeleteKRA (Accessor.Rejected err) w) <> [] ->
          In (ConsoleError "Error deleting KRA:" err)
             (trace (onDeleteKRA (Accessor.Rejected err) w)))
         /\ (trace (onDeleteKPI kpiRecord (Accessor.Rejected err) w) <> [] ->
             In (ConsoleError "Error deleting KPI:" err)
                (trace (onDeleteKPI kpiRecord (Accessor.Rejected err) w)))
         /\ widget (onDeleteKRA (Accessor.Rejected err) w) = w
         /\ widget (onDeleteKPI kpiRecord (Accessor.Rejected err) w) = w)
  /\ (isDeleting (state w) = false ->
      forall o, isDeleting (state (widget (onDeleteKRA o w))) = false
                /\ isDeleting (state (widget (onDeleteKPI kpiRecord o w))) = false).
Proof.
  split; [| split; [| split]].
  - intros Hd o. unfold onDeleteKRA, onDeleteKPI. rewrite Hd.
    destruct (readonly (props w)); [split; reflexivity |].
    destruct (activeKRA w); split; reflexivity.
  - intros o. unfold onDeleteKRA, onDeleteKPI. split.
    + destruct (readonly (props w)); [reflexivity |].
      destruct (activeKRA w); [| reflexivity].
      destruct (isDeleting (state w)); [reflexivity |].
      destruct (isTemplateMode w); [| reflexivity].
      apply completes_catch_log.
    + destruct (readonly (props w)); [reflexivity |].
      destruct (activeKRA w); [| reflexivity].
      destruct (isDeleting (state w)); [reflexivity |].
      destruct (isSupervisorMode w); [reflexivity |].
      apply completes_catch_log.
  - intros err. unfold onDeleteKRA, onDeleteKPI.
    destruct (readonly (props w));
      [repeat split; intros H; now destruct H |].
    destruct (activeKRA w);
      [| repeat split; intros H; now destruct H].
    destruct (isDeleting (state w)) eqn:Hd;
      [repeat split; intros H; now destruct H |].
    pose proof (set_isDeleting_roundtrip w Hd) as Hback.
    split; [| split; [| split]].
    + destruct (isTemplateMode w); [| intros H; now destruct H].
      intros _. cbn. right; now left.
    + destruct (isSupervisorMode w); [intros H; now destruct H |].
      destruct (isTemplateMode _); [intros _; cbn; right; now left |].
      destruct (isEmployeeMode _); [| intros H; now destruct H].
      destruct (_ || _); intros _; cbn; right; now left.
    + destruct (isTemplateMode w); [exact Hback | reflexivity].
    + destruct (isSupervisorMode w); [reflexivity |].
      destruct (isTemplateMode _); [exact Hback |].
      destruct (isEmployeeMode _); [| exact Hback].
      destruct (_ || _); exact Hback.
  - intros Hd o. unfold onDeleteKRA, onDeleteKPI. rewrite Hd. split.
    + destruct (readonly (props w)); [exact Hd |].
      destruct (activeKRA w); [| exact Hd].
      destruct (isTemplateMode w); [reflexivity | exact Hd].
    + destruct (readonly (props w)); [exact Hd |].
      destruct (activeKRA w); [| exact Hd].
      destruct (isSupervisorMode w); [exact Hd | reflexivity].
Qed.

Lemma C9_deletion_busy_flag_witness :
  onDeleteKRA Accessor.Resolved busy_widget = done busy_widget
  /\ trace (onDeleteKRA (Accessor.Rejected "stale") template_widget)
     = [Call (Accessor.KraListDelete 1); ConsoleError "Error deleting KRA:" "stale"]
  /\ widget (onDeleteKRA (Accessor.Rejected "stale") template_widget)
     = template_widget
  /\ isDeleting (state (widget (onDeleteKPI (kpi 2 false 5 4 true false)
                                  (Accessor.Rejected "stale") employee_widget)))
     = false.
Proof.
  split; [| split; [reflexivity | split]].
  - exact (proj1 (proj1 (C9_deletion_busy_flag (kpi 2 false 5 4 true false)
                           busy_widget) eq_refl Accessor.Resolved)).
  - exact (proj1 (proj2 (proj2 (proj1 (proj2 (proj2 (C9_deletion_busy_flag
             (kpi 2 false 5 4 true false) template_widget))) "stale")))).
  - exact (proj2 (proj2 (proj2 (proj2 (C9_deletion_busy_flag
             (kpi 2 false 5 4 true false) employee_widget)))
             eq_refl (Accessor.Rejected "stale"))).
Defined.

(* ------------------------------------------------------------------ *)
(** ** Selecting a tab *)

(** C10. [setActiveTab] stores any integer as the active tab index and
    touches nothing else.  When the stored index is outside the collection,
    the active KRA is [null] and there are no active KPIs, and each handler
    that needs an active KRA (duplicate KPI, delete KRA, add KPI, delete
    KPI) does nothing. *)
Theorem C10_unchecked_tab_index (w : Widget) :
  (forall i : Z,
      activeTabIndex (state (setActiveTab i w)) = i
      /\ props (setActiveTab i w) = props w
      /\ isDeleting (state (setActiveTab i w)) = isDeleting (state w)
      /\ showRestorePanel (state (setActiveTab i w)) = showRestorePanel (state w))
  /\ (activeTabIndex (state w) < 0
      \/ Js.length (kraRecords w) <= activeTabIndex (state w) ->
      activeKRA w = None
      /\ activeKPIs w = []
      /\ forall (k : Kpi.Row) (o : Accessor.outcome),
          onDuplicateKPI k o w = done w
          /\ onDeleteKRA o w = done w
          /\ onAddKPI o w = done w
          /\ onDeleteKPI k o w = done w).
Proof.
  split.
  - intros i. repeat split.
  - intros Hout.
    assert (Hnone : activeKRA w = None)
      by (unfold activeKRA; now apply index_out_of_range).
    split; [exact Hnone |]. split; [unfold activeKPIs; now rewrite Hnone |].
    intros k o. unfold onDuplicateKPI, onDeleteKRA, onAddKPI, onDeleteKPI.
    rewrite Hnone. now destruct (readonly (props w)).
Qed.

Lemma C10_unchecked_tab_index_witness :
  activeKRA (setActiveTab 5 template_widget) = None
  /\ onAddKPI Accessor.Resolved (setActiveTab 5 template_widget)
     = done (setActiveTab 5 template_widget)
  /\ activeKRA (setActiveTab (-1) template_widget) = None.
Proof.
  split; [| split].
  - refine (proj1 (proj2 (C10_unchecked_tab_index (setActiveTab 5 template_widget)) _)).
    right. vm_compute. discriminate.
  - refine (proj1 (proj2 (proj2 (proj2 (proj2 (proj2
             (C10_unchecked_tab_index (setActiveTab 5 template_widget)) _))
             (kpi 2 false 5 4 true false) Accessor.Resolved)))).
    right. vm_compute. discriminate.
  - refine (proj1 (proj2 (C10_unchecked_tab_index
                            (setActiveTab (-1) template_widget)) _)).
    left. reflexivity.
Defined.

(* ------------------------------------------------------------------ *)
(** ** Further properties: the dialog's input *)

Import Session.

Lemma drop_ws_split (l : list ascii) :
  exists pre, l = pre ++ Js.drop_ws l /\ Forall (fun c => Js.is_ws c = true) pre.
Proof.
  induction l as [| c r [pre [Heq Hpre]]].
  - exists []. split; [reflexivity | constructor].
  - simpl. destruct (Js.is_ws c) eqn:Hc.
    + exists (c :: pre). split; [simpl; now f_equal | now constructor].
    + exists []. split; [reflexivity | constructor].
Qed.

Lemma drop_ws_head (l : list ascii) (c : ascii) (r : list ascii) :
  Js.drop_ws l = c :: r -> Js.is_ws c = false.
Proof.
  induction l as [| a l IH]; simpl; [discriminate |].
  destruct (Js.is_ws a) eqn:Ha; [exact IH |].
  intros H. inversion H; subst. exact Ha.
Qed.

Lemma drop_ws_fixed (l : list ascii) (c : ascii) (r : list ascii) :
  l = c :: r -> Js.is_ws c = false -> Js.drop_ws l = l.
Proof. intros -> H. simpl. now rewrite H. Qed.

(** The code units of a trimmed string: nothing, or a run that starts and
    ends with a code unit that is not white space. *)
Lemma trim_shape (s : string) :
  let t := list_ascii_of_string (Js.trim s) in
  t = []
  \/ (exists c r, t = c :: r /\ Js.is_ws c = false)
     /\ (exists c r, rev t = c :: r /\ Js.is_ws c = false).
Proof.
  cbv zeta. unfold Js.trim. rewrite list_ascii_of_string_of_list_ascii.
  set (l1 := Js.drop_ws (list_ascii_of_string s)).
  destruct (Js.drop_ws (rev l1)) as [| c r] eqn:Hd; [now left |].
  right. split.
  - destruct (drop_ws_split (rev l1)) as [pre [Heq Hpre]]. rewrite Hd in Heq.
    assert (Hl1 : l1 = rev (c :: r) ++ rev pre).
    { rewrite <- rev_app_distr, <- Heq. now rewrite rev_involutive. }
    destruct (rev (c :: r)) as [| a q] eqn:Hr.
    + apply (f_equal (@List.length ascii)) in Hr. rewrite length_rev in Hr.
      discriminate.
    + exists a, q. split; [reflexivity |].
      apply (drop_ws_head (list_ascii_of_string s) a (q ++ rev pre)).
      fold l1. exact Hl1.
  - exists c, r. rewrite rev_involutive. split; [reflexivity |].
    now apply (drop_ws_head (rev l1) c r).
Qed.

(** X1. [trim] is idempotent, and the name that [onConfirm] hands to the
    confirmation callback is never empty and neither starts nor ends with
    white space. *)
Theorem dialog_confirmed_name_is_trimmed
  (p : AddKraDialog.Props) (s : AddKraDialog.State) (n : string) :
  In (AddKraDialog.CallOnConfirm n) (snd (AddKraDialog.onConfirm p s)) ->
  n <> ""
  /\ Js.trim n = n
  /\ (exists c r, list_ascii_of_string n = c :: r /\ Js.is_ws c = false)
  /\ (exists c r, rev (list_ascii_of_string n) = c :: r /\ Js.is_ws c = false).
Proof.
  unfold AddKraDialog.onConfirm.
  destruct (String.eqb_spec (Js.trim (AddKraDialog.kraName s)) "") as [He | Hne];
    [simpl; intros [] |].
  destruct (match AddKraDialog.existingNames p with
            | Some names => Js.includes names (Js.trim (AddKraDialog.kraName s))
            | None => false
            end); [simpl; intros [] |].
  simpl. intros [H | [H | []]]; [| discriminate]. inversion H; subst n. clear H.
  split; [exact Hne |].
  destruct (trim_shape (AddKraDialog.kraName s)) as [Hnil | [Hfirst Hlast]].
  - exfalso. apply Hne.
    rewrite <- (string_of_list_ascii_of_string (Js.trim (AddKraDialog.kraName s))).
    now rewrite Hnil.
  - split; [| split; assumption].
    destruct Hfirst as (c & r & Ht & Hc). destruct Hlast as (c' & r' & Ht' & Hc').
    unfold Js.trim at 1.
    rewrite (drop_ws_fixed _ c r Ht Hc), (drop_ws_fixed _ c' r' Ht' Hc').
    rewrite rev_involutive. apply string_of_list_ascii_of_string.
Qed.

Lemma dialog_confirmed_name_is_trimmed_witness :
  Js.trim "Ops" = "Ops".
Proof.
  refine (proj1 (proj2 (dialog_confirmed_name_is_trimmed
            {| AddKraDialog.existingNames := Some ["Sales"] |}
            {| AddKraDialog.kraName := "  Ops "; AddKraDialog.error := "" |}
            "Ops" _))).
  vm_compute. now left.
Defined.

(** Typing clears a previous error, and what a submission does depends
    only on the text typed last and on the exclusion list: pressing Enter
    after typing [value] makes the calls of [onConfirm] on a fresh dialog
    holding [value], whatever the dialog held before, and any other key makes
    no call and changes nothing. *)
Theorem dialog_submission_depends_on_typed_text
  (p : AddKraDialog.Props) (s : AddKraDialog.State) (value key : string) :
  AddKraDialog.error (AddKraDialog.onNameChange value s) = ""
  /\ AddKraDialog.onKeydown "Enter" p (AddKraDialog.onNameChange value s)
     = AddKraDialog.onConfirm p
         (AddKraDialog.onNameChange value AddKraDialog.setup)
  /\ (key <> "Enter" -> AddKraDialog.onKeydown key p s = (s, [])).
Proof.
  split; [reflexivity |]. split; [reflexivity |].
  intros Hk. unfold AddKraDialog.onKeydown. apply String.eqb_neq in Hk.
  now rewrite Hk.
Qed.

Lemma dialog_submission_depends_on_typed_text_witness :
  AddKraDialog.onKeydown "Escape" {| AddKraDialog.existingNames := None |}
    {| AddKraDialog.kraName := "Ops"; AddKraDialog.error := "" |}
  = ({| AddKraDialog.kraName := "Ops"; AddKraDialog.error := "" |}, []).
Proof.
  refine (proj2 (proj2 (dialog_submission_depends_on_typed_text
            {| AddKraDialog.existingNames := None |}
            {| AddKraDialog.kraName := "Ops"; AddKraDialog.error := "" |}
            "" "Escape")) _).
  discriminate.
Defined.

(* ------------------------------------------------------------------ *)
(** ** Further properties: the getters *)

Lemma index_Some_iff {A : Type} (l : list A) (i : Z) :
  Js.index l i <> None <-> 0 <= i < Js.length l.
Proof.
  split.
  - destruct (Js.index l i) as [x |] eqn:H; [| intros Hn; now destruct Hn].
    intros _. now apply index_in_range in H.
  - intros Hr. unfold Js.index, Js.length in *.
    destruct (Z.ltb_spec i 0) as [Hneg | Hpos]; [lia |].
    apply nth_error_Some. lia.
Qed.

(** X2. There is an active KRA exactly when the stored index lies within the
    collection; without KRAs ([hasKras] false) there is none, whatever the
    index, and there are then no active KPIs, no deselected KPIs and the
    total is 0. *)
Theorem activeKRA_exists_iff_index_in_range (w : Widget) :
  (activeKRA w <> None
   <-> 0 <= activeTabIndex (state w) < Js.length (kraRecords w))
  /\ (hasKras w = true <-> kraRecords w <> [])
  /\ (hasKras w = false ->
      activeKRA w = None /\ activeKPIs w = []
      /\ activeDeselectedKPIs w = [] /\ activeTotalScore w = 0%float).
Proof.
  split; [apply index_Some_iff |]. split.
  - unfold hasKras, Js.length. destruct (kraRecords w) as [| k l]; simpl.
    + split; [discriminate | intros H; now destruct H].
    + split; [discriminate | intros _]. apply Z.gtb_lt. lia.
  - intros Hno.
    assert (Hnone : activeKRA w = None).
    { unfold activeKRA. apply index_out_of_range. unfold hasKras in Hno.
      destruct (Z.gtb_spec (Js.length (kraRecords w)) 0) as [H | H];
        [discriminate |].
      destruct (Z.lt_ge_cases (activeTabIndex (state w)) 0); [now left | right; lia]. }
    assert (Hk : activeKPIs w = []) by (unfold activeKPIs; now rewrite Hnone).
    split; [exact Hnone |]. split; [exact Hk |].
    unfold activeDeselectedKPIs, activeTotalScore. rewrite Hk.
    split; [reflexivity | now destruct (isTemplateMode w)].
Qed.

Lemma activeKRA_exists_iff_index_in_range_witness :
  activeKRA (widget_of "hr.appraisal" None false [] (idle 0)) = None.
Proof.
  exact (proj1 (proj2 (proj2 (activeKRA_exists_iff_index_in_range
           (widget_of "hr.appraisal" None false [] (idle 0)))) eq_refl)).
Defined.

(** X3. After [setActiveTab(i)] exactly tab [i] is reported active by
    [isActiveTab]; when tab [i] exists the active KRA is the row at [i] and
    the index is valid; the record and the mode are untouched. *)
Theorem setActiveTab_selects_one_tab (i : Z) (w : Widget) :
  (forall j, isActiveTab j (setActiveTab i w) = true <-> j = i)
  /\ kraRecords (setActiveTab i w) = kraRecords w
  /\ mode (setActiveTab i w) = mode w
  /\ (0 <= i < Js.length (kraRecords w) ->
      activeKRA (setActiveTab i w) = nth_error (kraRecords w) (Z.to_nat i)
      /\ activeKRA (setActiveTab i w) <> None
      /\ valid_index (activeTabIndex (state (setActiveTab i w)))
                     (Js.length (kraRecords (setActiveTab i w)))).
Proof.
  split; [| split; [reflexivity | split; [reflexivity |]]].
  - intros j. unfold isActiveTab, setActiveTab. simpl. rewrite Z.eqb_eq.
    split; intros H; now symmetry.
  - intros Hr. split; [| split].
    + unfold activeKRA, setActiveTab, Js.index. simpl.
      change (kraRecords (set_activeTabIndex i w)) with (kraRecords w).
      destruct (Z.ltb_spec i 0); [lia | reflexivity].
    + apply index_Some_iff. exact Hr.
    + unfold valid_index. simpl.
      change (kraRecords (setActiveTab i w)) with (kraRecords w). lia.
Qed.

Lemma setActiveTab_selects_one_tab_witness :
  activeKRA (setActiveTab 1 (two_tabs "hr.appraisal" 0)) = Some ops.
Proof.
  refine (proj1 (proj2 (proj2 (proj2 (setActiveTab_selects_one_tab 1
            (two_tabs "hr.appraisal" 0)))) _)).
  vm_compute. split; [discriminate | reflexivity].
Defined.

(** X4. The registration's [extractProps] always hands the widget an options
    object, and the mode with the extracted options is the mode with the
    options as they were given: a missing options object behaves as an empty
    one. *)
Theorem extractProps_keeps_mode (r : HostRecord) (ro : bool) (n : string)
  (o : option Options.t) (s : State) :
  Registration.extractProps o <> None
  /\ mode {| props := {| record := r; readonly := ro; name := n;
                         options := Registration.extractProps o |};
             state := s |}
     = mode {| props := {| record := r; readonly := ro; name := n;
                           options := o |};
               state := s |}.
Proof.
  split; [discriminate |]. unfold mode. simpl.
  destruct (String.eqb (resModel r) "appraisal.template"); [reflexivity |].
  destruct o as [opts |]; reflexivity.
Qed.

(** X5. The three mode flags exclude one another, and the template model
    sets [isTemplateMode] alone.  In a mode that is none of the three,
    [onDeleteKPI] makes no Accessor call and leaves the record as it is. *)
Theorem mode_flags_exclusive (w : Widget) :
  (isTemplateMode w && isEmployeeMode w = false)
  /\ (isTemplateMode w && isSupervisorMode w = false)
  /\ (isEmployeeMode w && isSupervisorMode w = false)
  /\ (resModel (record (props w)) = "appraisal.template" ->
      isTemplateMode w = true)
  /\ (isTemplateMode w = false -> isEmployeeMode w = false ->
      isSupervisorMode w = false ->
      forall k o, trace (onDeleteKPI k o w) = []
                  /\ kraRecords (widget (onDeleteKPI k o w)) = kraRecords w).
Proof.
  unfold isTemplateMode, isEmployeeMode, isSupervisorMode.
  assert (Hex : forall a b : string, a <> b ->
                  String.eqb (mode w) a && String.eqb (mode w) b = false).
  { intros a b Hab. destruct (String.eqb_spec (mode w) a) as [-> | Hn];
      [| reflexivity].
    simpl. now apply String.eqb_neq. }
  split; [apply Hex; discriminate |]. split; [apply Hex; discriminate |].
  split; [apply Hex; discriminate |]. split.
  - intros Hm. unfold mode. now rewrite Hm.
  - intros Ht He Hs k o. unfold onDeleteKPI, isSupervisorMode, isTemplateMode,
      isEmployeeMode.
    change (mode (set_isDeleting true w)) with (mode w). rewrite Ht, He, Hs.
    destruct (readonly (props w)); [split; reflexivity |].
    destruct (activeKRA w); [| split; reflexivity].
    destruct (isDeleting (state w)); split; reflexivity.
Qed.

Lemma mode_flags_exclusive_witness :
  trace (onDeleteKPI (kpi 2 false 5 4 true false) Accessor.Resolved
           (widget_of "hr.appraisal" (Some "manager") false [sales] (idle 0)))
  = [].
Proof.
  destruct (mode_flags_exclusive
              (widget_of "hr.appraisal" (Some "manager") false [sales] (idle 0)))
    as (_ & _ & _ & _ & H).
  exact (proj1 (H eq_refl eq_refl eq_refl (kpi 2 false 5 4 true false)
                  Accessor.Resolved)).
Defined.

(* ------------------------------------------------------------------ *)
(** ** Further properties: rejected Accessor calls *)

(** X6. The handlers without [try] do not swallow a rejection: when the
    Accessor rejects, [createKRA], [onAddKPI], [onDuplicateKPI],
    [onRestoreKPI], [onKPIFieldChange] and [onKPICheckboxChange] leave the
    widget as it was (so [createKRA] does not move the active tab) and log
    nothing; when they made a call at all, they complete by throwing the
    rejection. *)
Theorem rejection_propagates (err : string) (w : Widget) :
  let rejected (r : result) :=
    widget r = w
    /\ (forall msg e, ~ In (ConsoleError msg e) (trace r))
    /\ (trace r <> [] -> completes r = Throws err) in
  (forall kraName, rejected (createKRA kraName (Accessor.Rejected err) w))
  /\ rejected (onAddKPI (Accessor.Rejected err) w)
  /\ (forall k, rejected (onDuplicateKPI k (Accessor.Rejected err) w)
                /\ rejected (onRestoreKPI k (Accessor.Rejected err) w)
                /\ (forall pf f v,
                       rejected (onKPIFieldChange pf k f v
                                   (Accessor.Rejected err) w))
                /\ (forall c, rejected (onKPICheckboxChange k c
                                          (Accessor.Rejected err) w))).
Proof.
  intros rejected.
  assert (Hdone : rejected (done w)).
  { repeat split. - intros msg e []. - intros H. now destruct H. }
  assert (Hawait : forall c, rejected (await c (Accessor.Rejected err) w)).
  { intros c. repeat split. intros msg e [H | []]. discriminate. }
  assert (Hcreate : forall kraName,
             rejected (createKRA kraName (Accessor.Rejected err) w)).
  { intros kraName. unfold createKRA, and_then. cbn [await completes].
    apply Hawait. }
  split; [exact Hcreate |]. split.
  - unfold onAddKPI. destruct (readonly (props w)); [exact Hdone |].
    destruct (activeKRA w); [| exact Hdone].
    destruct (negb (isTemplateMode w)); [exact Hdone | apply Hawait].
  - intros k. split; [| split; [| split]].
    + unfold onDuplicateKPI. destruct (readonly (props w)); [exact Hdone |].
      destruct (activeKRA w); [apply Hawait | exact Hdone].
    + unfold onRestoreKPI. destruct (readonly (props w));
        [exact Hdone | apply Hawait].
    + intros pf f v. unfold onKPIFieldChange.
      destruct (readonly (props w)); [exact Hdone | apply Hawait].
    + intros c. unfold onKPICheckboxChange.
      destruct (readonly (props w)); [exact Hdone | apply Hawait].
Qed.

Lemma rejection_propagates_witness :
  completes (createKRA "Ops" (Accessor.Rejected "stale") template_widget)
  = Throws "stale"
  /\ activeTabIndex (state (widget (createKRA "Ops" (Accessor.Rejected "stale")
                                      template_widget))) = 0.
Proof.
  destruct (rejection_propagates "stale" template_widget) as (H & _).
  destruct (H "Ops") as (Hw & _ & Hthrow).
  split; [apply Hthrow; discriminate | now rewrite Hw].
Defined.

(* ------------------------------------------------------------------ *)
(** ** Further properties: KPI rows and the total *)

(** *** Doubles: when an addition gives [-0], and adding [0] *)

Lemma iter_pos_nat {A : Type} (f : A -> A) (p : positive) (x : A) :
  iter_pos f p x = Nat.iter (Pos.to_nat p) f x.
Proof.
  revert x. induction p as [p IH | p IH |]; intros x; cbn [iter_pos].
  - rewrite !IH, Pos2Nat.inj_xI.
    replace (S (2 * Pos.to_nat p)) with (Pos.to_nat p + (Pos.to_nat p + 1))%nat
      by lia.
    rewrite !Nat.iter_add. reflexivity.
  - rewrite !IH, Pos2Nat.inj_xO.
    replace (2 * Pos.to_nat p)%nat with (Pos.to_nat p + Pos.to_nat p)%nat by lia.
    now rewrite Nat.iter_add.
  - reflexivity.
Qed.

Lemma shr_1_positive (m : positive) (r s : bool) :
  (1 < Pos.to_nat (digits2_pos m))%nat ->
  exists q r' s',
    shr_1 {| shr_m := Zpos m; shr_r := r; shr_s := s |}
    = {| shr_m := Zpos q; shr_r := r'; shr_s := s' |}
    /\ S (Pos.to_nat (digits2_pos q)) = Pos.to_nat (digits2_pos m).
Proof.
  destruct m as [p | p |]; simpl; intros H.
  - exists p, true, (r || s)%bool. split; [reflexivity | lia].
  - exists p, false, (r || s)%bool. split; [reflexivity | lia].
  - lia.
Qed.

Lemma shr_iter_positive (n : nat) (m : positive) (r s : bool) :
  (n < Pos.to_nat (digits2_pos m))%nat ->
  exists q r' s',
    Nat.iter n shr_1 {| shr_m := Zpos m; shr_r := r; shr_s := s |}
    = {| shr_m := Zpos q; shr_r := r'; shr_s := s' |}
    /\ (Pos.to_nat (digits2_pos q) + n = Pos.to_nat (digits2_pos m))%nat.
Proof.
  induction n as [| n IH]; intros H.
  - exists m, r, s. split; [reflexivity | lia].
  - destruct IH as (q & r' & s' & Hq & Hd); [lia |]. simpl. rewrite Hq.
    destruct (shr_1_positive q r' s') as (q2 & r2 & s2 & Hq2 & Hd2); [lia |].
    exists q2, r2, s2. split; [exact Hq2 | lia].
Qed.

Lemma shr_fexp_positive (m : positive) (e : Z) (l : location) :
  (emin <= e)%Z ->
  exists q,
    shr_m (fst (shr_fexp prec emax (Zpos m) e l)) = Zpos q
    /\ (emin <= snd (shr_fexp prec emax (Zpos m) e l))%Z.
Proof.
  intros He. unfold shr_fexp, shr.
  set (n := (fexp prec emax (Zdigits2 (Zpos m) + e) - e)%Z).
  assert (Hn : (n < Zpos (digits2_pos m))%Z).
  { subst n. unfold fexp, SpecFloat.emin, prec, emax in *. simpl Zdigits2. lia. }
  destruct n as [| p | p] eqn:Hp.
  - simpl. destruct l as [| []]; simpl; eauto.
  - simpl fst. simpl snd. rewrite iter_pos_nat.
    assert (Hlt : (Pos.to_nat p < Pos.to_nat (digits2_pos m))%nat) by lia.
    destruct l as [| []]; simpl shr_record_of_loc;
      match goal with
      | |- context [Nat.iter _ shr_1 {| shr_m := _; shr_r := ?r; shr_s := ?s |}] =>
          destruct (shr_iter_positive (Pos.to_nat p) m r s Hlt)
            as (q & r' & s' & -> & _)
      end; exists q; split; try reflexivity; lia.
  - simpl. destruct l as [| []]; simpl; eauto.
Qed.

Lemma round_nearest_even_positive (q : positive) (l : location) :
  exists q', round_nearest_even (Zpos q) l = Zpos q'.
Proof.
  unfold round_nearest_even. destruct l as [| []].
  - now exists q.
  - destruct (Z.even (Zpos q)); [now exists q | now exists (q + 1)%positive].
  - now exists q.
  - now exists (q + 1)%positive.
Qed.

Lemma binary_round_aux_not_zero (s : bool) (m : positive) (e : Z) (l : location) :
  (emin <= e)%Z ->
  forall z, binary_round_aux prec emax s (Zpos m) e l <> S754_zero z.
Proof.
  intros He z. unfold binary_round_aux.
  destruct (shr_fexp_positive m e l He) as (q & Hq & He').
  destruct (shr_fexp prec emax (Zpos m) e l) as [mrs' e'] eqn:H1.
  simpl in Hq, He'. rewrite Hq.
  destruct (round_nearest_even_positive q (loc_of_shr_record mrs')) as (q' & ->).
  destruct (shr_fexp_positive q' e' loc_Exact He') as (q2 & Hq2 & _).
  destruct (shr_fexp prec emax (Zpos q') e' loc_Exact) as [mrs2 e2].
  simpl in Hq2. rewrite Hq2. destruct (_ <=? _)%Z; discriminate.
Qed.

Lemma binary_round_not_zero (s : bool) (m : positive) (e : Z) :
  (emin <= e)%Z -> forall z, binary_round prec emax s m e <> S754_zero z.
Proof.
  intros He z. unfold binary_round, shl_align.
  destruct (fexp prec emax (Zpos (digits2_pos m) + e) - e)%Z eqn:Hd;
    try (apply binary_round_aux_not_zero; exact He).
  apply binary_round_aux_not_zero. unfold fexp, SpecFloat.emin, prec, emax. lia.
Qed.

Lemma valid_exponent (s : bool) (m : positive) (e : Z) :
  valid_binary (S754_finite s m e) = true -> (emin <= e)%Z.
Proof.
  unfold SpecFloat.valid_binary, bounded, canonical_mantissa.
  intros H. apply andb_prop in H. destruct H as [H _]. apply Z.eqb_eq in H.
  unfold fexp, SpecFloat.emin, prec, emax in *. lia.
Qed.

(** x + y is -0 only when both are -0. *)
Lemma SF64add_neg_zero (x y : spec_float) :
  valid_binary x = true -> valid_binary y = true ->
  SF64add x y = S754_zero true -> x = S754_zero true /\ y = S754_zero true.
Proof.
  intros Hx Hy. unfold SF64add, SFadd.
  destruct x as [[|] | [|] | | sx mx ex]; destruct y as [[|] | [|] | | sy my ey];
    try discriminate; try (intros H; now split).
  apply valid_exponent in Hx, Hy. unfold binary_normalize.
  match goal with
  | |- context [match ?z with Z0 => _ | Zpos _ => _ | Zneg _ => _ end] =>
      destruct z
  end; try discriminate; intros H; exfalso; revert H;
    apply binary_round_not_zero; lia.
Qed.

Lemma add_neg_zero (x y : float) :
  neg_zero (x + y)%float -> neg_zero x /\ neg_zero y.
Proof.
  unfold neg_zero. rewrite add_spec.
  apply SF64add_neg_zero; apply Prim2SF_valid.
Qed.

Lemma add_zero_r (x : float) : ~ neg_zero x -> (x + 0)%float = x.
Proof.
  unfold neg_zero. intros H. apply Prim2SF_inj. rewrite add_spec.
  change (Prim2SF 0) with (S754_zero false).
  destruct (Prim2SF x) as [[|] | [|] | | s m e]; try reflexivity. now destruct H.
Qed.

Lemma fold_add_not_neg_zero (l : list float) (a : float) :
  ~ neg_zero a -> ~ neg_zero (fold_left PrimFloat.add l a).
Proof.
  revert a. induction l as [| x l IH]; intros a Ha; [exact Ha |].
  simpl. apply IH. intros H. apply add_neg_zero in H. tauto.
Qed.

(** A running total is never [-0], so that a row that adds [0] leaves it as
    it is. *)
Lemma sum_app_zero (l : list float) : sum (l ++ [0%float]) = sum l.
Proof.
  unfold sum. rewrite fold_left_app. simpl. apply add_zero_r.
  apply fold_add_not_neg_zero. vm_compute. discriminate.
Qed.

(** *** The total as a sum over rows *)

Lemma activeTotalScore_total (w : Widget) :
  activeTotalScore w = total_of (isTemplateMode w) (activeKPIs w).
Proof.
  unfold activeTotalScore, total_of, summed, addend, sum.
  destruct (isTemplateMode w); rewrite fold_left_add_map; [reflexivity |].
  do 2 f_equal. apply filter_ext. intros k. apply truthy_selected.
Qed.

Lemma same_oid_same_row (k : Kpi.Row) (l : list Kpi.Row) :
  NoDup (map Kpi.oid l) -> In k l ->
  forall r, In r l -> Kpi.oid r = Kpi.oid k -> r = k.
Proof.
  induction l as [| x l IH]; [intros _ [] |].
  simpl. intros Hnd Hk r Hr He. inversion Hnd as [| y ys Hx Hxs]; subst.
  destruct Hk as [-> | Hk], Hr as [-> | Hr]; try reflexivity.
  - exfalso. apply Hx. rewrite <- He. now apply in_map.
  - exfalso. apply Hx. rewrite He. now apply in_map.
  - now apply IH.
Qed.



Lemma summed_In (template : bool) (l : list Kpi.Row) (r : Kpi.Row) :
  In r (summed template l) ->
  In r l /\ (template = false -> selected r = true).
Proof.
  unfold summed. destruct template.
  - intros H. split; [exact H | discriminate].
  - intros H. apply filter_In in H. tauto.
Qed.

Lemma unset_isDeleting (w w' : Widget) :
  isDeleting (state w) = false ->
  props w' = props w -> state w' = state w ->
  forall l, set_isDeleting false (set_records l (set_isDeleting true w'))
            = set_records l w.
Proof.
  destruct w as [p [i d s]], w' as [p' [i' d' s']]. simpl.
  intros -> -> Hs l. now inversion Hs.
Qed.

Lemma activeKPIs_set_records (w : Widget) (l : list Kra.Row) (k : Kra.Row) :
  Js.index l (activeTabIndex (state w)) = Some k ->
  activeKPIs (set_records l w) = Kra.kpi_ids (Kra.data k).
Proof. intros H. apply activeKPIs_at. exact H. Qed.

(** The widget after a deletion whose call resolved. *)
Lemma onDeleteKPI_resolved (k : Kpi.Row) (w : Widget) (kra : Kra.Row) :
  readonly (props w) = false -> activeKRA w = Some kra ->
  isDeleting (state w) = false -> isSupervisorMode w = false ->
  widget (onDeleteKPI k Accessor.Resolved w)
  = if isTemplateMode w
    then set_records (Accessor.perform
                        (Accessor.KpiListDelete (Kra.oid kra) (Kpi.oid k))
                        (kraRecords w)) w
    else if isEmployeeMode w
         then if Kpi.isNew k || Js.truthy_bool (Kpi.is_clone (Kpi.data k))
              then set_records (Accessor.perform
                                  (Accessor.KpiListDelete (Kra.oid kra) (Kpi.oid k))
                                  (kraRecords w)) w
              else set_records (Accessor.perform
                                  (Accessor.KpiUpdate (Kpi.oid k) "is_selected"
                                     (Kpi.FBool false))
                                  (kraRecords w)) w
         else w.
Proof.
  intros Hro Hact Hd Hs. unfold onDeleteKPI. rewrite Hro, Hact, Hd, Hs.
  unfold isTemplateMode, isEmployeeMode.
  change (mode (set_isDeleting true w)) with (mode w).
  destruct (String.eqb (mode w) "template").
  - cbn. now apply unset_isDeleting.
  - destruct (String.eqb (mode w) "employee").
    + destruct (_ || _); cbn; now apply unset_isDeleting.
    + cbn. now apply set_isDeleting_roundtrip.
Qed.

Lemma delete_kpi_filter (k : Kpi.Row) (l : list Kpi.Row) :
  Accessor.delete_kpi (Kpi.oid k) l = filter (fun r => negb (is_row k r)) l.
Proof. reflexivity. Qed.

Lemma activeKPIs_after_append (w : Widget) (kra : Kra.Row) (v : Kpi.Vals) :
  activeKRA w = Some kra ->
  activeKPIs (widget (await (Accessor.KraUpdate (Kra.oid kra) v)
                            Accessor.Resolved w))
  = Kra.kpi_ids (Kra.data kra)
    ++ [Accessor.new_kpi (Accessor.fresh (kraRecords w)) v].
Proof.
  intros Hact. cbn [await widget]. erewrite activeKPIs_set_records.
  2:{ cbn. apply index_on_kra. exact Hact. }
  reflexivity.
Qed.

Lemma total_after_append (w : Widget) (kra : Kra.Row) (v : Kpi.Vals) :
  activeKRA w = Some kra ->
  (if isTemplateMode w then Js.num_or0 (Kpi.v_score v)
   else Js.num_or0 (Kpi.v_weightage v)) = 0%float ->
  activeTotalScore (widget (await (Accessor.KraUpdate (Kra.oid kra) v)
                                  Accessor.Resolved w))
  = activeTotalScore w.
Proof.
  intros Hact Hzero. rewrite !activeTotalScore_total.
  rewrite (activeKPIs_after_append w kra v Hact).
  change (isTemplateMode (widget (await (Accessor.KraUpdate (Kra.oid kra) v)
                                        Accessor.Resolved w)))
    with (isTemplateMode w).
  rewrite (activeKPIs_at w kra Hact). unfold total_of, summed.
  destruct (isTemplateMode w).
  - rewrite map_app. cbn [map]. unfold addend at 2. cbn [Accessor.new_kpi Kpi.data Kpi.score].
    rewrite Hzero. apply sum_app_zero.
  - rewrite filter_app. cbn [filter].
    destruct (selected _); [| now rewrite app_nil_r].
    rewrite map_app. cbn [map]. unfold addend at 2.
    cbn [Accessor.new_kpi Kpi.data Kpi.weightage].
    rewrite Hzero. apply sum_app_zero.
Qed.

(** X7. Adding or duplicating a KPI never changes the total of the active
    KRA, in any mode, whatever the guards decide and however the Accessor
    settles: the row [onAddKPI] creates has score 0, and the clone
    [onDuplicateKPI] creates has weightage 0 and no score.  When [onAddKPI]
    gets to create its row, the row is appended with empty [name],
    [description] and [criteria]. *)
Theorem adding_rows_keeps_total (k : Kpi.Row) (o : Accessor.outcome) (w : Widget) :
  activeTotalScore (widget (onAddKPI o w)) = activeTotalScore w
  /\ activeTotalScore (widget (onDuplicateKPI k o w)) = activeTotalScore w
  /\ (forall kra,
         readonly (props w) = false -> activeKRA w = Some kra ->
         mode w = "template" ->
         exists row,
           activeKPIs (widget (onAddKPI Accessor.Resolved w))
           = Kra.kpi_ids (Kra.data kra) ++ [row]
           /\ Kpi.name (Kpi.data row) = Some ""
           /\ Kpi.description (Kpi.data row) = Some ""
           /\ Kpi.criteria (Kpi.data row) = Some ""
           /\ Kpi.score (Kpi.data row) = Some 0%float
           /\ Kpi.isNew row = true).
Proof.
  split; [| split].
  - unfold onAddKPI. destruct (readonly (props w)); [reflexivity |].
    destruct (activeKRA w) as [kra |] eqn:Hact; [| reflexivity].
    destruct (isTemplateMode w) eqn:Hm; [| reflexivity]. simpl negb. cbv iota.
    destruct o; [| reflexivity].
    apply total_after_append; [exact Hact | now rewrite Hm].
  - unfold onDuplicateKPI. destruct (readonly (props w)); [reflexivity |].
    destruct (activeKRA w) as [kra |] eqn:Hact; [| reflexivity].
    destruct o; [| reflexivity].
    apply total_after_append; [exact Hact | now destruct (isTemplateMode w)].
  - intros kra Hro Hact Hm. unfold onAddKPI, isTemplateMode.
    rewrite Hro, Hact, Hm. simpl negb. cbv iota.
    rewrite (activeKPIs_after_append w kra _ Hact).
    eexists. split; [reflexivity |]. repeat split.
Qed.

Lemma adding_rows_keeps_total_witness :
  exists row,
    activeKPIs (widget (onAddKPI Accessor.Resolved template_widget))
    = [kpi 2 false 5 4 true false; kpi 3 false 3 2 false true; row]
    /\ Kpi.score (Kpi.data row) = Some 0%float.
Proof.
  destruct (adding_rows_keeps_total (kpi 2 false 5 4 true false)
              Accessor.Resolved template_widget) as (_ & _ & H).
  destruct (H sales eq_refl eq_refl eq_refl) as (row & Hrows & _ & _ & _ & Hs & _).
  exists row. split; assumption.
Defined.

(** X8. What a deletion does to the total.  Take a widget past the guards of
    [onDeleteKPI], a resolved call, and a row of the active KRA whose
    identity no other row of that KRA has.  In template mode the total after
    is the sum of [score] over the other rows; in employee mode it is the sum
    of [weightage] over the other rows that are selected, and this is so
    whether the row is destroyed or deselected; deleting a row that was not
    selected leaves the total of employee mode as it was.  The totals are
    sums of doubles, taken again over the rows that are left. *)
Theorem delete_takes_row_out_of_total (k : Kpi.Row) (w : Widget) (kra : Kra.Row) :
  readonly (props w) = false -> activeKRA w = Some kra ->
  isDeleting (state w) = false ->
  NoDup (map Kpi.oid (Kra.kpi_ids (Kra.data kra))) ->
  In k (Kra.kpi_ids (Kra.data kra)) ->
  let total' := activeTotalScore (widget (onDeleteKPI k Accessor.Resolved w)) in
  let others := filter (fun r => negb (is_row k r)) (Kra.kpi_ids (Kra.data kra)) in
  (mode w = "template" -> total' = total_of true others)
  /\ (mode w = "employee" ->
      total' = total_of false others
      /\ (selected k = false -> total' = activeTotalScore w)).
Proof.
  intros Hro Hact Hd Hnd Hin total' others. subst total'.
  assert (Hidx : Js.index (kraRecords w) (activeTabIndex (state w)) = Some kra)
    by exact Hact.
  split; intros Hm.
  - rewrite (onDeleteKPI_resolved k w kra Hro Hact Hd)
      by (unfold isSupervisorMode; now rewrite Hm).
    unfold isTemplateMode at 1. rewrite Hm. cbn [String.eqb Ascii.eqb Bool.eqb].
    rewrite activeTotalScore_total.
    erewrite activeKPIs_set_records by (cbn; apply index_on_kra; exact Hidx).
    change (isTemplateMode (set_records _ w)) with (isTemplateMode w).
    unfold isTemplateMode. rewrite Hm. reflexivity.
  - assert (Ht : isTemplateMode w = false)
      by (unfold isTemplateMode; now rewrite Hm).
    assert (Htotal : activeTotalScore (widget (onDeleteKPI k Accessor.Resolved w))
                     = total_of false others).
    { rewrite (onDeleteKPI_resolved k w kra Hro Hact Hd)
        by (unfold isSupervisorMode; now rewrite Hm).
      unfold isTemplateMode at 1, isEmployeeMode. rewrite Hm.
      cbn [String.eqb Ascii.eqb Bool.eqb].
      destruct (Kpi.isNew k || Js.truthy_bool (Kpi.is_clone (Kpi.data k))).
      - rewrite activeTotalScore_total.
        erewrite activeKPIs_set_records by (cbn; apply index_on_kra; exact Hidx).
        change (isTemplateMode (set_records _ w)) with (isTemplateMode w).
        now rewrite Ht.
      - rewrite activeTotalScore_total.
        erewrite activeKPIs_set_records
          by (cbn; rewrite index_map, Hidx; reflexivity).
        change (isTemplateMode (set_records _ w)) with (isTemplateMode w).
        rewrite Ht. cbn [Kra.with_kpi_ids Kra.data Kra.kpi_ids].
        subst others. generalize (Kra.kpi_ids (Kra.data kra)) as l.
        intros l. unfold total_of, summed. f_equal.
        unfold Accessor.update_kpi, is_row.
        induction l as [| r l IH]; [reflexivity |]. cbn [map filter].
        destruct (Nat.eqb (Kpi.oid r) (Kpi.oid k)); cbn [negb].
        + cbn. exact IH.
        + cbn [filter]. destruct (selected r); cbn [map]; now rewrite IH. }
    split; [exact Htotal |]. intros Hsel. rewrite Htotal.
    rewrite activeTotalScore_total, Ht, (activeKPIs_at w kra Hidx).
    unfold total_of, summed. do 2 f_equal. subst others.
    pose proof (same_oid_same_row k _ Hnd Hin) as Hsame. clear Hnd Hin Htotal.
    induction (Kra.kpi_ids (Kra.data kra)) as [| r l IH]; [reflexivity |].
    cbn [filter]. unfold is_row at 1.
    destruct (Nat.eqb_spec (Kpi.oid r) (Kpi.oid k)) as [He | Hne]; cbn [negb].
    + rewrite (Hsame r (or_introl eq_refl) He), Hsel.
      apply IH. intros x Hx. apply Hsame. now right.
    + cbn [filter]. destruct (selected r);
        rewrite IH; try reflexivity; intros x Hx; apply Hsame; now right.
Qed.

Lemma delete_takes_row_out_of_total_witness :
  activeTotalScore (widget (onDeleteKPI (kpi 2 false 5 4 true false)
                              Accessor.Resolved employee_widget)) = 0%float
  /\ activeTotalScore (widget (onDeleteKPI (kpi 2 false 5 4 true false)
                                 Accessor.Resolved template_widget)) = 2%float
  /\ activeTotalScore (widget (onDeleteKPI (kpi 3 false 3 2 false true)
                                 Accessor.Resolved employee_widget))
     = activeTotalScore employee_widget.
Proof.
  assert (Hnd : NoDup (map Kpi.oid (Kra.kpi_ids (Kra.data sales)))).
  { simpl. repeat constructor; simpl; intuition discriminate. }
  split; [| split].
  - rewrite (proj1 (proj2 (delete_takes_row_out_of_total (kpi 2 false 5 4 true false)
                      employee_widget sales eq_refl eq_refl eq_refl Hnd
                      (or_introl eq_refl)) eq_refl)).
    reflexivity.
  - rewrite (proj1 (delete_takes_row_out_of_total (kpi 2 false 5 4 true false)
                      template_widget sales eq_refl eq_refl eq_refl Hnd
                      (or_introl eq_refl)) eq_refl).
    reflexivity.
  - exact (proj2 (proj2 (delete_takes_row_out_of_total (kpi 3 false 3 2 false true)
                      employee_widget sales eq_refl eq_refl eq_refl Hnd
                      (or_intror (or_introl eq_refl))) eq_refl) eq_refl).
Defined.

(* ------------------------------------------------------------------ *)
(** ** Further properties: soft delete and restore *)

Lemma with_kpi_ids_same (kra : Kra.Row) :
  Kra.with_kpi_ids (Kra.kpi_ids (Kra.data kra)) kra = kra.
Proof. destruct kra as [id new [nm sq l]]. reflexivity. Qed.

Lemma with_kpi_ids_twice (f g : list Kpi.Row -> list Kpi.Row) (kra : Kra.Row) :
  Kra.with_kpi_ids
    (g (Kra.kpi_ids (Kra.data (Kra.with_kpi_ids (f (Kra.kpi_ids (Kra.data kra)))
                                                kra))))
    (Kra.with_kpi_ids (f (Kra.kpi_ids (Kra.data kra))) kra)
  = Kra.with_kpi_ids (g (f (Kra.kpi_ids (Kra.data kra)))) kra.
Proof. reflexivity. Qed.

Lemma set_records_same (w : Widget) (kra : Kra.Row) :
  activeKRA w = Some kra -> set_records (kraRecords w) w = w.
Proof.
  unfold activeKRA, kraRecords, set_records.
  destruct w as [[[m af [l |]] ro n o] s]; simpl; [reflexivity |].
  unfold Js.index. destruct (_ <? 0); [discriminate |].
  now destruct (Z.to_nat _).
Qed.

Lemma in_all_kpis (kras : list Kra.Row) (kra : Kra.Row) (r : Kpi.Row) :
  In kra kras -> In r (Kra.kpi_ids (Kra.data kra)) -> In r (all_kpis kras).
Proof.
  intros Hk Hr. unfold all_kpis. apply in_flat_map. now exists kra.
Qed.

Lemma deselect_then_select (k : Kpi.Row) (l : list Kpi.Row) :
  Kpi.is_selected (Kpi.data k) = Some true ->
  (forall r, In r l -> Kpi.oid r = Kpi.oid k -> r = k) ->
  Accessor.update_kpi (Kpi.oid k) "is_selected" (Kpi.FBool true)
    (Accessor.update_kpi (Kpi.oid k) "is_selected" (Kpi.FBool false) l) = l.
Proof.
  intros Hsel Hobj. unfold Accessor.update_kpi. rewrite map_map.
  transitivity (map (fun r => r) l); [| apply map_id].
  apply map_ext_in. intros r Hr.
  destruct (Nat.eqb_spec (Kpi.oid r) (Kpi.oid k)) as [He | Hne].
  - rewrite (Hobj r Hr He). cbn [Kpi.with_data Kpi.oid].
    rewrite Nat.eqb_refl. destruct k as [id new d]. destruct d. simpl in Hsel.
    subst. reflexivity.
  - destruct (Nat.eqb_spec (Kpi.oid r) (Kpi.oid k)); [contradiction | reflexivity].
Qed.

(** X9. Soft delete and restore are inverse.  In employee mode, past the
    guards and with resolved calls, deleting a saved row that is no clone and
    was selected puts the row, with [is_selected] false, into the list of the
    restore panel and keeps every row in its place; restoring it afterwards gives
    back the widget as it was before the deletion, provided the row's
    identity denotes one object. *)
Theorem soft_delete_then_restore (k : Kpi.Row) (w : Widget) (kra : Kra.Row) :
  readonly (props w) = false -> activeKRA w = Some kra ->
  isDeleting (state w) = false -> mode w = "employee" ->
  Kpi.isNew k = false -> Kpi.is_clone (Kpi.data k) <> Some true ->
  Kpi.is_selected (Kpi.data k) = Some true ->
  one_object k (kraRecords w) ->
  let w1 := widget (onDeleteKPI k Accessor.Resolved w) in
  (In k (Kra.kpi_ids (Kra.data kra)) ->
   In (Kpi.with_data (Kpi.set_is_selected false (Kpi.data k)) k)
      (activeDeselectedKPIs w1))
  /\ map Kpi.oid (activeKPIs w1) = map Kpi.oid (activeKPIs w)
  /\ widget (onRestoreKPI k Accessor.Resolved w1) = w.
Proof.
  intros Hro Hact Hd Hm Hnew Hclone Hsel Hobj w1.
  assert (Hc : Kpi.isNew k || Js.truthy_bool (Kpi.is_clone (Kpi.data k)) = false).
  { rewrite Hnew. simpl. destruct (Kpi.is_clone (Kpi.data k)) as [[|] |];
      [now destruct Hclone | reflexivity | reflexivity]. }
  assert (Hw1 : w1 = set_records
                       (Accessor.perform
                          (Accessor.KpiUpdate (Kpi.oid k) "is_selected"
                             (Kpi.FBool false)) (kraRecords w)) w).
  { subst w1. rewrite (onDeleteKPI_resolved k w kra Hro Hact Hd)
      by (unfold isSupervisorMode; now rewrite Hm).
    unfold isTemplateMode, isEmployeeMode. rewrite Hm.
    cbn [String.eqb Ascii.eqb Bool.eqb]. now rewrite Hc. }
  assert (Hk1 : activeKPIs w1
                = Accessor.update_kpi (Kpi.oid k) "is_selected" (Kpi.FBool false)
                    (Kra.kpi_ids (Kra.data kra))).
  { rewrite Hw1. erewrite activeKPIs_set_records.
    2:{ cbn. rewrite index_map. unfold activeKRA in Hact. rewrite Hact.
        reflexivity. }
    reflexivity. }
  split; [| split].
  - intros Hin. unfold activeDeselectedKPIs. rewrite Hk1. apply filter_In.
    split; [| reflexivity].
    unfold Accessor.update_kpi. apply in_map_iff. exists k.
    now rewrite Nat.eqb_refl.
  - rewrite Hk1, (activeKPIs_at w kra Hact). unfold Accessor.update_kpi.
    rewrite map_map. apply map_ext. intros r.
    now destruct (Nat.eqb (Kpi.oid r) (Kpi.oid k)).
  - rewrite Hw1. unfold onRestoreKPI.
    change (readonly (props (set_records _ w))) with (readonly (props w)).
    rewrite Hro. cbn [await widget].
    transitivity (set_records (kraRecords w) w);
      [| now apply (set_records_same w kra)].
    match goal with
    | |- set_records ?l2 (set_records ?l1 w) = _ =>
        change (set_records l2 w = set_records (kraRecords w) w)
    end.
    f_equal. cbn [Accessor.perform].
    match goal with
    | |- context [kraRecords (set_records ?l w)] =>
        change (kraRecords (set_records l w)) with l
    end.
    rewrite map_map.
    transitivity (map (fun x => x) (kraRecords w)); [| apply map_id].
    apply map_ext_in. intros x Hx.
    rewrite (with_kpi_ids_twice
               (Accessor.update_kpi (Kpi.oid k) "is_selected" (Kpi.FBool false))
               (Accessor.update_kpi (Kpi.oid k) "is_selected" (Kpi.FBool true))).
    rewrite deselect_then_select.
    + apply with_kpi_ids_same.
    + exact Hsel.
    + intros r Hr He. apply Hobj; [| exact He].
      now apply (in_all_kpis (kraRecords w) x r).
Qed.

Lemma soft_delete_then_restore_witness :
  widget (onRestoreKPI (kpi 2 false 5 4 true false) Accessor.Resolved
            (widget (onDeleteKPI (kpi 2 false 5 4 true false) Accessor.Resolved
                       employee_widget)))
  = employee_widget.
Proof.
  refine (proj2 (proj2 (soft_delete_then_restore (kpi 2 false 5 4 true false)
            employee_widget sales eq_refl eq_refl eq_refl eq_refl eq_refl _
            eq_refl _))).
  - discriminate.
  - intros r Hin He. simpl in Hin.
    destruct Hin as [<- | [<- | []]]; [reflexivity | discriminate].
Defined.

(** X10. Restoring a row of the active KRA (widget not read-only, call
    resolved, the row's identity unique in that KRA) takes it off the list
    of the restore panel and keeps the number of rows.  The total of
    template mode is not affected, and neither is any total when the row was
    selected already; in every other mode the total after is the sum of
    [weightage] over the rows that were selected together with the restored
    row, in the order of the rows.  No mode is excluded: [onRestoreKPI]
    tests [readonly] only. *)
Theorem restore_puts_row_into_total (k : Kpi.Row) (w : Widget) (kra : Kra.Row) :
  readonly (props w) = false -> activeKRA w = Some kra ->
  NoDup (map Kpi.oid (Kra.kpi_ids (Kra.data kra))) ->
  In k (Kra.kpi_ids (Kra.data kra)) ->
  let w' := widget (onRestoreKPI k Accessor.Resolved w) in
  (isTemplateMode w = true \/ selected k = true ->
   activeTotalScore w' = activeTotalScore w)
  /\ (isTemplateMode w = false ->
      activeTotalScore w'
      = sum (map (addend false)
                 (filter (fun r => selected r || is_row k r)
                         (Kra.kpi_ids (Kra.data kra)))))
  /\ Forall (fun r => Kpi.oid r <> Kpi.oid k) (activeDeselectedKPIs w')
  /\ List.length (activeKPIs w') = List.length (activeKPIs w).
Proof.
  intros Hro Hact Hnd Hin w'.
  assert (Hidx : Js.index (kraRecords w) (activeTabIndex (state w)) = Some kra)
    by exact Hact.
  assert (Hk : activeKPIs w'
               = Accessor.update_kpi (Kpi.oid k) "is_selected" (Kpi.FBool true)
                   (Kra.kpi_ids (Kra.data kra))).
  { subst w'. unfold onRestoreKPI. rewrite Hro. cbn [await widget].
    erewrite activeKPIs_set_records
      by (cbn; rewrite index_map, Hidx; reflexivity).
    reflexivity. }
  assert (Hmode : isTemplateMode w' = isTemplateMode w).
  { subst w'. unfold onRestoreKPI. now rewrite Hro. }
  pose proof (same_oid_same_row k _ Hnd Hin) as Hsame.
  assert (Hother : isTemplateMode w = false ->
            activeTotalScore w'
            = sum (map (addend false)
                       (filter (fun r => selected r || is_row k r)
                               (Kra.kpi_ids (Kra.data kra))))).
  { intros Ht. rewrite activeTotalScore_total, Hmode, Ht, Hk.
    unfold total_of, summed. f_equal. unfold Accessor.update_kpi, is_row.
    clear. induction (Kra.kpi_ids (Kra.data kra)) as [| r l IH];
      [reflexivity |].
    cbn [map filter]. destruct (Nat.eqb (Kpi.oid r) (Kpi.oid k)).
    - rewrite orb_true_r. cbn. f_equal. exact IH.
    - rewrite orb_false_r. destruct (selected r); cbn [map]; now rewrite IH. }
  split; [| split; [exact Hother | split]].
  - intros Hcase. destruct (isTemplateMode w) eqn:Ht.
    + rewrite !activeTotalScore_total, Hmode, Ht, Hk, (activeKPIs_at w kra Hidx).
      unfold total_of, summed. f_equal. unfold Accessor.update_kpi.
      rewrite map_map. apply map_ext. intros r.
      now destruct (Nat.eqb (Kpi.oid r) (Kpi.oid k)).
    + destruct Hcase as [Hc | Hsel]; [discriminate |].
      rewrite (Hother eq_refl), activeTotalScore_total, Ht,
        (activeKPIs_at w kra Hidx).
      unfold total_of, summed. do 2 f_equal. apply filter_ext_in.
      intros r Hr. unfold is_row.
      destruct (Nat.eqb_spec (Kpi.oid r) (Kpi.oid k)) as [He | Hne];
        [| apply orb_false_r].
      rewrite (Hsame r Hr He), Hsel. reflexivity.
  - unfold activeDeselectedKPIs. rewrite Hk. apply Forall_forall.
    intros x Hx. apply filter_In in Hx. destruct Hx as [Hx Hf].
    unfold Accessor.update_kpi in Hx. apply in_map_iff in Hx.
    destruct Hx as [r [Hr _]].
    destruct (Nat.eqb_spec (Kpi.oid r) (Kpi.oid k)) as [He | Hne].
    + subst x. discriminate Hf.
    + now subst x.
  - rewrite Hk, (activeKPIs_at w kra Hidx). unfold Accessor.update_kpi.
    apply length_map.
Qed.

Lemma restore_puts_row_into_total_witness :
  activeTotalScore (widget (onRestoreKPI (kpi 3 false 3 2 false true)
                              Accessor.Resolved supervisor_widget)) = 8%float
  /\ activeTotalScore (widget (onRestoreKPI (kpi 2 false 5 4 true false)
                                 Accessor.Resolved supervisor_widget))
     = activeTotalScore supervisor_widget.
Proof.
  assert (Hnd : NoDup (map Kpi.oid (Kra.kpi_ids (Kra.data sales)))).
  { simpl. repeat constructor; simpl; intuition discriminate. }
  split.
  - rewrite (proj1 (proj2 (restore_puts_row_into_total (kpi 3 false 3 2 false true)
                      supervisor_widget sales eq_refl eq_refl Hnd
                      (or_intror (or_introl eq_refl)))) eq_refl).
    reflexivity.
  - exact (proj1 (restore_puts_row_into_total (kpi 2 false 5 4 true false)
                    supervisor_widget sales eq_refl eq_refl Hnd
                    (or_introl eq_refl)) (or_intror eq_refl)).
Defined.

(* ------------------------------------------------------------------ *)
(** ** Further properties: deleting a KRA *)

Lemma filter_out_at (l : list Kra.Row) (i : nat) (kra : Kra.Row) :
  NoDup (map Kra.oid l) -> nth_error l i = Some kra ->
  filter (fun k => negb (Nat.eqb (Kra.oid k) (Kra.oid kra))) l
  = firstn i l ++ skipn (S i) l.
Proof.
  revert i. induction l as [| x l IH]; intros i Hnd Hi.
  - destruct i; discriminate.
  - inversion Hnd as [| y ys Hx Hxs]; subst. destruct i as [| i]; simpl in Hi.
    + inversion Hi; subst x. simpl. rewrite Nat.eqb_refl. simpl.
      apply forallb_filter_id. apply forallb_forall. intros r Hr.
      apply negb_true_iff, Nat.eqb_neq. intros He. apply Hx. rewrite <- He.
      now apply in_map.
    + simpl. destruct (Nat.eqb_spec (Kra.oid x) (Kra.oid kra)) as [He | Hne].
      * exfalso. apply Hx. rewrite He. apply in_map. now apply nth_error_In in Hi.
      * simpl. f_equal. now apply IH.
Qed.

Lemma onDeleteKRA_resolved (w : Widget) (kra : Kra.Row) :
  readonly (props w) = false -> activeKRA w = Some kra ->
  isDeleting (state w) = false -> isTemplateMode w = true ->
  let l := filter (fun k => negb (Nat.eqb (Kra.oid k) (Kra.oid kra)))
                  (kraRecords w) in
  let i := activeTabIndex (state w) in
  widget (onDeleteKRA Accessor.Resolved w)
  = set_activeTabIndex
      (if (i >=? Js.length l) && (Js.length l >? 0) then Js.length l - 1
       else if Js.length l =? 0 then 0 else i)
      (set_records l w).
Proof.
  intros Hro Hact Hd Hm l i. unfold onDeleteKRA. rewrite Hro, Hact, Hd, Hm.
  simpl negb. cbv iota. unfold finally, catch_log, and_then, await.
  cbn [completes widget trace Accessor.perform].
  change (kraRecords (set_isDeleting true w)) with (kraRecords w). fold l.
  change (kraRecords (set_records l (set_isDeleting true w))) with l.
  change (activeTabIndex (state (set_records l (set_isDeleting true w)))) with i.
  destruct w as [p [i0 d s]]. simpl in Hd. subst d.
  destruct ((i >=? Js.length l) && (Js.length l >? 0)); [reflexivity |].
  destruct (Js.length l =? 0); reflexivity.
Qed.

(** X11. Which tab is active after a KRA is deleted.  In template mode, past
    the guards, with a resolved call and distinct KRA identities,
    [onDeleteKRA] removes the active KRA and nothing else.  When a KRA
    followed it, the index stays and that KRA becomes active; when it was the
    last one, the index moves to the KRA before it; when it was the only one,
    the index is 0 and no KRA is active. *)
Theorem delete_KRA_selects_neighbour (w : Widget) (kra : Kra.Row) :
  readonly (props w) = false -> activeKRA w = Some kra ->
  isDeleting (state w) = false -> mode w = "template" ->
  NoDup (map Kra.oid (kraRecords w)) ->
  let w' := widget (onDeleteKRA Accessor.Resolved w) in
  let i := activeTabIndex (state w) in
  let n := Js.length (kraRecords w) in
  kraRecords w'
  = firstn (Z.to_nat i) (kraRecords w) ++ skipn (S (Z.to_nat i)) (kraRecords w)
  /\ Js.length (kraRecords w') = n - 1
  /\ ~ In kra (kraRecords w')
  /\ (i + 1 < n ->
      activeTabIndex (state w') = i
      /\ activeKRA w' = Js.index (kraRecords w) (i + 1))
  /\ (i + 1 = n ->
      activeTabIndex (state w') = Z.max 0 (i - 1)
      /\ activeKRA w' = Js.index (kraRecords w) (i - 1)).
Proof.
  intros Hro Hact Hd Hm Hnd w' i n.
  assert (Ht : isTemplateMode w = true) by (unfold isTemplateMode; now rewrite Hm).
  pose proof (index_in_range _ _ _ Hact) as Hrange. fold i n in Hrange.
  assert (Hnth : nth_error (kraRecords w) (Z.to_nat i) = Some kra).
  { unfold activeKRA, Js.index in Hact. fold i in Hact.
    destruct (Z.ltb_spec i 0); [lia | exact Hact]. }
  pose proof (onDeleteKRA_resolved w kra Hro Hact Hd Ht) as Hw. cbv zeta in Hw.
  fold w' i in Hw.
  set (l := filter (fun k => negb (Nat.eqb (Kra.oid k) (Kra.oid kra)))
                   (kraRecords w)) in *.
  assert (Hl : l = firstn (Z.to_nat i) (kraRecords w)
                   ++ skipn (S (Z.to_nat i)) (kraRecords w))
    by (subst l; now apply filter_out_at).
  assert (Hlen : Js.length l = n - 1).
  { rewrite Hl. unfold Js.length, n, Js.length in *.
    rewrite length_app, length_skipn, firstn_length_le by lia. lia. }
  assert (Hrec : kraRecords w' = l) by (rewrite Hw; reflexivity).
  assert (Hactive : activeKRA w' = Js.index l (activeTabIndex (state w')))
    by (rewrite Hw; reflexivity).
  assert (Hidx : activeTabIndex (state w')
                 = if (i >=? Js.length l) && (Js.length l >? 0)
                   then Js.length l - 1
                   else if Js.length l =? 0 then 0 else i)
    by (rewrite Hw; reflexivity).
  rewrite Hlen in Hidx.
  split; [congruence |]. split; [congruence |]. split; [| split].
  - rewrite Hrec. subst l. intros Hin. apply filter_In in Hin.
    destruct Hin as [_ Hin]. now rewrite Nat.eqb_refl in Hin.
  - intros Hnext.
    assert (Hi : activeTabIndex (state w') = i).
    { rewrite Hidx. destruct (Z.geb_spec i (n - 1)); [lia |]. simpl.
      destruct (Z.eqb_spec (n - 1) 0); [lia | reflexivity]. }
    split; [exact Hi |]. rewrite Hactive, Hi, Hl. unfold Js.index.
    destruct (Z.ltb_spec i 0); [lia |]. destruct (Z.ltb_spec (i + 1) 0); [lia |].
    unfold n, Js.length in *.
    rewrite nth_error_app2 by (rewrite firstn_length_le; lia).
    rewrite firstn_length_le by lia. rewrite Nat.sub_diag, nth_error_skipn.
    f_equal. lia.
  - intros Hlast.
    assert (Hi : activeTabIndex (state w') = Z.max 0 (i - 1)).
    { rewrite Hidx. destruct (Z.geb_spec i (n - 1)); [| lia].
      destruct (Z.gtb_spec (n - 1) 0); simpl; [lia |].
      destruct (Z.eqb_spec (n - 1) 0); lia. }
    split; [exact Hi |]. rewrite Hactive, Hi, Hl. unfold Js.index.
    destruct (Z.ltb_spec (Z.max 0 (i - 1)) 0); [lia |].
    unfold n, Js.length in *.
    destruct (Z.ltb_spec (i - 1) 0) as [Hneg | Hpos].
    + assert (Hz : Z.to_nat i = 0%nat) by lia. rewrite Hz.
      cbn [firstn app]. rewrite nth_error_skipn. apply nth_error_None. lia.
    + rewrite nth_error_app1 by (rewrite firstn_length_le; lia).
      rewrite nth_error_firstn.
      replace (Z.to_nat (Z.max 0 (i - 1))) with (Z.to_nat (i - 1)) by lia.
      destruct (Nat.ltb_spec (Z.to_nat (i - 1)) (Z.to_nat i)); [reflexivity | lia].
Qed.

Lemma delete_KRA_selects_neighbour_witness :
  activeKRA (widget (onDeleteKRA Accessor.Resolved
                       (two_tabs "appraisal.template" 0))) = Some ops
  /\ activeKRA (widget (onDeleteKRA Accessor.Resolved
                          (two_tabs "appraisal.template" 1))) = Some sales.
Proof.
  assert (Hnd : NoDup (map Kra.oid [sales; ops])).
  { simpl. repeat constructor; simpl; intuition discriminate. }
  split.
  - destruct (delete_KRA_selects_neighbour (two_tabs "appraisal.template" 0)
                sales eq_refl eq_refl eq_refl eq_refl Hnd)
      as (_ & _ & _ & H & _).
    rewrite (proj2 (H eq_refl)). reflexivity.
  - destruct (delete_KRA_selects_neighbour (two_tabs "appraisal.template" 1)
                ops eq_refl eq_refl eq_refl eq_refl Hnd)
      as (_ & _ & _ & _ & H).
    rewrite (proj2 (H eq_refl)). reflexivity.
Defined.

(* ------------------------------------------------------------------ *)
(** ** Further properties: the add-KRA flow *)


Lemma names_of_app_one (kras : list Kra.Row) (row : Kra.Row) (n : string) :
  Kra.name (Kra.data row) = Some n -> n <> "" ->
  names_of (kras ++ [row]) = names_of kras ++ [n].
Proof.
  intros Hn Hne. unfold names_of. rewrite map_app, filter_app, flat_map_app.
  simpl. rewrite Hn. simpl. apply String.eqb_neq in Hne. now rewrite Hne.
Qed.



(** What the dialog answers to a typed text. *)
Lemma dialog_verdict (names : list string) (typed : string) :
  snd (AddKraDialog.onConfirm
         {| AddKraDialog.existingNames := Some names |}
         (AddKraDialog.onNameChange typed AddKraDialog.setup))
  = if String.eqb (Js.trim typed) "" || Js.includes names (Js.trim typed)
    then []
    else [AddKraDialog.CallOnConfirm (Js.trim typed); AddKraDialog.CallClose].
Proof.
  unfold AddKraDialog.onConfirm, AddKraDialog.onNameChange.
  cbn [AddKraDialog.kraName AddKraDialog.existingNames].
  destruct (String.eqb (Js.trim typed) ""); [reflexivity |].
  now destruct (Js.includes names (Js.trim typed)).
Qed.

Lemma dialog_accepts (names : list string) (typed : string) :
  String.eqb (Js.trim typed) "" || Js.includes names (Js.trim typed) = false
  <-> Js.trim typed <> "" /\ ~ In (Js.trim typed) names.
Proof.
  rewrite orb_false_iff, String.eqb_neq, <- includes_In.
  split; intros [H1 H2]; (split; [exact H1 |]); [congruence |].
  now destruct (Js.includes names (Js.trim typed)); [destruct H2 |].
Qed.

(** A confirmation either is refused by the dialog and does nothing, or
    creates the KRA named by the trimmed text. *)
Lemma confirmKRA_cases (names : list string) (typed : string)
  (o : Accessor.outcome) (w : Widget) :
  ((Js.trim typed = "" \/ In (Js.trim typed) names)
   /\ confirmKRA names typed o w = done w)
  \/ (Js.trim typed <> "" /\ ~ In (Js.trim typed) names
      /\ confirmKRA names typed o w = createKRA (Js.trim typed) o w).
Proof.
  unfold confirmKRA. rewrite dialog_verdict.
  destruct (String.eqb (Js.trim typed) "" || Js.includes names (Js.trim typed))
    eqn:Hv.
  - left. split; [| reflexivity]. apply orb_true_iff in Hv.
    destruct Hv as [Hv | Hv];
      [left; now apply String.eqb_eq | right; now apply includes_In].
  - right. apply dialog_accepts in Hv. destruct Hv. now repeat split.
Qed.

Lemma createKRA_resolved_records (n : string) (w : Widget) :
  exists row,
    kraRecords (widget (createKRA n Accessor.Resolved w)) = kraRecords w ++ [row]
    /\ Kra.name (Kra.data row) = Some n.
Proof. eexists. split; reflexivity. Qed.

Lemma createKRA_names (n : string) (o : Accessor.outcome) (w : Widget) :
  n <> "" -> ~ In n (existingNames w) -> NoDup (existingNames w) ->
  NoDup (existingNames (widget (createKRA n o w))).
Proof.
  intros Hne Hnin Hnd. destruct o; [| exact Hnd].
  change (NoDup (names_of (kraRecords (widget (createKRA n Accessor.Resolved w))))).
  destruct (createKRA_resolved_records n w) as (row & -> & Hrow).
  rewrite (names_of_app_one _ _ n) by assumption.
  apply NoDup_app; [exact Hnd | repeat constructor; intros [] |].
  intros x Hx [<- | []]. now apply Hnin.
Qed.

(** X12. The add-KRA flow and the names of the KRAs.  On a template widget
    that is not read-only, [onAddKRA] opens the dialog with the non-empty
    names of the KRAs of that moment and changes nothing.  A confirmation of
    the dialog does nothing when the typed text trims to nothing or to a
    name of the list the dialog was opened with; otherwise it runs
    [createKRA] with the trimmed text, which with a resolved call appends
    the KRA of that name and selects it.  The names stay distinct when the
    list the dialog was opened with has every name that a KRA has at the
    confirmation: [createKRA] itself compares nothing. *)
Theorem confirmKRA_keeps_names_distinct (names : list string) (typed : string)
  (o : Accessor.outcome) (w : Widget) :
  let r := confirmKRA names typed o w in
  (readonly (props w) = false -> mode w = "template" ->
   onAddKRA w = {| widget := w; trace := [DialogAdd (existingNames w)];
                   completes := Normal |})
  /\ (incl (existingNames w) names -> NoDup (existingNames w) ->
      NoDup (existingNames (widget r)))
  /\ (Js.trim typed = "" \/ In (Js.trim typed) names -> r = done w)
  /\ (Js.trim typed <> "" -> ~ In (Js.trim typed) names ->
      r = createKRA (Js.trim typed) o w
      /\ (o = Accessor.Resolved ->
          exists row,
            kraRecords (widget r) = kraRecords w ++ [row]
            /\ Kra.name (Kra.data row) = Some (Js.trim typed)
            /\ activeKRA (widget r) = Some row)).
Proof.
  intros r. subst r. split; [| split; [| split]].
  - intros Hro Hm. unfold onAddKRA, isTemplateMode. now rewrite Hro, Hm.
  - intros Hincl Hnd.
    destruct (confirmKRA_cases names typed o w) as [(_ & ->) | (Hne & Hnin & ->)];
      [exact Hnd |].
    apply createKRA_names; try assumption. intros H. apply Hnin. now apply Hincl.
  - intros Hrej.
    destruct (confirmKRA_cases names typed o w) as [(_ & ->) | (Hne & Hnin & _)];
      [reflexivity |].
    destruct Hrej; contradiction.
  - intros Hne Hnin.
    destruct (confirmKRA_cases names typed o w) as [([H | H] & _) | (_ & _ & ->)];
      try contradiction.
    split; [reflexivity |]. intros ->.
    eexists. split; [reflexivity |]. split; [reflexivity |].
    unfold activeKRA. cbn. apply index_last.
Qed.

Lemma confirmKRA_keeps_names_distinct_witness :
  NoDup (existingNames
           (widget (confirmKRA ["Sales"] " Ops " Accessor.Resolved template_widget)))
  /\ confirmKRA ["Sales"] " Sales " Accessor.Resolved template_widget
     = done template_widget
  /\ existingNames
       (widget (confirmKRA ["Sales"] " Ops " Accessor.Resolved template_widget))
     = ["Sales"; "Ops"].
Proof.
  split; [| split].
  - apply (proj1 (proj2 (confirmKRA_keeps_names_distinct ["Sales"] " Ops "
                           Accessor.Resolved template_widget))).
    + intros x Hx. exact Hx.
    + vm_compute. repeat constructor. intros [].
  - apply (proj1 (proj2 (proj2 (confirmKRA_keeps_names_distinct ["Sales"]
                                  " Sales " Accessor.Resolved template_widget)))).
    right. vm_compute. now left.
  - reflexivity.
Defined.

(** Two dialogs opened on the same widget are both given the names of that
    moment; confirming the same new name in both creates two KRAs of that
    name. *)
Example stale_dialog_repeats_name :
  let s := run_all [OpenDialog; OpenDialog;
                    Submit 0 "Ops" Accessor.Resolved;
                    Submit 0 "Ops" Accessor.Resolved]
                   (start template_widget) in
  existingNames (component s) = ["Sales"; "Ops"; "Ops"] /\ dialogs s = [].
Proof. split; reflexivity. Qed.

(* ------------------------------------------------------------------ *)
(** ** Further properties: what the KPI handlers leave alone *)

Lemma tab_of_with_kpi_ids (l : list Kpi.Row) (kra : Kra.Row) :
  tab_of (Kra.with_kpi_ids l kra) = tab_of kra.
Proof. reflexivity. Qed.

Lemma tabs_on_kra (id : nat) (f : list Kpi.Row -> list Kpi.Row)
  (kras : list Kra.Row) :
  map tab_of (Accessor.on_kra id f kras) = map tab_of kras.
Proof.
  unfold Accessor.on_kra. rewrite map_map. apply map_ext. intros k.
  now destruct (Nat.eqb (Kra.oid k) id).
Qed.

Lemma tabs_update_kpi (id : nat) (f : string) (v : Kpi.fieldval)
  (kras : list Kra.Row) :
  map tab_of (Accessor.perform (Accessor.KpiUpdate id f v) kras)
  = map tab_of kras.
Proof. cbn. rewrite map_map. now apply map_ext. Qed.

Lemma same_tabs_refl (w : Widget) : same_tabs w w.
Proof. repeat split. Qed.

Lemma same_tabs_await (c : Accessor.call) (o : Accessor.outcome) (w : Widget) :
  map tab_of (Accessor.perform c (kraRecords w)) = map tab_of (kraRecords w) ->
  same_tabs w (widget (await c o w)).
Proof.
  intros H. destruct o; [| apply same_tabs_refl]. repeat split. exact H.
Qed.

Lemma same_tabs_guarded (c : Accessor.call) (o : Accessor.outcome) (w : Widget)
  (msg : string) :
  isDeleting (state w) = false ->
  map tab_of (Accessor.perform c (kraRecords w)) = map tab_of (kraRecords w) ->
  same_tabs w (widget (finally (set_isDeleting false)
                         (catch_log msg (await c o (set_isDeleting true w))))).
Proof.
  intros Hd H. destruct o; repeat split; try exact H; now rewrite Hd.
Qed.

Lemma onAddKPI_same_tabs (o : Accessor.outcome) (w : Widget) :
  same_tabs w (widget (onAddKPI o w)).
Proof.
  unfold onAddKPI. destruct (readonly (props w)); [apply same_tabs_refl |].
  destruct (activeKRA w); [| apply same_tabs_refl].
  destruct (negb (isTemplateMode w)); [apply same_tabs_refl |].
  apply same_tabs_await, tabs_on_kra.
Qed.

Lemma kpi_handlers_same_tabs (k : Kpi.Row) (o : Accessor.outcome) (w : Widget) :
  same_tabs w (widget (onAddKPI o w))
  /\ same_tabs w (widget (onDuplicateKPI k o w))
  /\ same_tabs w (widget (onDeleteKPI k o w))
  /\ same_tabs w (widget (onRestoreKPI k o w))
  /\ (forall parseFloat field value,
         same_tabs w (widget (onKPIFieldChange parseFloat k field value o w)))
  /\ (forall checked, same_tabs w (widget (onKPICheckboxChange k checked o w))).
Proof.
  split; [| split; [| split; [| split; [| split]]]].
  - apply onAddKPI_same_tabs.
  - unfold onDuplicateKPI. destruct (readonly (props w)); [apply same_tabs_refl |].
    destruct (activeKRA w); [| apply same_tabs_refl].
    apply same_tabs_await, tabs_on_kra.
  - unfold onDeleteKPI. destruct (readonly (props w)); [apply same_tabs_refl |].
    destruct (activeKRA w); [| apply same_tabs_refl].
    destruct (isDeleting (state w)) eqn:Hd; [apply same_tabs_refl |].
    destruct (isSupervisorMode w); [apply same_tabs_refl |].
    destruct (isTemplateMode _);
      [apply same_tabs_guarded; [exact Hd | apply tabs_on_kra] |].
    destruct (isEmployeeMode _).
    + destruct (_ || _); apply same_tabs_guarded; try exact Hd;
        [apply tabs_on_kra | apply tabs_update_kpi].
    + repeat split. cbn. now rewrite Hd.
  - unfold onRestoreKPI. destruct (readonly (props w)); [apply same_tabs_refl |].
    apply same_tabs_await, tabs_update_kpi.
  - intros pf field value. unfold onKPIFieldChange.
    destruct (readonly (props w)); [apply same_tabs_refl |].
    apply same_tabs_await, tabs_update_kpi.
  - intros checked. unfold onKPICheckboxChange.
    destruct (readonly (props w)); [apply same_tabs_refl |].
    apply same_tabs_await, tabs_update_kpi.
Qed.

Lemma onKPIFieldChange_same_tabs (parseFloat : string -> float) (k : Kpi.Row)
  (field value : string) (o : Accessor.outcome) (w : Widget) :
  same_tabs w (widget (onKPIFieldChange parseFloat k field value o w)).
Proof.
  exact (proj1 (proj2 (proj2 (proj2 (proj2 (kpi_handlers_same_tabs k o w)))))
               parseFloat field value).
Qed.

(** X13. The handlers that work on KPIs (add, duplicate, delete, restore,
    field change, checkbox change) never add, remove, reorder or rename a
    KRA, never move the active tab, never change the mode or the read-only
    flag and leave the busy flag as they found it, for every argument, every
    state of the widget and every outcome of the Accessor. *)
Theorem kpi_handlers_keep_tabs (k : Kpi.Row) (o : Accessor.outcome) (w : Widget) :
  same_tabs w (widget (onAddKPI o w))
  /\ same_tabs w (widget (onDuplicateKPI k o w))
  /\ same_tabs w (widget (onDeleteKPI k o w))
  /\ same_tabs w (widget (onRestoreKPI k o w))
  /\ (forall parseFloat field value,
         same_tabs w (widget (onKPIFieldChange parseFloat k field value o w)))
  /\ (forall checked, same_tabs w (widget (onKPICheckboxChange k checked o w))).
Proof. exact (kpi_handlers_same_tabs k o w). Qed.

(* ------------------------------------------------------------------ *)
(** ** Further properties: sessions *)

Lemma same_tabs_index_ok (w w' : Widget) :
  same_tabs w w' -> index_ok w -> index_ok w'.
Proof.
  intros (Ht & Hi & _) H. unfold index_ok, Js.length in *. rewrite Hi.
  apply (f_equal (@List.length _)) in Ht. rewrite !length_map in Ht.
  now rewrite Ht.
Qed.

Lemma index_ok_nonneg (w : Widget) : index_ok w -> 0 <= activeTabIndex (state w).
Proof.
  unfold index_ok, valid_index. pose proof (length_nonneg (kraRecords w)). lia.
Qed.

Lemma createKRA_index_ok (n : string) (o : Accessor.outcome) (w : Widget) :
  index_ok w -> index_ok (widget (createKRA n o w)).
Proof.
  intros H. destruct o; [| exact H]. unfold index_ok, valid_index. cbn.
  rewrite length_app_one. pose proof (length_nonneg (kraRecords w)). lia.
Qed.

Lemma onDeleteKRA_index_ok (o : Accessor.outcome) (w : Widget) :
  index_ok w -> index_ok (widget (onDeleteKRA o w)).
Proof.
  intros H. unfold onDeleteKRA.
  destruct (readonly (props w)); [exact H |].
  destruct (activeKRA w) as [kra |]; [| exact H].
  destruct (isDeleting (state w)); [exact H |].
  destruct (isTemplateMode w); simpl negb; cbv iota; [| exact H].
  destruct o as [| err]; [| exact H].
  unfold finally, catch_log, and_then, await. cbn [completes widget trace].
  set (l := Accessor.perform (Accessor.KraListDelete (Kra.oid kra))
                             (kraRecords (set_isDeleting true w))).
  change (kraRecords (set_records l (set_isDeleting true w))) with l.
  change (activeTabIndex (state (set_records l (set_isDeleting true w))))
    with (activeTabIndex (state w)).
  pose proof (reconcile_cases (activeTabIndex (state w)) (Js.length l)
                (length_nonneg l)) as [_ Hval].
  specialize (Hval (index_ok_nonneg w H)). unfold index_ok.
  destruct ((activeTabIndex (state w) >=? Js.length l) && (Js.length l >? 0));
    [| destruct (Js.length l =? 0)]; exact Hval.
Qed.

(** *** One action *)

Lemma run_open (s : Session.t) :
  component (run OpenDialog s) = component s
  /\ (dialogs (run OpenDialog s) = dialogs s
      \/ (readonly (props (component s)) = false
          /\ dialogs (run OpenDialog s)
             = dialogs s ++ [existingNames (component s)])).
Proof.
  unfold run, onAddKRA. destruct (readonly (props (component s)));
    [split; [reflexivity | now left] |].
  destruct (isTemplateMode (component s)); simpl;
    [split; [reflexivity | now right] | split; [reflexivity | now left]].
Qed.

Lemma run_submit (dialog : nat) (typed : string) (o : Accessor.outcome)
  (s : Session.t) :
  run (Submit dialog typed o) s = s
  \/ exists names,
       nth_error (dialogs s) dialog = Some names
       /\ Js.trim typed <> "" /\ ~ In (Js.trim typed) names
       /\ run (Submit dialog typed o) s
          = {| component := widget (createKRA (Js.trim typed) o (component s));
               dialogs := remove_nth dialog (dialogs s) |}.
Proof.
  unfold run. destruct (nth_error (dialogs s) dialog) as [names |];
    [| now left].
  unfold confirmKRA. rewrite dialog_verdict.
  destruct (String.eqb (Js.trim typed) "" || Js.includes names (Js.trim typed))
    eqn:Hv; [now left |].
  right. exists names. apply dialog_accepts in Hv. destruct Hv.
  now repeat split.
Qed.

Lemma run_all_cons (a : action) (acts : list action) (s : Session.t) :
  run_all (a :: acts) s = run_all acts (run a s).
Proof. reflexivity. Qed.

Lemma run_index_ok (a : action) (s : Session.t) :
  match a with
  | SelectTab index => 0 <= index < Js.length (kraRecords (component s))
  | ReplaceProps nextProps => name nextProps = name (props (component s))
  | _ => True
  end ->
  index_ok (component s) -> index_ok (component (run a s)).
Proof.
  intros Ha H. set (w := component s) in *.
  destruct a as [i | next | | d typed o | k o | o | o | k o | k o |
                 | pf k f v o | k c o].
  - change (index_ok (setActiveTab i w)). unfold index_ok, valid_index.
    change (kraRecords (setActiveTab i w)) with (kraRecords w).
    change (activeTabIndex (state (setActiveTab i w))) with i. lia.
  - change (index_ok (updateProps next w)). unfold index_ok.
    rewrite <- (nextKraCount_same_name next w Ha), onWillUpdateProps_index.
    apply reconcile_cases; [apply nextKraCount_nonneg | now apply index_ok_nonneg].
  - now rewrite (proj1 (run_open s)).
  - destruct (run_submit d typed o s) as [-> | (names & _ & _ & _ & ->)];
      [exact H | now apply createKRA_index_ok].
  - eapply same_tabs_index_ok; [apply (kpi_handlers_same_tabs k o w) | exact H].
  - now apply onDeleteKRA_index_ok.
  - eapply same_tabs_index_ok; [apply (onAddKPI_same_tabs o w) | exact H].
  - eapply same_tabs_index_ok; [apply (kpi_handlers_same_tabs k o w) | exact H].
  - eapply same_tabs_index_ok; [apply (kpi_handlers_same_tabs k o w) | exact H].
  - exact H.
  - eapply same_tabs_index_ok;
      [apply (onKPIFieldChange_same_tabs pf k f v o w) | exact H].
  - eapply same_tabs_index_ok; [apply (kpi_handlers_same_tabs k o w) | exact H].
Qed.

(** X14. The active tab index stays valid through a whole session.  From a
    widget whose index is valid (in particular a fresh one), after any
    sequence of handler calls, dialog submissions and prop replacements,
    with any arguments and any outcomes of the Accessor, the index is valid
    for the collection of that moment, as long as every [setActiveTab] is a
    click on a tab that exists when it is made and every replacement of the
    props keeps the name of the field. *)
Theorem session_keeps_index_valid (acts : list action) :
  (forall s, index_ok (component s) -> admissible acts s ->
             index_ok (component (run_all acts s)))
  /\ (forall p, admissible acts (start (setup p)) ->
                index_ok (component (run_all acts (start (setup p))))).
Proof.
  assert (H : forall s, index_ok (component s) -> admissible acts s ->
                        index_ok (component (run_all acts s))).
  { induction acts as [| a acts IH]; intros s Hok Hadm; [exact Hok |].
    rewrite run_all_cons. destruct Hadm as [Ha Hrest].
    apply IH; [| exact Hrest]. apply run_index_ok; [| exact Hok].
    destruct a; try exact I; exact Ha. }
  split; [exact H |]. intros p. apply H.
  unfold index_ok, valid_index. cbn.
  pose proof (length_nonneg (kraRecords (setup p))). lia.
Qed.

Lemma session_keeps_index_valid_witness :
  index_ok (component
              (run_all [OpenDialog; Submit 0 "Ops" Accessor.Resolved; SelectTab 0;
                        ReplaceProps (props_of "appraisal.template" None false
                                        three_kras);
                        SelectTab 2;
                        ReplaceProps (props_of "appraisal.template" None false
                                        [sales]);
                        DeleteKRA Accessor.Resolved;
                        DeleteKRA (Accessor.Rejected "stale")]
                       (start template_widget))).
Proof.
  refine (proj1 (session_keeps_index_valid _) (start template_widget) _ _).
  - unfold index_ok, valid_index. cbn. lia.
  - cbn. repeat split; lia.
Defined.

(** A replacement of the props that changes the name of the field can leave
    an index that is not valid: here index 2 on one KRA. *)
Example renamed_field_breaks_index :
  let s := run_all [SelectTab 2; ReplaceProps renamed_props]
             (start (widget_of "appraisal.template" None false three_kras (idle 0))) in
  activeTabIndex (state (component s)) = 2
  /\ Js.length (kraRecords (component s)) = 1
  /\ ~ index_ok (component s).
Proof.
  cbn. split; [reflexivity |]. split; [reflexivity |].
  unfold index_ok, valid_index. cbn. lia.
Qed.

Lemma run_isDeleting (a : action) (s : Session.t) :
  isDeleting (state (component s)) = false ->
  isDeleting (state (component (run a s))) = false.
Proof.
  intros Hd. set (w := component s) in *.
  assert (Hsame : forall w', same_tabs w w' -> isDeleting (state w') = false).
  { intros w' (_ & _ & H & _). now rewrite H. }
  destruct a as [i | next | | d typed o | k o | o | o | k o | k o |
                 | pf k f v o | k c o].
  - exact Hd.
  - change (isDeleting (state (updateProps next w)) = false).
    unfold updateProps, onWillUpdateProps. cbn [state].
    destruct (_ && _); [exact Hd |]. destruct (_ =? 0); exact Hd.
  - now rewrite (proj1 (run_open s)).
  - destruct (run_submit d typed o s) as [-> | (names & _ & _ & _ & ->)];
      [exact Hd |].
    cbn [component]. destruct o; exact Hd.
  - apply Hsame, (kpi_handlers_same_tabs k o w).
  - change (isDeleting (state (widget (onDeleteKRA o w))) = false).
    unfold onDeleteKRA. destruct (readonly (props w)); [exact Hd |].
    destruct (activeKRA w); [| exact Hd].
    rewrite Hd.
    destruct (isTemplateMode w); [reflexivity | exact Hd].
  - apply Hsame, (onAddKPI_same_tabs o w).
  - apply Hsame, (kpi_handlers_same_tabs k o w).
  - apply Hsame, (kpi_handlers_same_tabs k o w).
  - exact Hd.
  - apply Hsame, (onKPIFieldChange_same_tabs pf k f v o w).
  - apply Hsame, (kpi_handlers_same_tabs k o w).
Qed.

(** X15. The busy flag is never left set.  After any sequence of handler
    calls, dialog submissions and prop replacements on a fresh widget, with
    any arguments and any outcomes of the Accessor (rejections included),
    [isDeleting] is false: a failed deletion never blocks the deletions that
    follow. *)
Theorem session_never_stays_busy (acts : list action) (p : Props) :
  isDeleting (state (component (run_all acts (start (setup p))))) = false.
Proof.
  assert (H : forall s, isDeleting (state (component s)) = false ->
                        isDeleting (state (component (run_all acts s))) = false).
  { induction acts as [| a acts IH]; intros s Hd; [exact Hd |].
    rewrite run_all_cons. apply IH. now apply run_isDeleting. }
  now apply H.
Qed.






Lemma run_readonly (a : action) (s : Session.t) :
  match a with ReplaceProps _ => False | _ => True end ->
  readonly (props (component s)) = true -> dialogs s = [] ->
  props (component (run a s)) = props (component s)
  /\ isDeleting (state (component (run a s))) = isDeleting (state (component s))
  /\ dialogs (run a s) = [].
Proof.
  intros Ha Hro Hd.
  destruct a as [i | next | | d typed o | k o | o | o | k o | k o |
                 | pf k f v o | k c o]; cbn [run];
    try (now repeat split); try now destruct Ha.
  - unfold onAddKRA. rewrite Hro. now repeat split.
  - rewrite Hd. destruct d; now repeat split.
  - unfold onDuplicateKPI. rewrite Hro. now repeat split.
  - unfold onDeleteKRA. rewrite Hro. now repeat split.
  - unfold onAddKPI. rewrite Hro. now repeat split.
  - unfold onDeleteKPI. rewrite Hro. now repeat split.
  - unfold onRestoreKPI. rewrite Hro. now repeat split.
  - unfold onKPIFieldChange. rewrite Hro. now repeat split.
  - unfold onKPICheckboxChange. rewrite Hro. now repeat split.
Qed.

(** X17. A read-only widget never touches its record.  From a read-only
    widget with no dialog open, through any sequence of handler calls and
    dialog submissions (the add-KRA flow included), whatever the mode, the
    arguments and the outcomes, the props of the widget, and so the rows of
    its record, are the ones it started with; only the tab selection and the
    restore panel can change. *)
Theorem readonly_session_keeps_record (acts : list action) (w : Widget) :
  same_props acts -> readonly (props w) = true ->
  let w' := component (run_all acts (start w)) in
  props w' = props w
  /\ kraRecords w' = kraRecords w
  /\ isDeleting (state w') = isDeleting (state w).
Proof.
  intros Hacts Hro w'. subst w'.
  assert (H : forall s, readonly (props (component s)) = true -> dialogs s = [] ->
                        props (component (run_all acts s)) = props (component s)
                        /\ isDeleting (state (component (run_all acts s)))
                           = isDeleting (state (component s))).
  { clear w Hro. induction Hacts as [| a acts Ha _ IH]; intros s Hro Hd;
      [now split |].
    rewrite run_all_cons.
    destruct (run_readonly a s Ha Hro Hd) as (Hp & Hb & Hd').
    destruct (IH (run a s)) as (IHp & IHb); [now rewrite Hp | exact Hd' |].
    split; congruence. }
  destruct (H (start w) Hro eq_refl) as (Hp & Hb).
  split; [exact Hp |]. split; [| exact Hb].
  unfold kraRecords. now rewrite Hp.
Qed.

Lemma readonly_session_keeps_record_witness :
  kraRecords (component
                (run_all [OpenDialog; Submit 0 "Ops" Accessor.Resolved;
                          DeleteKRA Accessor.Resolved;
                          DeleteKPI (kpi 2 false 5 4 true false) Accessor.Resolved;
                          SelectTab 3; ToggleRestorePanel]
                         (start readonly_widget)))
  = [sales].
Proof.
  refine (proj1 (proj2 (readonly_session_keeps_record _ readonly_widget _ eq_refl))).
  repeat constructor.
Defined.

(* ------------------------------------------------------------------ *)
(** ** Further properties: editing a row *)






(** X19. The checkbox and the delete and restore buttons agree.  Ticking
    the checkbox of a row is [onRestoreKPI]; in employee mode, past the
    guards of [onDeleteKPI] and with a resolved call, unticking the checkbox
    of a saved row that is no clone leaves the widget that [onDeleteKPI]
    leaves. *)
Theorem checkbox_agrees_with_buttons (k : Kpi.Row) (w : Widget) :
  (forall o, onKPICheckboxChange k true o w = onRestoreKPI k o w)
  /\ (forall kra,
         readonly (props w) = false -> activeKRA w = Some kra ->
         isDeleting (state w) = false -> mode w = "employee" ->
         Kpi.isNew k = false -> Kpi.is_clone (Kpi.data k) <> Some true ->
         widget (onKPICheckboxChange k false Accessor.Resolved w)
         = widget (onDeleteKPI k Accessor.Resolved w)).
Proof.
  split; [reflexivity |].
  intros kra Hro Hact Hd Hm Hnew Hclone.
  rewrite (onDeleteKPI_resolved k w kra Hro Hact Hd)
    by (unfold isSupervisorMode; now rewrite Hm).
  unfold isTemplateMode, isEmployeeMode. rewrite Hm.
  cbn [String.eqb Ascii.eqb Bool.eqb]. rewrite Hnew.
  destruct (Kpi.is_clone (Kpi.data k)) as [[|] |];
    [now destruct Hclone | |];
    unfold onKPICheckboxChange; rewrite Hro; reflexivity.
Qed.

Lemma checkbox_agrees_with_buttons_witness :
  widget (onKPICheckboxChange (kpi 2 false 5 4 true false) false
            Accessor.Resolved employee_widget)
  = widget (onDeleteKPI (kpi 2 false 5 4 true false) Accessor.Resolved
              employee_widget).
Proof.
  refine (proj2 (checkbox_agrees_with_buttons (kpi 2 false 5 4 true false)
                   employee_widget) sales eq_refl eq_refl eq_refl eq_refl
                eq_refl _).
  discriminate.
Defined.

(* ------------------------------------------------------------------ *)
(** ** The ORM variant: teardown, loading and optimistic edits *)

Module OrmProperties.

Import OrmKraTabs.

Ltac step :=
  cbv beta iota zeta delta
    [safeLoadKras loadKras setActiveKra loadKpisForKra addKpi deleteKpi
     onKpiChange onWillUpdateProps onWillStart try_catch bind this assign log
     ret throw await];
  cbn [widget awaited trace fst snd props isDestroyed state kras activeKraId
       activeKraKpis set_isDestroyed set_kras set_activeKraId
       set_activeKraKpis].

Lemma world_eta (s : world) :
  {| widget := widget s; awaited := awaited s; trace := trace s |} = s.
Proof. now destruct s. Qed.

(** X20. After the widget is unmounted, [safeLoadKras], [setActiveKra],
    [addKpi], [deleteKpi] and the [onWillUpdateProps] callback call nothing
    and change nothing.  [loadKpisForKra] calls nothing either, but it
    empties [activeKraKpis]; [onKpiChange] has no such test and still sends
    its write for a KPI it finds. *)
Theorem unmounted_widget_is_inert (env : nat -> reply) (s : world) :
  isDestroyed (widget s) = true ->
  safeLoadKras env s = (inl tt, s)
  /\ (forall kraId, setActiveKra env kraId s = (inl tt, s))
  /\ addKpi env s = (inl tt, s)
  /\ (forall kpiId, deleteKpi env kpiId s = (inl tt, s))
  /\ (forall nextProps, onWillUpdateProps env nextProps s = (inl tt, s))
  /\ (forall kraId,
         loadKpisForKra env kraId s
         = (inl tt, {| widget := set_activeKraKpis [] (widget s);
                       awaited := awaited s; trace := trace s |}))
  /\ (forall Number kpiId field value,
         existsb (has_id kpiId) (activeKraKpis (state (widget s))) = true ->
         exists v rest,
           trace (snd (onKpiChange env Number kpiId field value s))
           = trace s ++ WriteKpi kpiId field v :: rest).
Proof.
  intros Hd. repeat split.
  - step. now rewrite Hd.
  - intros kraId. step. now rewrite Hd.
  - step. rewrite Hd. now rewrite !orb_true_r.
  - intros kpiId. step. rewrite Hd. now rewrite orb_true_r.
  - intros nextProps. step. now rewrite Hd.
  - intros kraId. step. rewrite Hd. now rewrite orb_true_r.
  - intros Number kpiId field value Hfound. step. rewrite Hfound. cbn [negb].
    eexists.
    destruct (rejects (env (awaited s))) as [err |];
      [| eexists; cbn; reflexivity].
    destruct (unmounts (env (awaited s)));
      cbn [widget awaited trace fst snd props isDestroyed state kras
           activeKraId activeKraKpis set_isDestroyed set_kras set_activeKraId
           set_activeKraKpis];
      rewrite ?Hd, ?orb_true_r; eexists; cbn; reflexivity.
Qed.

Lemma unmounted_widget_is_inert_witness :
  addKpi (fun _ => good_reply) (start (set_isDestroyed true loaded))
  = (inl tt, start (set_isDestroyed true loaded)).
Proof.
  destruct (unmounted_widget_is_inert (fun _ => good_reply)
              (start (set_isDestroyed true loaded)) eq_refl)
    as (_ & _ & H & _).
  exact H.
Defined.

Ltac proj :=
  cbn [widget awaited trace fst snd props isDestroyed state kras activeKraId
       activeKraKpis set_isDestroyed set_kras set_activeKraId
       set_activeKraKpis].

Ltac proj_in H :=
  cbn [widget awaited trace fst snd props isDestroyed state kras activeKraId
       activeKraKpis set_isDestroyed set_kras set_activeKraId
       set_activeKraKpis] in H.

Lemma loadKpisForKra_frame (env : nat -> reply) (kraId : option Z) (s : world) :
  let s' := snd (loadKpisForKra env kraId s) in
  kras (state (widget s')) = kras (state (widget s))
  /\ activeKraId (state (widget s')) = activeKraId (state (widget s))
  /\ props (widget s') = props (widget s).
Proof.
  step. destruct (negb (truthy kraId) || isDestroyed (widget s));
    [repeat split |].
  destruct (rejects (env (awaited s))); proj.
  - destruct (unmounts (env (awaited s))); repeat split.
  - destruct (unmounts (env (awaited s))); proj; [repeat split |].
    destruct (isDestroyed (widget s)); repeat split.
Qed.

Lemma setActiveKra_frame (env : nat -> reply) (kraId : option Z) (s : world) :
  let s' := snd (setActiveKra env kraId s) in
  kras (state (widget s')) = kras (state (widget s))
  /\ props (widget s') = props (widget s)
  /\ (isDestroyed (widget s) = false ->
      activeKraId (state (widget s')) = kraId).
Proof.
  unfold setActiveKra, bind, this, assign, ret. proj.
  destruct (isDestroyed (widget s)) eqn:Hd; [repeat split; discriminate |].
  match goal with
  | |- context [loadKpisForKra env kraId ?s0] =>
      pose proof (loadKpisForKra_frame env kraId s0) as Hf;
      destruct (loadKpisForKra env kraId s0) as [[[] | err] s1]
  end; cbn [snd] in Hf; proj; proj_in Hf; destruct Hf as (Hk & Ha & Hp).
  - destruct (truthy (data_id (props (widget s1)))); [| now repeat split].
    unfold await. destruct (rejects (env (awaited s1))); proj;
      destruct (unmounts (env (awaited s1))); proj; now repeat split.
  - now repeat split.
Qed.

Lemma active_ok_queries (w : Widget) :
  active_ok w -> (hasKras w = true <-> getActiveKra w <> None).
Proof.
  unfold active_ok, hasKras, getActiveKra.
  destruct (activeKraId (state w)) as [a |].
  - intros [k [Hin Hid]]. split.
    + intros _ Hnone. apply (find_none _ _ Hnone) in Hin.
      rewrite Hid, Z.eqb_refl in Hin. discriminate.
    + intros _. destruct (kras (state w)); [destruct Hin | reflexivity].
  - intros ->. simpl. split; [discriminate | intros H; now destruct H].
Qed.

(** X21. The active KRA stays consistent through a load.  If the active id
    names a KRA of the list (or both are empty) before [loadKras], it does
    so after, for every environment: replies that reject, replies that
    arrive after the widget was unmounted, empty and non-empty results.  A
    load that completes on a mounted widget establishes it from any state,
    and then [hasKras()] holds exactly when [getActiveKra()] finds a KRA. *)
Theorem load_keeps_active_consistent (env : nat -> reply) (s : world) :
  let r := loadKras env s in
  (active_ok (widget s) -> active_ok (widget (snd r)))
  /\ (fst r = inl tt -> isDestroyed (widget (snd r)) = false ->
      active_ok (widget (snd r))
      /\ (hasKras (widget (snd r)) = true
          <-> getActiveKra (widget (snd r)) <> None)).
Proof.
  cbv zeta.
  assert (H : (active_ok (widget s) ->
               active_ok (widget (snd (loadKras env s))))
              /\ (fst (loadKras env s) = inl tt ->
                  isDestroyed (widget (snd (loadKras env s))) = false ->
                  active_ok (widget (snd (loadKras env s))))).
  2:{ destruct H as [H1 H2]. split; [exact H1 |]. intros Hn Hm.
      split; [now apply H2 | apply active_ok_queries; now apply H2]. }
  unfold loadKras, bind, this, assign, ret, await. proj.
  destruct (truthy (data_id (props (widget s)))); cbn [negb]; proj;
    [| split; intros; reflexivity].
  destruct (rejects (env (awaited s))) as [err |]; proj.
  { split; [| discriminate]. destruct (unmounts (env (awaited s))); trivial. }
  destruct (unmounts (env (awaited s))); proj.
  { split; [trivial | intros _ H; proj_in H; congruence]. }
  destruct (isDestroyed (widget s)) eqn:Hd; proj.
  { split; [trivial | intros _ H; proj_in H; congruence]. }
  destruct (kra_rows (env (awaited s))) as [| k0 rows] eqn:Hrows.
  { cbn [existsb negb]. proj. split; intros; reflexivity. }
  match goal with
  | |- context [if negb ?b then _ else _] => destruct b eqn:Hex
  end; cbn [negb].
  - assert (Hok : active_ok (set_kras (k0 :: rows) (widget s))).
    { unfold active_ok. proj.
      revert Hex. destruct (activeKraId (state (widget s))) as [a |];
        intros Hex; apply existsb_exists in Hex; destruct Hex as [k [Hin Hk]];
        [| discriminate].
      exists k. split; [exact Hin | now apply Z.eqb_eq]. }
    destruct (truthy (activeKraId (state (widget s)))).
    + match goal with
      | |- context [loadKpisForKra env ?a ?s0] =>
          pose proof (loadKpisForKra_frame env a s0) as Hf;
          destruct (loadKpisForKra env a s0) as [res s1]
      end. cbn [snd fst] in *. proj_in Hf. destruct Hf as (Hk & Ha & _).
      assert (Hs1 : active_ok (widget s1)).
      { unfold active_ok in *. proj_in Hok. now rewrite Hk, Ha. }
      split; intros; exact Hs1.
    + split; intros; exact Hok.
  - match goal with
    | |- context [setActiveKra env ?a ?s0] =>
        pose proof (setActiveKra_frame env a s0) as Hf;
        destruct (setActiveKra env a s0) as [res s1]
    end. cbn [snd fst] in *. proj_in Hf. destruct Hf as (Hk & _ & Ha).
    specialize (Ha Hd).
    assert (Hs1 : active_ok (widget s1)).
    { unfold active_ok. rewrite Ha, Hk. exists k0. split; [now left | reflexivity]. }
    split; intros; exact Hs1.
Qed.

Lemma load_keeps_active_consistent_witness :
  active_ok (widget (snd (loadKras (fun _ => good_reply)
                                   (start (setup template_props))))).
Proof.
  destruct (load_keeps_active_consistent (fun _ => good_reply)
              (start (setup template_props))) as (_ & H).
  exact (proj1 (H eq_refl eq_refl)).
Defined.

(** X22. A load that is rejected, or whose reply arrives after the widget
    was unmounted, is discarded: [loadKras] on a mounted widget of a saved
    record makes its one [searchRead] and leaves [kras], [activeKraId] and
    [activeKraKpis] as they were; a rejection is thrown to the caller. *)
Theorem stale_load_is_discarded (env : nat -> reply) (s : world) :
  isDestroyed (widget s) = false ->
  truthy (data_id (props (widget s))) = true ->
  unmounts (env (awaited s)) = true \/ rejects (env (awaited s)) <> None ->
  let r := loadKras env s in
  state (widget (snd r)) = state (widget s)
  /\ trace (snd r) = trace s ++ [SearchReadKra (data_id (props (widget s)))]
  /\ (forall err, rejects (env (awaited s)) = Some err -> fst r = inr err).
Proof.
  intros Hd Hid Hstale. cbv zeta.
  unfold loadKras, bind, this, assign, ret, await. proj. rewrite Hid.
  cbn [negb].
  destruct (rejects (env (awaited s))) as [err |] eqn:Hr; proj.
  - repeat split.
    + now destruct (unmounts (env (awaited s))).
    + intros err' H. now inversion H.
  - destruct Hstale as [Hu | Hn]; [| now destruct Hn]. rewrite Hu. proj.
    repeat split. discriminate.
Qed.

Lemma stale_load_is_discarded_witness :
  state (widget (snd (loadKras (fun _ => unmounting_reply) (start loaded))))
  = state loaded.
Proof.
  refine (proj1 (stale_load_is_discarded (fun _ => unmounting_reply)
                   (start loaded) eq_refl eq_refl _)).
  now left.
Defined.

Lemma get_put (key : string) (v : jsval) (obj : KpiObj) :
  get key (put key v obj) = Some v.
Proof.
  induction obj as [| [k x] r IH]; simpl.
  - now rewrite String.eqb_refl.
  - destruct (String.eqb k key) eqn:Hk; simpl; now rewrite Hk.
Qed.

Lemma update_first_In (p : KpiObj -> bool) (f : KpiObj -> KpiObj)
  (l : list KpiObj) :
  existsb p l = true ->
  exists k, In k l /\ p k = true /\ In (f k) (update_first p f l)
            /\ List.length (update_first p f l) = List.length l.
Proof.
  induction l as [| k r IH]; simpl; [discriminate |].
  destruct (p k) eqn:Hk.
  - intros _. exists k. split; [now left |]. split; [exact Hk |].
    split; [now left | reflexivity].
  - simpl. intros H. destruct (IH H) as (k' & Hin & Hp & Hf & Hl).
    exists k'. split; [now right |]. split; [exact Hp |].
    split; [now right | now rewrite Hl].
Qed.

(** X23. The optimistic edit of [onKpiChange].  For an id that no loaded KPI
    has, nothing is called and nothing changes.  Otherwise the first KPI
    with that id gets the new value at once, a number for [score] (0 when
    [Number] gives NaN) and the text as it is for any other field, and one
    write is sent.  When the write rejects on a mounted widget with an
    active KRA, the KPIs are read again, the list becomes what the server
    returns, and the rejection is thrown again to the caller. *)
Theorem onKpiChange_edits_then_reloads_on_failure
  (env : nat -> reply) (Number : string -> option Z)
  (kpiId : jsval) (field value : string) (s : world) :
  let v := if String.eqb field "score" then VNum (Js.or0 (Number value))
           else VStr value in
  let r := onKpiChange env Number kpiId field value s in
  let found := existsb (has_id kpiId) (activeKraKpis (state (widget s))) in
  (found = false -> r = (inl tt, s))
  /\ (found = true -> rejects (env (awaited s)) = None ->
      fst r = inl tt
      /\ trace (snd r) = trace s ++ [WriteKpi kpiId field v]
      /\ List.length (activeKraKpis (state (widget (snd r))))
         = List.length (activeKraKpis (state (widget s)))
      /\ exists k, In k (activeKraKpis (state (widget s)))
                   /\ has_id kpiId k = true
                   /\ In (put field v k) (activeKraKpis (state (widget (snd r))))
                   /\ get field (put field v k) = Some v)
  /\ (found = true -> forall err,
      rejects (env (awaited s)) = Some err ->
      unmounts (env (awaited s)) = false ->
      isDestroyed (widget s) = false ->
      truthy (activeKraId (state (widget s))) = true ->
      rejects (env (S (awaited s))) = None ->
      unmounts (env (S (awaited s))) = false ->
      fst r = inr err
      /\ activeKraKpis (state (widget (snd r))) = kpi_rows (env (S (awaited s)))
      /\ trace (snd r)
         = trace s ++ [WriteKpi kpiId field v;
                       SearchReadKpi (activeKraId (state (widget s)))]).
Proof.
  cbv zeta. split; [| split].
  - intros Hf. step. rewrite Hf. reflexivity.
  - intros Hf Hr. step. rewrite Hf. cbn [negb]. step. rewrite Hr. proj.
    split; [reflexivity |]. split; [reflexivity |].
    destruct (update_first_In (has_id kpiId)
                (put field (if String.eqb field "score"
                            then VNum (Js.or0 (Number value)) else VStr value))
                _ Hf) as (k & Hin & Hp & Hfk & Hlen).
    split.
    + destruct (unmounts (env (awaited s))); proj; exact Hlen.
    + exists k. repeat split; try assumption; [| apply get_put].
      destruct (unmounts (env (awaited s))); proj; exact Hfk.
  - intros Hf err Hr Hu Hd Hact Hr2 Hu2. step.
    rewrite Hf. cbn [negb]. step. rewrite Hr, Hu. step.
    rewrite Hact, Hd. cbn [negb orb]. step.
    rewrite Hr2, Hu2. step. rewrite Hd. step.
    repeat split. now rewrite <- app_assoc.
Qed.

Lemma onKpiChange_edits_then_reloads_on_failure_witness :
  fst (onKpiChange (fun n => match n with
                             | O => failing_reply
                             | _ => good_reply
                             end)
         (fun _ => None) (VNum 21) "score" "abc" (start loaded))
  = inr "server".
Proof.
  destruct (onKpiChange_edits_then_reloads_on_failure
              (fun n => match n with O => failing_reply | _ => good_reply end)
              (fun _ => None) (VNum 21) "score" "abc" (start loaded))
    as (_ & _ & H).
  exact (proj1 (H eq_refl "server" eq_refl eq_refl eq_refl eq_refl eq_refl
                  eq_refl)).
Defined.

(** X24. [addKpi] never throws: a rejection of its [create], or of the
    reload that follows, is logged with [console.error] and swallowed, and
    after a rejected [create] the lists are as before.  [deleteKpi] has no
    such net: a rejected [unlink] is thrown to the caller, with no reload.
    Without an active KRA [addKpi] calls nothing. *)
Theorem addKpi_swallows_deleteKpi_throws (env : nat -> reply) (s : world) :
  (exists s', addKpi env s = (inl tt, s'))
  /\ (truthy (activeKraId (state (widget s))) = false -> addKpi env s = (inl tt, s))
  /\ (forall err,
         readonly (props (widget s)) = false ->
         isDestroyed (widget s) = false ->
         rejects (env (awaited s)) = Some err ->
         (truthy (activeKraId (state (widget s))) = true ->
          trace (snd (addKpi env s))
          = trace s ++ [CreateKpi (activeKraId (state (widget s)));
                        ConsoleError "Failed to add KPI:" err]
          /\ state (widget (snd (addKpi env s))) = state (widget s))
         /\ (forall kpiId,
                fst (deleteKpi env kpiId s) = inr err
                /\ trace (snd (deleteKpi env kpiId s))
                   = trace s ++ [UnlinkKpi kpiId]
                /\ state (widget (snd (deleteKpi env kpiId s)))
                   = state (widget s))).
Proof.
  split; [| split].
  - unfold addKpi, bind, this, ret, try_catch, log.
    destruct (readonly (props (widget s))
              || negb (truthy (activeKraId (state (widget s))))
              || isDestroyed (widget s)); [now exists s |].
    match goal with
    | |- context [match ?m with (a, b) => _ end] => destruct m as [[[] | err] s1]
    end; eexists; reflexivity.
  - intros Hn. unfold addKpi, bind, this, ret. rewrite Hn. cbn [negb].
    now rewrite orb_true_r.
  - intros err Hro Hd Hr. split.
    + intros Hact. step. rewrite Hro, Hact, Hd. cbn [negb orb]. step.
      rewrite Hr. step.
      split; [now rewrite <- app_assoc |].
      now destruct (unmounts (env (awaited s))).
    + intros kpiId. step. rewrite Hro, Hd. cbn [orb]. step. rewrite Hr. step.
      repeat split. now destruct (unmounts (env (awaited s))).
Qed.

Lemma addKpi_swallows_deleteKpi_throws_witness :
  fst (deleteKpi (fun _ => failing_reply) (VNum 21) (start loaded)) = inr "server"
  /\ fst (addKpi (fun _ => failing_reply) (start loaded)) = inl tt.
Proof.
  destruct (addKpi_swallows_deleteKpi_throws (fun _ => failing_reply)
              (start loaded)) as ([s' Hs'] & _ & H).
  split.
  - exact (proj1 (proj2 (H "server" eq_refl eq_refl eq_refl) (VNum 21))).
  - now rewrite Hs'.
Defined.

(** X25. Selecting a KRA in the ORM variant.  On a mounted widget
    [setActiveKra] records the selection before it awaits anything, so the
    selection is made whatever the calls do; with replies that resolve while
    the widget stays mounted it then loads the KPIs of that KRA and, for a
    saved record, writes [active_kra_id]; for an unsaved record it writes
    nothing. *)
Theorem setActiveKra_selects_then_persists (env : nat -> reply)
  (kraId : option Z) (s : world) :
  isDestroyed (widget s) = false ->
  let r := setActiveKra env kraId s in
  activeKraId (state (widget (snd r))) = kraId
  /\ isActiveKra kraId (widget (snd r)) = true
  /\ (truthy kraId = true -> rejects (env (awaited s)) = None ->
      unmounts (env (awaited s)) = false ->
      activeKraKpis (state (widget (snd r))) = kpi_rows (env (awaited s))
      /\ trace (snd r)
         = trace s ++ SearchReadKpi kraId
             :: (if truthy (data_id (props (widget s)))
                 then [WriteTemplate (data_id (props (widget s))) kraId]
                 else [])).
Proof.
  intros Hd. cbv zeta.
  pose proof (setActiveKra_frame env kraId s) as (_ & _ & Ha).
  specialize (Ha Hd). split; [exact Ha |]. split.
  - unfold isActiveKra. rewrite Ha. destruct kraId; [apply Z.eqb_refl | reflexivity].
  - intros Ht Hr Hu. step. rewrite Hd. step. rewrite Ht, ?Hd.
    cbn [negb orb]. step. rewrite Hr, Hu. step. rewrite ?Hd. step.
    destruct (truthy (data_id (props (widget s)))); step.
    + destruct (rejects (env (S (awaited s)))); proj;
        destruct (unmounts (env (S (awaited s)))); proj;
        split; try reflexivity; now rewrite <- app_assoc.
    + split; reflexivity.
Qed.

Lemma setActiveKra_selects_then_persists_witness :
  trace (snd (setActiveKra (fun _ => good_reply) (Some 12) (start loaded)))
  = [SearchReadKpi (Some 12); WriteTemplate (Some 5) (Some 12)].
Proof.
  destruct (setActiveKra_selects_then_persists (fun _ => good_reply) (Some 12)
              (start loaded) eq_refl) as (_ & _ & H).
  exact (proj2 (H eq_refl eq_refl eq_refl)).
Defined.

End OrmProperties.
